(** * The mining RPC layer of the node: [src/rpc/mining.cpp]

    A shallow embedding of [generateBlocks], [BIP22ValidationResult],
    [getblocktemplate], [submitblock_StateCatcher] and [submitblock], and the
    properties of the template cache, the long-poll wait, block submission,
    the direct-mining loop and the template's dependency indices.

    The file depends on the rest of the node (chain state, mempool, block
    assembler, validation engine, clocks, shutdown flag) only through calls,
    so these collaborators are two interfaces here: [Primitives] for the pure
    helpers and [Node] for everything that reads or changes the node. *)

From Stdlib Require Import ZArith String List Bool Lia.
From stdpp Require Import base option list gmap.
Import ListNotations.

Local Open Scope string_scope.
Local Open Scope list_scope.
Local Open Scope Z_scope.

(** ** Data *)

(** A [uint256] block or transaction hash. *)
Definition uint256 := N.

(** The address of a [CBlockIndex] object; a [CBlockIndex*] is an
    [option ptr], [None] being [nullptr]. Two pointers are compared as
    addresses, never by what they point to. *)
Definition ptr := N.

Definition CScript := list Z.
Definition OP_TRUE : Z := 81.

(** [std::numeric_limits<uint32_t>::max()] *)
Definition UINT32_MAX : Z := 4294967295.

(** [unsigned int x = v] for a 64-bit [v]. *)
Definition to_uint32 (v : Z) : Z := v mod 2 ^ 32.

(** The range of an [int], 32 bits in two's complement. *)
Definition INT_MIN : Z := -2147483648.
Definition INT_MAX : Z := 2147483647.

(** The [int] an [int] operation leaves when its exact result is [v]: [v]
    itself within the range, and wrapped around by a multiple of 2^32
    outside of it. *)
Definition to_int (v : Z) : Z := (v + 2 ^ 31) mod 2 ^ 32 - 2 ^ 31.

Inductive RPCErrorCode :=
| RPC_MISC_ERROR
| RPC_TYPE_ERROR
| RPC_INVALID_PARAMETER
| RPC_INTERNAL_ERROR
| RPC_OUT_OF_MEMORY
| RPC_DESERIALIZATION_ERROR
| RPC_VERIFY_ERROR
| RPC_CLIENT_NOT_CONNECTED
| RPC_CLIENT_IN_INITIAL_DOWNLOAD
| RPC_CLIENT_P2P_DISABLED.

(** A call either returns a value or throws [JSONRPCError(code, message)].
    [NullDeref] stands for the one thing the code can do that C++ leaves
    undefined: going through a [CBlockIndex*] that is null. *)
Inductive rpc (A : Type) :=
| Return (a : A)
| Throw (code : RPCErrorCode) (message : string)
| NullDeref.
Arguments Return {A} a.
Arguments Throw {A} code message.
Arguments NullDeref {A}.

Record COutPoint := { op_hash : uint256; op_n : Z }.
Record CTxIn := { prevout : COutPoint }.

(** [CTransaction] caches its hashes in members; [GetHash] and
    [GetWitnessHash] read them. *)
Record CTransaction := {
  vin : list CTxIn;
  tx_hash : uint256;
  tx_witness_hash : uint256
}.

Record CBlock := {
  nVersion : Z;
  hashPrevBlock : uint256;
  nTime : Z;
  nBits : Z;
  nNonce : Z;
  vtx : list CTransaction
}.

Definition set_nNonce (b : CBlock) (n : Z) : CBlock :=
  {| nVersion := nVersion b; hashPrevBlock := hashPrevBlock b; nTime := nTime b;
     nBits := nBits b; nNonce := n; vtx := vtx b |}.

Record CBlockTemplate := {
  block : CBlock;
  vTxFees : list Z;
  vTxSigOpsCost : list Z
}.

Definition set_block (t : CBlockTemplate) (b : CBlock) : CBlockTemplate :=
  {| block := b; vTxFees := vTxFees t; vTxSigOpsCost := vTxSigOpsCost t |}.

(** The members of [CBlockIndex] this file reads. *)
Record CBlockIndex := {
  phashBlock : uint256;
  nHeight : Z;
  nStatus : Z
}.

(** One element of the ["transactions"] array of a template. *)
Record TxEntry := {
  e_txid : uint256;
  e_hash : uint256;
  e_depends : list Z;
  e_fee : Z;
  e_sigops : Z
}.

(** The template object. The long-poll id is kept as its two parts (on the
    wire: the hash in hex followed by the counter in decimal). The members
    that only render constants or values of functions outside this file
    (coinbaseaux, coinbasevalue, target, mintime, sigoplimit, sizelimit) are
    left out. *)
Record TemplateResult := {
  r_capabilities : list string;
  r_version : Z;
  r_rules : list string;
  r_previousblockhash : uint256;
  r_transactions : list TxEntry;
  r_longpollid : uint256 * Z;
  r_mutable : list string;
  r_noncerange : string;
  r_curtime : Z;
  r_bits : Z;
  r_height : Z
}.

Inductive UniValue :=
| NullUniValue
| VSTR (s : string)
| VOBJ (o : TemplateResult).

(** A JSON value of the request, as far as the code tells them apart:
    [isNull], [isStr], anything else. *)
Inductive JVal :=
| JNull
| JStr (s : string)
| JOther.

(** [request.params[0]] when it is an object: its three keys that are read
    ([find_value] gives null for a missing key). *)
Record TemplateRequest := {
  modeval : JVal;
  lpval : JVal;
  dataval : JVal
}.

(** ** Collaborators *)

(** A [BlockValidationState] is used through its default constructor
    ([state_init]) and five member functions only. *)
Class ValidationState (S : Type) := {
  state_init : S;
  IsValid : S -> bool;
  IsInvalid : S -> bool;
  IsError : S -> bool;
  GetRejectReason : S -> string;
  ToString : S -> string
}.

(** The pure helpers and constants declared in other files. *)
Class Primitives := {
  GetHash : CBlock -> uint256;
  IsCoinBase : CTransaction -> bool;
  CheckProofOfWork : uint256 -> Z -> bool;
  DecodeHexBlk : string -> option CBlock;
  ParseHashV : string -> rpc uint256;
  atoi64 : string -> Z;
  BLOCK_VALID_SCRIPTS : Z;
  BLOCK_FAILED_MASK : Z;
  CBlockIndex_IsValid : CBlockIndex -> Z -> bool;
  PACKAGE_NAME : string
}.

(** What [ProcessNewBlock] hands back: its return value, what it stored
    through [fNewBlock], the [BlockChecked] signals it sent while it ran, and
    the node afterwards. *)
Record Processed (S W : Type) := {
  accepted : bool;
  fNewBlock : bool;
  signals : list (CBlock * S);
  after : W
}.
Arguments accepted {S W} _.
Arguments fNewBlock {S W} _.
Arguments signals {S W} _.
Arguments after {S W} _.

(** The node, seen from this file. [W] is the state of everything outside:
    a read is a function of [W], a call that may change the node returns the
    new [W] as well. [ShutdownRequested] polls a flag another thread sets,
    so a poll also returns the node as it is by then. *)
Class Node (S W : Type) := {
  ChainActive_Tip : W -> option ptr;
  ChainActive_Height : W -> Z;
  LookupBlockIndex : W -> uint256 -> option ptr;
  deref : W -> ptr -> CBlockIndex;
  IsInitialBlockDownload : W -> bool;
  has_connman : W -> bool;
  GetNodeCount : W -> Z;
  GetTransactionsUpdated : W -> Z;
  GetTime : W -> Z;
  steady_clock_now : W -> Z;
  g_best_block : W -> uint256;
  IsRPCRunning : W -> bool;
  ShutdownRequested : W -> bool * W;
  CreateNewBlock : CScript -> W -> option CBlockTemplate * W;
  IncrementExtraNonce : CBlock -> option ptr -> Z -> W -> CBlock * Z * W;
  UpdateTime : CBlock -> W -> CBlock;
  TestBlockValidity : CBlock -> ptr -> W -> S * W;
  ProcessNewBlock : CBlock -> bool -> W -> Processed S W;
  UpdateUncommittedBlockStructures : CBlock -> ptr -> W -> CBlock
}.

(** ** [BIP22ValidationResult] *)

Section Classifier.
Context {S : Type} `{!ValidationState S}.

Definition BIP22ValidationResult (state : S) : rpc UniValue :=
  if IsValid state then Return NullUniValue
  else if IsError state then Throw RPC_VERIFY_ERROR (ToString state)
  else if IsInvalid state then
    let strRejectReason := GetRejectReason state in
    if String.eqb strRejectReason EmptyString then Return (VSTR "rejected")
    else Return (VSTR strRejectReason)
  else Return (VSTR "valid?").

End Classifier.

(** ** Calls into the node

    Every function below also reports, in order, the calls it made to the
    block assembler and the validation engine. *)
Inductive Call :=
| CallCreateNewBlock (script : CScript)
| CallTestBlockValidity (blk : CBlock)
| CallUpdateUncommittedBlockStructures (blk : CBlock)
| CallRegisterSharedValidationInterface (hash : uint256)
| CallProcessNewBlock (blk : CBlock) (fForceProcessing : bool)
| CallUnregisterSharedValidationInterface (hash : uint256).

(** The result of running a piece of code: what it gave back, the state it
    left, the calls it made. *)
Record Ran (St A : Type) := {
  result : A;
  final : St;
  calls : list Call
}.
Arguments result {St A} _.
Arguments final {St A} _.
Arguments calls {St A} _.

(** The function-local statics of [getblocktemplate], zero-initialised. *)
Record Statics := {
  nTransactionsUpdatedLast : Z;
  pindexPrev : option ptr;
  nStart : Z;
  pblocktemplate : option CBlockTemplate
}.

Definition statics_init : Statics :=
  {| nTransactionsUpdatedLast := 0; pindexPrev := None; nStart := 0;
     pblocktemplate := None |}.

Definition ptr_eqb (p q : option ptr) : bool :=
  match p, q with
  | Some a, Some b => (a =? b)%N
  | None, None => true
  | _, _ => false
  end.

(** [s.substr(pos)] for [pos <= s.size()]. *)
Fixpoint substr_from (pos : nat) (s : string) : string :=
  match pos, s with
  | O, _ => s
  | Datatypes.S pos', String _ s' => substr_from pos' s'
  | Datatypes.S _, EmptyString => EmptyString
  end.

(** How the long-poll wait stands: the loop was left, or the thread is still
    inside [wait_until]. *)
Inductive WaitStatus :=
| Woken
| Suspended.

(** [wt_node] is the node as last seen, [wt_checktxtime] the deadline then in
    force, [wt_checks] every read of the mempool counter the loop made, as
    (deadline that had elapsed, time of the read), oldest first. *)
Record Waited (W : Type) := {
  wt_status : WaitStatus;
  wt_node : W;
  wt_checktxtime : Z;
  wt_checks : list (Z * Z)
}.
Arguments wt_status {W} _.
Arguments wt_node {W} _.
Arguments wt_checktxtime {W} _.
Arguments wt_checks {W} _.

(** What a [getblocktemplate] call has come to: an answer, or nothing yet
    because it is still in the long-poll wait. *)
Inductive Answer :=
| Answered (r : rpc UniValue)
| NotYet (checktxtime : Z).

(** ** [getblocktemplate] *)

Section GetBlockTemplate.
Context {S W : Type} `{!ValidationState S, !Primitives, !Node S W}.

Definition ran {St A : Type} (r : A) (st : St) (cs : list Call) : Ran St A :=
  {| result := r; final := st; calls := cs |}.

(** Proposal mode, lines 448-475. *)
Definition proposal (dataval : JVal) (w : W) : Ran W (rpc UniValue) :=
  match dataval with
  | JStr data =>
    match DecodeHexBlk data with
    | None => ran (Throw RPC_DESERIALIZATION_ERROR "Block decode failed") w []
    | Some blk =>
      let hash := GetHash blk in
      match LookupBlockIndex w hash with
      | Some pindex =>
        if CBlockIndex_IsValid (deref w pindex) BLOCK_VALID_SCRIPTS
        then ran (Return (VSTR "duplicate")) w []
        else if negb (Z.land (nStatus (deref w pindex)) BLOCK_FAILED_MASK =? 0)
        then ran (Return (VSTR "duplicate-invalid")) w []
        else ran (Return (VSTR "duplicate-inconclusive")) w []
      | None =>
        match ChainActive_Tip w with
        | None => ran NullDeref w []
        | Some pindexPrev =>
          (* TestBlockValidity only supports blocks built on the current Tip *)
          if negb (hashPrevBlock blk =? phashBlock (deref w pindexPrev))%N
          then ran (Return (VSTR "inconclusive-not-best-prevblk")) w []
          else
            let '(state, w') := TestBlockValidity blk pindexPrev w in
            ran (BIP22ValidationResult state) w' [CallTestBlockValidity blk]
        end
      end
    end
  | _ => ran (Throw RPC_TYPE_ERROR "Missing data String key for proposal") w []
  end.

(** The three refusals of lines 481-488. *)
Definition check_node (w : W) : rpc unit :=
  if negb (has_connman w)
  then Throw RPC_CLIENT_P2P_DISABLED
         "Error: Peer-to-peer functionality missing or disabled"
  else if GetNodeCount w =? 0
  then Throw RPC_CLIENT_NOT_CONNECTED (String.append PACKAGE_NAME " is not connected!")
  else if IsInitialBlockDownload w
  then Throw RPC_CLIENT_IN_INITIAL_DOWNLOAD
         (String.append PACKAGE_NAME " is in initial sync and waiting for blocks...")
  else Return tt.

(** The watch token, lines 500-513: from the string, or for any other
    non-null value from the tip and the static counter. [ParseHashV] throws
    unless it is given 64 hex digits, so [substr(64)] stays in range. *)
Definition watch_token (lp : JVal) (st : Statics) (w : W) : rpc (uint256 * Z) :=
  match lp with
  | JStr lpstr =>
    match ParseHashV (String.substring 0 64 lpstr) with
    | Return hashWatchedChain =>
      Return (hashWatchedChain, to_uint32 (atoi64 (substr_from 64 lpstr)))
    | Throw c m => Throw c m
    | NullDeref => NullDeref
    end
  | _ =>
    match ChainActive_Tip w with
    | Some tip => Return (phashBlock (deref w tip), nTransactionsUpdatedLast st)
    | None => NullDeref
    end
  end.

(** The wait loop, lines 521-531, with [cs_main] released. [script] is what
    the other threads do meanwhile: the node as it is each time [wait_until]
    returns. [wait_until(lock, checktxtime)] gives [cv_status::timeout] when
    the clock has reached [checktxtime] on return. Times are in seconds. *)
Fixpoint wait_loop (hashWatchedChain : uint256) (nTransactionsUpdatedLastLP : Z)
    (checktxtime : Z) (w : W) (script : list W) (checks : list (Z * Z)) : Waited W :=
  if (g_best_block w =? hashWatchedChain)%N && IsRPCRunning w then
    match script with
    | [] => {| wt_status := Suspended; wt_node := w;
               wt_checktxtime := checktxtime; wt_checks := checks |}
    | w' :: script' =>
      if checktxtime <=? steady_clock_now w' then
        (* Timeout: Check transactions for update *)
        let checks' := checks ++ [(checktxtime, steady_clock_now w')] in
        if negb (GetTransactionsUpdated w' =? nTransactionsUpdatedLastLP)
        then {| wt_status := Woken; wt_node := w';
                wt_checktxtime := checktxtime; wt_checks := checks' |}
        else wait_loop hashWatchedChain nTransactionsUpdatedLastLP
               (checktxtime + 10) w' script' checks'
      else wait_loop hashWatchedChain nTransactionsUpdatedLastLP
             checktxtime w' script' checks
    end
  else {| wt_status := Woken; wt_node := w;
          wt_checktxtime := checktxtime; wt_checks := checks |}.

(** Lines 516-520: the first deadline is one minute from now. *)
Definition longpoll_wait (token : uint256 * Z) (w : W) (script : list W) : Waited W :=
  wait_loop (fst token) (snd token) (steady_clock_now w + 60) w script [].

(** The template cache, lines 541-563. *)
Definition update_block (st : Statics) (w : W) : Ran (Statics * W) (rpc unit) :=
  if negb (ptr_eqb (pindexPrev st) (ChainActive_Tip w))
     || (negb (GetTransactionsUpdated w =? nTransactionsUpdatedLast st)
         && (5 <? GetTime w - nStart st))
  then
    (* Clear pindexPrev so future calls make a new block, despite any
       failures from here on *)
    (* Store the pindexBest used before CreateNewBlock, to avoid races *)
    let nTransactionsUpdatedLast' := GetTransactionsUpdated w in
    let pindexPrevNew := ChainActive_Tip w in
    let nStart' := GetTime w in
    let scriptDummy := [OP_TRUE] in
    let '(tpl, w') := CreateNewBlock scriptDummy w in
    match tpl with
    | None =>
      ran (Throw RPC_OUT_OF_MEMORY "Out of memory")
          ({| nTransactionsUpdatedLast := nTransactionsUpdatedLast';
              pindexPrev := None; nStart := nStart'; pblocktemplate := None |}, w')
          [CallCreateNewBlock scriptDummy]
    | Some t =>
      (* Need to update only after we know CreateNewBlock succeeded *)
      ran (Return tt)
          ({| nTransactionsUpdatedLast := nTransactionsUpdatedLast';
              pindexPrev := pindexPrevNew; nStart := nStart';
              pblocktemplate := Some t |}, w')
          [CallCreateNewBlock scriptDummy]
    end
  else ran (Return tt) (st, w) [].

(** When the cache is out of date: there is no entry, or the tip is not the
    cached one, or the mempool counter is not the cached one and more than 5
    seconds have passed since the last build. *)
Definition rebuild_due (st : Statics) (w : W) : Prop :=
  pindexPrev st = None
  \/ pindexPrev st <> ChainActive_Tip w
  \/ (GetTransactionsUpdated w <> nTransactionsUpdatedLast st
      /\ 5 < GetTime w - nStart st).

(** One turn of the loop over [pblock->vtx], lines 576-605. The state is
    [setTxIndex], [i] and [transactions]. [setTxIndex.count(h)] followed by
    [setTxIndex[h]] is a lookup. [vTxFees] and [vTxSigOpsCost] have one entry
    per transaction of [vtx]; an index past their end, which C++ leaves
    undefined, reads as 0. *)
Definition add_transaction (tpl : CBlockTemplate)
    (acc : gmap N Z * Z * list TxEntry) (tx : CTransaction)
    : gmap N Z * Z * list TxEntry :=
  let '(setTxIndex, i, transactions) := acc in
  let txHash := tx_hash tx in
  let setTxIndex := <[txHash := i]> setTxIndex in
  let i := i + 1 in
  if IsCoinBase tx then (setTxIndex, i, transactions)
  else
    let deps := omap (fun txin : CTxIn => setTxIndex !! op_hash (prevout txin)) (vin tx) in
    let index_in_template := i - 1 in
    let entry :=
      {| e_txid := txHash;
         e_hash := tx_witness_hash tx;
         e_depends := deps;
         e_fee := nth (Z.to_nat index_in_template) (vTxFees tpl) 0;
         e_sigops := nth (Z.to_nat index_in_template) (vTxSigOpsCost tpl) 0 |} in
    (setTxIndex, i, transactions ++ [entry]).

(** The loop over the transactions [l], from the empty [setTxIndex], [i = 0]
    and no entries. *)
Definition tx_loop (tpl : CBlockTemplate) (l : list CTransaction)
    : gmap N Z * Z * list TxEntry :=
  fold_left (add_transaction tpl) l (∅, 0, []).

Definition template_transactions (tpl : CBlockTemplate) : list TxEntry :=
  snd (tx_loop tpl (vtx (block tpl))).

(** [tx] has an input that spends an output of [tx']. *)
Definition spends (tx tx' : CTransaction) : Prop :=
  exists txin : CTxIn, txin ∈ vin tx /\ op_hash (prevout txin) = tx_hash tx'.

(** [deps] are the indices in [l], all below [k], of transactions that [tx]
    spends from, and one is there for every input of [tx] that spends from a
    transaction of [l] below [k]. *)
Definition depends_on_earlier (l : list CTransaction) (k : nat) (tx : CTransaction)
    (deps : list Z) : Prop :=
  (forall d : Z, d ∈ deps ->
   0 <= d < Z.of_nat k /\
   exists tx' : CTransaction, l !! Z.to_nat d = Some tx' /\ spends tx tx') /\
  (forall txin : CTxIn, txin ∈ vin tx ->
   (exists (j : nat) (tx' : CTransaction),
      (j < k)%nat /\ l !! j = Some tx' /\ tx_hash tx' = op_hash (prevout txin)) <->
   (exists (d : Z) (tx' : CTransaction),
      d ∈ deps /\ l !! Z.to_nat d = Some tx' /\ tx_hash tx' = op_hash (prevout txin))).

(** What the block assembler hands over: the coinbase first and only there,
    and no transaction that names itself as the origin of one of its
    inputs (a transaction's hash covers its inputs). *)
Definition well_formed_vtx (l : list CTransaction) : Prop :=
  (exists (cb : CTransaction) (rest : list CTransaction),
     l = cb :: rest /\ IsCoinBase cb = true
     /\ Forall (fun tx => IsCoinBase tx = false) rest)
  /\ Forall (fun tx => Forall (fun txin : CTxIn => op_hash (prevout txin) <> tx_hash tx)
                              (vin tx)) l.

(** Lines 540-642: bring the cache up to date, refresh time and nonce of the
    cached block in place, and render it. [CHECK_NONFATAL] throws a
    [NonFatalCheckError], which the server reports as [RPC_MISC_ERROR]. *)
Definition template_answer (st : Statics) (w : W) : Ran (Statics * W) (rpc UniValue) :=
  let r := update_block st w in
  let '(st1, w1) := final r in
  match result r with
  | Return _ =>
    match pindexPrev st1 with
    | None => ran (Throw RPC_MISC_ERROR "Internal bug detected: 'pindexPrev'")
                  (st1, w1) (calls r)
    | Some pprev =>
      match pblocktemplate st1 with
      | None => ran NullDeref (st1, w1) (calls r)
      | Some tpl =>
        let pblock := set_nNonce (UpdateTime (block tpl) w1) 0 in
        let tpl' := set_block tpl pblock in
        let st2 :=
          {| nTransactionsUpdatedLast := nTransactionsUpdatedLast st1;
             pindexPrev := pindexPrev st1; nStart := nStart st1;
             pblocktemplate := Some tpl' |} in
        match ChainActive_Tip w1 with
        | None => ran NullDeref (st2, w1) (calls r)
        | Some tip =>
          ran (Return (VOBJ
                 {| r_capabilities := ["proposal"];
                    r_version := nVersion pblock;
                    r_rules := ["csv"; "!segwit"];
                    r_previousblockhash := hashPrevBlock pblock;
                    r_transactions := template_transactions tpl';
                    r_longpollid := (phashBlock (deref w1 tip),
                                     nTransactionsUpdatedLast st1);
                    r_mutable := ["time"; "transactions"; "prevblock"];
                    r_noncerange := "00000000ffffffff";
                    r_curtime := nTime pblock;
                    r_bits := nBits pblock;
                    r_height := nHeight (deref w1 pprev) + 1 |}))
              (st2, w1) (calls r)
        end
      end
    end
  | Throw c m => ran (Throw c m) (st1, w1) (calls r)
  | NullDeref => ran NullDeref (st1, w1) (calls r)
  end.

Definition answered {St : Type} (r : Ran St (rpc UniValue)) : Ran St Answer :=
  ran (Answered (result r)) (final r) (calls r).

(** Template mode, lines 478-642. *)
Definition template_mode (lp : JVal) (st : Statics) (w : W) (script : list W)
    : Ran (Statics * W) Answer :=
  match check_node w with
  | Return _ =>
    match lp with
    | JNull => answered (template_answer st w)
    | _ =>
      match watch_token lp st w with
      | Return token =>
        let wt := longpoll_wait token w script in
        match wt_status wt with
        | Suspended => ran (NotYet (wt_checktxtime wt)) (st, wt_node wt) []
        | Woken =>
          if negb (IsRPCRunning (wt_node wt))
          then ran (Answered (Throw RPC_CLIENT_NOT_CONNECTED "Shutting down"))
                   (st, wt_node wt) []
          else answered (template_answer st (wt_node wt))
        end
      | Throw c m => ran (Answered (Throw c m)) (st, w) []
      | NullDeref => ran (Answered NullDeref) (st, w) []
      end
    end
  | Throw c m => ran (Answered (Throw c m)) (st, w) []
  | NullDeref => ran (Answered NullDeref) (st, w) []
  end.

(** Lines 431-446: the mode is ["template"] unless the request names one. *)
Definition request_mode (request : option TemplateRequest) : rpc string :=
  match request with
  | None => Return "template"
  | Some oparam =>
    match modeval oparam with
    | JStr s => Return s
    | JNull => Return "template"
    | JOther => Throw RPC_INVALID_PARAMETER "Invalid mode"
    end
  end.

Definition getblocktemplate (request : option TemplateRequest) (st : Statics)
    (w : W) (script : list W) : Ran (Statics * W) Answer :=
  match request_mode request with
  | Return strMode =>
    let lp := match request with Some oparam => lpval oparam | None => JNull end in
    match request with
    | Some oparam =>
      if String.eqb strMode "proposal" then
        let r := proposal (dataval oparam) w in
        ran (Answered (result r)) (st, final r) (calls r)
      else if negb (String.eqb strMode "template")
      then ran (Answered (Throw RPC_INVALID_PARAMETER "Invalid mode")) (st, w) []
      else template_mode lp st w script
    | None => template_mode lp st w script
    end
  | Throw c m => ran (Answered (Throw c m)) (st, w) []
  | NullDeref => ran (Answered NullDeref) (st, w) []
  end.

End GetBlockTemplate.

(** ** [submitblock] *)

(** [class submitblock_StateCatcher]: the observer registered around one
    submission. *)
Record submitblock_StateCatcher (S : Type) := {
  sc_hash : uint256;
  sc_found : bool;
  sc_state : S
}.
Arguments sc_hash {S} _.
Arguments sc_found {S} _.
Arguments sc_state {S} _.

Section SubmitBlock.
Context {S W : Type} `{!ValidationState S, !Primitives, !Node S W}.

(** The constructor: [hash(hashIn), found(false), state()]. *)
Definition StateCatcher (hashIn : uint256) : submitblock_StateCatcher S :=
  {| sc_hash := hashIn; sc_found := false; sc_state := state_init |}.

Definition BlockChecked (sc : submitblock_StateCatcher S) (blk : CBlock) (stateIn : S)
    : submitblock_StateCatcher S :=
  if negb (GetHash blk =? sc_hash sc)%N then sc
  else {| sc_hash := sc_hash sc; sc_found := true; sc_state := stateIn |}.

Definition deliver (sc : submitblock_StateCatcher S) (sigs : list (CBlock * S))
    : submitblock_StateCatcher S :=
  fold_left (fun c sig => BlockChecked c (fst sig) (snd sig)) sigs sc.

(** Lines 690-702: the answer for a block the index already has, if any. *)
Definition known_block (w : W) (hash : uint256) : option string :=
  match LookupBlockIndex w hash with
  | Some pindex =>
    if CBlockIndex_IsValid (deref w pindex) BLOCK_VALID_SCRIPTS then Some "duplicate"
    else if negb (Z.land (nStatus (deref w pindex)) BLOCK_FAILED_MASK =? 0)
    then Some "duplicate-invalid"
    else None
  | None => None
  end.

(** Lines 704-723: hand the block to the engine with the observer
    registered, and read the outcome. *)
Definition process_submission (blk : CBlock) (w : W) : Ran W (rpc UniValue) :=
  let '(blk, cs) :=
    match LookupBlockIndex w (hashPrevBlock blk) with
    | Some pindex => (UpdateUncommittedBlockStructures blk pindex w,
                      [CallUpdateUncommittedBlockStructures blk])
    | None => (blk, [])
    end in
  let sc := StateCatcher (GetHash blk) in
  let p := ProcessNewBlock blk true w in
  let sc := deliver sc (signals p) in
  let cs := cs ++ [CallRegisterSharedValidationInterface (GetHash blk);
                   CallProcessNewBlock blk true;
                   CallUnregisterSharedValidationInterface (GetHash blk)] in
  if negb (fNewBlock p) && accepted p then ran (Return (VSTR "duplicate")) (after p) cs
  else if negb (sc_found sc) then ran (Return (VSTR "inconclusive")) (after p) cs
  else ran (BIP22ValidationResult (sc_state sc)) (after p) cs.

Definition submitblock (hexdata : string) (w : W) : Ran W (rpc UniValue) :=
  match DecodeHexBlk hexdata with
  | None => ran (Throw RPC_DESERIALIZATION_ERROR "Block decode failed") w []
  | Some blk =>
    if match vtx blk with [] => true | tx0 :: _ => negb (IsCoinBase tx0) end
    then ran (Throw RPC_DESERIALIZATION_ERROR "Block does not start with a coinbase") w []
    else
      match known_block w (GetHash blk) with
      | Some answer => ran (Return (VSTR answer)) w []
      | None => process_submission blk w
      end
  end.

(** The block as it is handed to the engine (lines 704-710). *)
Definition committed (blk : CBlock) (w : W) : CBlock :=
  match LookupBlockIndex w (hashPrevBlock blk) with
  | Some pindex => UpdateUncommittedBlockStructures blk pindex w
  | None => blk
  end.

(** The signals that are about the block with hash [h]. *)
Definition heard (h : uint256) (sigs : list (CBlock * S)) : list (CBlock * S) :=
  List.filter (fun sig => (GetHash (fst sig) =? h)%N) sigs.

End SubmitBlock.

(** ** [generateBlocks] *)

Section GenerateBlocks.
Context {S W : Type} `{!ValidationState S, !Primitives, !Node S W}.

(** The nonce search, line 61. Each turn takes one try, so [nMaxTries]
    turns are enough; [tries] counts them down. *)
Fixpoint search_nonce (tries : nat) (pblock : CBlock) (nMaxTries : Z) (w : W)
    : CBlock * Z * W :=
  match tries with
  | O => (pblock, nMaxTries, w)
  | Datatypes.S tries' =>
    if (0 <? nMaxTries) && (nNonce pblock <? UINT32_MAX)
       && negb (CheckProofOfWork (GetHash pblock) (nBits pblock))
    then
      let '(shutdown, w) := ShutdownRequested w in
      if shutdown then (pblock, nMaxTries, w)
      else search_nonce tries' (set_nNonce pblock (nNonce pblock + 1)) (nMaxTries - 1) w
    else (pblock, nMaxTries, w)
  end.

(** The loop of lines 51-76, at most [rounds] turns of it; the result is
    [None] when that was not enough for the loop to end. *)
Fixpoint generate_loop (rounds : nat) (coinbase_script : CScript)
    (nHeightEnd nHeight nMaxTries nExtraNonce : Z) (blockHashes : list uint256)
    (w : W) (cs : list Call) : Ran W (option (rpc (list uint256))) :=
  match rounds with
  | O => ran None w cs
  | Datatypes.S rounds' =>
    if nHeight <? nHeightEnd then
      let '(shutdown, w) := ShutdownRequested w in
      if shutdown then ran (Some (Return blockHashes)) w cs
      else
        let '(pblocktemplate, w) := CreateNewBlock coinbase_script w in
        let cs := cs ++ [CallCreateNewBlock coinbase_script] in
        match pblocktemplate with
        | None =>
          ran (Some (Throw RPC_INTERNAL_ERROR "Couldn't create new block")) w cs
        | Some tpl =>
          let '(pblock, nExtraNonce, w) :=
            IncrementExtraNonce (block tpl) (ChainActive_Tip w) nExtraNonce w in
          let '(pblock, nMaxTries, w) :=
            search_nonce (Z.to_nat nMaxTries) pblock nMaxTries w in
          if nMaxTries =? 0 then ran (Some (Return blockHashes)) w cs
          else
            let '(shutdown, w) := ShutdownRequested w in
            if shutdown then ran (Some (Return blockHashes)) w cs
            else if nNonce pblock =? UINT32_MAX then
              generate_loop rounds' coinbase_script nHeightEnd nHeight nMaxTries
                nExtraNonce blockHashes w cs
            else
              let p := ProcessNewBlock pblock true w in
              let cs := cs ++ [CallProcessNewBlock pblock true] in
              if negb (accepted p) then
                ran (Some (Throw RPC_INTERNAL_ERROR
                             "ProcessNewBlock, block not accepted")) (after p) cs
              else
                generate_loop rounds' coinbase_script nHeightEnd (nHeight + 1)
                  nMaxTries nExtraNonce (blockHashes ++ [GetHash pblock])
                  (after p) cs
        end
    else ran (Some (Return blockHashes)) w cs
  end.

(** [nGenerate] is an [int], [nMaxTries] a [uint64_t]. [nHeightEnd] is the
    [int] sum of two [int]s (line 47). C++ leaves a signed sum out of range
    undefined; it is taken here as the machine addition leaves it, wrapped
    around, so that past [INT_MAX] the end height is a negative one. Inside
    the loop [++nHeight] runs below [nHeightEnd] only, so it stays in
    range. *)
Definition generateBlocks (rounds : nat) (coinbase_script : CScript)
    (nGenerate nMaxTries : Z) (w : W) : Ran W (option (rpc (list uint256))) :=
  let nHeight := ChainActive_Height w in
  let nHeightEnd := to_int (nHeight + nGenerate) in
  generate_loop rounds coinbase_script nHeightEnd nHeight nMaxTries 0 [] w [].

(** Whether the nonce search of line 61 is left through its last test,
    [!ShutdownRequested()]: a poll made by the search read true. *)
Fixpoint search_interrupted (tries : nat) (pblock : CBlock) (nMaxTries : Z) (w : W)
    : bool :=
  match tries with
  | O => false
  | Datatypes.S tries' =>
    if (0 <? nMaxTries) && (nNonce pblock <? UINT32_MAX)
       && negb (CheckProofOfWork (GetHash pblock) (nBits pblock))
    then
      let '(shutdown, w) := ShutdownRequested w in
      if shutdown then true
      else search_interrupted tries' (set_nNonce pblock (nNonce pblock + 1))
             (nMaxTries - 1) w
    else false
  end.

End GenerateBlocks.

(** The variables of the loop of lines 51-76 as they stand between two
    turns, with the node and the calls made so far. *)
Record LoopState (W : Type) := {
  ls_nHeight : Z;
  ls_nMaxTries : Z;
  ls_nExtraNonce : Z;
  ls_blockHashes : list uint256;
  ls_node : W;
  ls_calls : list Call
}.
Arguments ls_nHeight {W} _.
Arguments ls_nMaxTries {W} _.
Arguments ls_nExtraNonce {W} _.
Arguments ls_blockHashes {W} _.
Arguments ls_node {W} _.
Arguments ls_calls {W} _.

Section GenerateTurns.
Context {S W : Type} `{!ValidationState S, !Primitives, !Node S W}.

(** One turn of the loop that runs to its end: it reaches lines 74-75 with a
    block mined, or line 69 with the nonces used up. [None] when the loop is
    left in this turn: by its test, by a [break] or by a [throw]. *)
Definition generate_turn (coinbase_script : CScript) (nHeightEnd : Z)
    (s : LoopState W) : option (LoopState W) :=
  if ls_nHeight s <? nHeightEnd then
    let '(shutdown, w) := ShutdownRequested (ls_node s) in
    if shutdown then None
    else
      let '(pblocktemplate, w) := CreateNewBlock coinbase_script w in
      let cs := ls_calls s ++ [CallCreateNewBlock coinbase_script] in
      match pblocktemplate with
      | None => None
      | Some tpl =>
        let '(pblock, nExtraNonce, w) :=
          IncrementExtraNonce (block tpl) (ChainActive_Tip w) (ls_nExtraNonce s) w in
        let '(pblock, nMaxTries, w) :=
          search_nonce (Z.to_nat (ls_nMaxTries s)) pblock (ls_nMaxTries s) w in
        if nMaxTries =? 0 then None
        else
          let '(shutdown, w) := ShutdownRequested w in
          if shutdown then None
          else if nNonce pblock =? UINT32_MAX then
            Some {| ls_nHeight := ls_nHeight s; ls_nMaxTries := nMaxTries;
                    ls_nExtraNonce := nExtraNonce;
                    ls_blockHashes := ls_blockHashes s; ls_node := w;
                    ls_calls := cs |}
          else
            let p := ProcessNewBlock pblock true w in
            let cs := cs ++ [CallProcessNewBlock pblock true] in
            if negb (accepted p) then None
            else
              Some {| ls_nHeight := ls_nHeight s + 1; ls_nMaxTries := nMaxTries;
                      ls_nExtraNonce := nExtraNonce;
                      ls_blockHashes := ls_blockHashes s ++ [GetHash pblock];
                      ls_node := after p; ls_calls := cs |}
      end
  else None.

(** [k] such turns in a row. *)
Fixpoint generate_turns (k : nat) (coinbase_script : CScript) (nHeightEnd : Z)
    (s : LoopState W) : option (LoopState W) :=
  match k with
  | O => Some s
  | Datatypes.S k' =>
    match generate_turn coinbase_script nHeightEnd s with
    | Some s' => generate_turns k' coinbase_script nHeightEnd s'
    | None => None
    end
  end.

(** The loop as [generateBlocks] enters it (lines 41-50). *)
Definition loop_start (nMaxTries : Z) (w : W) : LoopState W :=
  {| ls_nHeight := ChainActive_Height w; ls_nMaxTries := nMaxTries;
     ls_nExtraNonce := 0; ls_blockHashes := []; ls_node := w; ls_calls := [] |}.

(** The loop, taken up at the state [s]. *)
Definition loop_from (rounds : nat) (coinbase_script : CScript) (nHeightEnd : Z)
    (s : LoopState W) : Ran W (option (rpc (list uint256))) :=
  generate_loop rounds coinbase_script nHeightEnd (ls_nHeight s) (ls_nMaxTries s)
    (ls_nExtraNonce s) (ls_blockHashes s) (ls_node s) (ls_calls s).

End GenerateTurns.

(** ** A small node to run the functions on

    A validation state with the three outcomes of the engine and a fourth
    value that answers no to all three queries, pure helpers over small
    numbers, and a node whose collaborators are driven by a few fields. *)

Inductive ToyState :=
| TValid
| TInvalid (reason : string)
| TError (message : string)
| TOther.

#[export] Instance ToyState_ops : ValidationState ToyState := {|
  state_init := TValid;
  IsValid s := match s with TValid => true | _ => false end;
  IsInvalid s := match s with TInvalid _ => true | _ => false end;
  IsError s := match s with TError _ => true | _ => false end;
  GetRejectReason s := match s with TInvalid r => r | _ => EmptyString end;
  ToString s :=
    match s with
    | TValid => "Valid"
    | TInvalid r => r
    | TError m => m
    | TOther => EmptyString
    end
|}.

Definition toy_coinbase : CTransaction :=
  {| vin := [{| prevout := {| op_hash := 0%N; op_n := UINT32_MAX |} |}];
     tx_hash := 1000%N; tx_witness_hash := 1000%N |}.

Definition toy_decode (s : string) : option CBlock :=
  match s with
  | EmptyString => None
  | _ => Some {| nVersion := 1; hashPrevBlock := N.of_nat (String.length s);
                 nTime := 0; nBits := 1; nNonce := 0; vtx := [toy_coinbase] |}
  end.

#[export] Instance ToyPrimitives : Primitives := {|
  GetHash b := (hashPrevBlock b * 100 + Z.to_N (nNonce b))%N;
  IsCoinBase tx :=
    match vin tx with
    | [txin] => (op_hash (prevout txin) =? 0)%N
    | _ => false
    end;
  CheckProofOfWork h bits := (h mod Z.to_N bits =? 0)%N;
  DecodeHexBlk := toy_decode;
  ParseHashV s := Return (N.of_nat (String.length s));
  atoi64 s := Z.of_nat (String.length s);
  BLOCK_VALID_SCRIPTS := 5;
  BLOCK_FAILED_MASK := 96;
  CBlockIndex_IsValid idx nUpTo :=
    if negb (Z.land (nStatus idx) 96 =? 0) then false
    else nUpTo <=? Z.land (nStatus idx) 7;
  PACKAGE_NAME := "Verium"
|}.

Record ToyNode := {
  toy_tip : option ptr;
  toy_height : Z;
  toy_index : list (ptr * CBlockIndex);
  toy_ibd : bool;
  toy_peers : Z;
  toy_txupdated : Z;
  toy_time : Z;
  toy_steady : Z;
  toy_best : uint256;
  toy_running : bool;
  toy_polls : option nat;
  toy_oom : bool;
  toy_bits : Z;
  toy_pool : list CTransaction;
  toy_accept : bool;
  toy_new : bool;
  toy_verdict : option ToyState
}.

Definition toy_deref (w : ToyNode) (p : ptr) : CBlockIndex :=
  match find (fun e => (fst e =? p)%N) (toy_index w) with
  | Some e => snd e
  | None => {| phashBlock := 0%N; nHeight := 0; nStatus := 0 |}
  end.

Definition toy_lookup (w : ToyNode) (h : uint256) : option ptr :=
  match find (fun e => (phashBlock (snd e) =? h)%N) (toy_index w) with
  | Some e => Some (fst e)
  | None => None
  end.

(** The flag reads false for [toy_polls] polls, then true; never, if
    [None]. *)
Definition toy_poll (w : ToyNode) : bool * ToyNode :=
  match toy_polls w with
  | None => (false, w)
  | Some O => (true, w)
  | Some (Datatypes.S n) =>
    (false,
     {| toy_tip := toy_tip w; toy_height := toy_height w; toy_index := toy_index w;
        toy_ibd := toy_ibd w; toy_peers := toy_peers w;
        toy_txupdated := toy_txupdated w; toy_time := toy_time w;
        toy_steady := toy_steady w; toy_best := toy_best w;
        toy_running := toy_running w; toy_polls := Some n; toy_oom := toy_oom w;
        toy_bits := toy_bits w; toy_pool := toy_pool w;
        toy_accept := toy_accept w; toy_new := toy_new w;
        toy_verdict := toy_verdict w |})
  end.

Definition toy_assemble (script : CScript) (w : ToyNode) : option CBlockTemplate * ToyNode :=
  if toy_oom w then (None, w)
  else
    (Some {| block :=
               {| nVersion := 1;
                  hashPrevBlock :=
                    match toy_tip w with
                    | Some p => phashBlock (toy_deref w p)
                    | None => 0%N
                    end;
                  nTime := toy_time w; nBits := toy_bits w; nNonce := 0;
                  vtx := toy_coinbase :: toy_pool w |};
             vTxFees := map (fun _ => 10) (toy_coinbase :: toy_pool w);
             vTxSigOpsCost := map (fun _ => 4) (toy_coinbase :: toy_pool w) |}, w).

(** An accepted new block becomes the tip, at the address of its hash. *)
Definition toy_connect (h : uint256) (w : ToyNode) : ToyNode :=
  {| toy_tip := Some h; toy_height := toy_height w + 1;
     toy_index := (h, {| phashBlock := h; nHeight := toy_height w + 1;
                         nStatus := 5 |}) :: toy_index w;
     toy_ibd := toy_ibd w; toy_peers := toy_peers w;
     toy_txupdated := toy_txupdated w; toy_time := toy_time w;
     toy_steady := toy_steady w; toy_best := h;
     toy_running := toy_running w; toy_polls := toy_polls w; toy_oom := toy_oom w;
     toy_bits := toy_bits w; toy_pool := toy_pool w;
     toy_accept := toy_accept w; toy_new := toy_new w;
     toy_verdict := toy_verdict w |}.

Definition toy_process (blk : CBlock) (force : bool) (w : ToyNode)
    : Processed ToyState ToyNode :=
  {| accepted := toy_accept w;
     fNewBlock := toy_new w;
     signals := match toy_verdict w with Some s => [(blk, s)] | None => [] end;
     after := if toy_accept w && toy_new w then toy_connect (GetHash blk) w else w |}.

#[export] Instance ToyNode_ops : Node ToyState ToyNode := {|
  ChainActive_Tip := toy_tip;
  ChainActive_Height := toy_height;
  LookupBlockIndex := toy_lookup;
  deref := toy_deref;
  IsInitialBlockDownload := toy_ibd;
  has_connman w := true;
  GetNodeCount := toy_peers;
  GetTransactionsUpdated := toy_txupdated;
  GetTime := toy_time;
  steady_clock_now := toy_steady;
  g_best_block := toy_best;
  IsRPCRunning := toy_running;
  ShutdownRequested := toy_poll;
  CreateNewBlock := toy_assemble;
  IncrementExtraNonce blk tip n w := (blk, n + 1, w);
  UpdateTime blk w :=
    {| nVersion := nVersion blk; hashPrevBlock := hashPrevBlock blk;
       nTime := Z.max (nTime blk) (toy_time w); nBits := nBits blk;
       nNonce := nNonce blk; vtx := vtx blk |};
  TestBlockValidity blk p w :=
    (match toy_verdict w with Some s => s | None => TValid end, w);
  ProcessNewBlock := toy_process;
  UpdateUncommittedBlockStructures blk p w := blk
|}.

(** A node at height 7 whose tip is block 7 (hash 700), with blocks 3
    (valid up to scripts), 4 (failed) and 5 (header only) also in the index,
    as seen at steady-clock time [steady] with best block [best], mempool
    counter [txupdated] and the RPC server [running]. *)
Definition toy_node (steady : Z) (best : uint256) (txupdated : Z) (running : bool)
    : ToyNode :=
  {| toy_tip := Some 7%N; toy_height := 7;
     toy_index := [(7%N, {| phashBlock := 700%N; nHeight := 7; nStatus := 5 |});
                   (3%N, {| phashBlock := 300%N; nHeight := 3; nStatus := 5 |});
                   (4%N, {| phashBlock := 400%N; nHeight := 4; nStatus := 32 |});
                   (5%N, {| phashBlock := 500%N; nHeight := 5; nStatus := 2 |})];
     toy_ibd := false; toy_peers := 8; toy_txupdated := txupdated;
     toy_time := 1000 + steady; toy_steady := steady; toy_best := best;
     toy_running := running; toy_polls := None; toy_oom := false;
     toy_bits := 1; toy_pool := [];
     toy_accept := true; toy_new := true; toy_verdict := Some TValid |}.

Definition toy_with_engine (accept new : bool) (verdict : option ToyState)
    (w : ToyNode) : ToyNode :=
  {| toy_tip := toy_tip w; toy_height := toy_height w; toy_index := toy_index w;
     toy_ibd := toy_ibd w; toy_peers := toy_peers w;
     toy_txupdated := toy_txupdated w; toy_time := toy_time w;
     toy_steady := toy_steady w; toy_best := toy_best w;
     toy_running := toy_running w; toy_polls := toy_polls w; toy_oom := toy_oom w;
     toy_bits := toy_bits w; toy_pool := toy_pool w;
     toy_accept := accept; toy_new := new; toy_verdict := verdict |}.

(** The block that ["ab"] decodes to (predecessor 2, hash 200), and the like
    for longer strings: ["abc"] has hash 300, and so on. *)
Definition toy_block (n : N) : CBlock :=
  {| nVersion := 1; hashPrevBlock := n; nTime := 0; nBits := 1; nNonce := 0;
     vtx := [toy_coinbase] |}.

(** The node of [toy_node] with the engine's answer set. *)
Definition toy_engine_node (accept new : bool) (verdict : option ToyState) : ToyNode :=
  toy_with_engine accept new verdict (toy_node 0 700%N 0 true).

Definition toy_with_oom (oom : bool) (w : ToyNode) : ToyNode :=
  {| toy_tip := toy_tip w; toy_height := toy_height w; toy_index := toy_index w;
     toy_ibd := toy_ibd w; toy_peers := toy_peers w;
     toy_txupdated := toy_txupdated w; toy_time := toy_time w;
     toy_steady := toy_steady w; toy_best := toy_best w;
     toy_running := toy_running w; toy_polls := toy_polls w; toy_oom := oom;
     toy_bits := toy_bits w; toy_pool := toy_pool w;
     toy_accept := toy_accept w; toy_new := toy_new w;
     toy_verdict := toy_verdict w |}.

(** A template on top of block 7, and two states of the cache holding it:
    built on the tip at time 1000 with counter 0, and built on block 3 at
    time 900. *)
Definition toy_template : CBlockTemplate :=
  {| block := {| nVersion := 1; hashPrevBlock := 700%N; nTime := 1000; nBits := 1;
                 nNonce := 0; vtx := [toy_coinbase] |};
     vTxFees := [10]; vTxSigOpsCost := [4] |}.

Definition toy_cached : Statics :=
  {| nTransactionsUpdatedLast := 0; pindexPrev := Some 7%N; nStart := 1000;
     pblocktemplate := Some toy_template |}.

Definition toy_stale : Statics :=
  {| nTransactionsUpdatedLast := 0; pindexPrev := Some 3%N; nStart := 900;
     pblocktemplate := Some toy_template |}.


Definition toy_proposal_request : TemplateRequest :=
  {| modeval := JStr "proposal"; lpval := JNull; dataval := JStr "ab" |}.

Definition toy_with_bits (bits : Z) (w : ToyNode) : ToyNode :=
  {| toy_tip := toy_tip w; toy_height := toy_height w; toy_index := toy_index w;
     toy_ibd := toy_ibd w; toy_peers := toy_peers w;
     toy_txupdated := toy_txupdated w; toy_time := toy_time w;
     toy_steady := toy_steady w; toy_best := toy_best w;
     toy_running := toy_running w; toy_polls := toy_polls w; toy_oom := toy_oom w;
     toy_bits := bits; toy_pool := toy_pool w;
     toy_accept := toy_accept w; toy_new := toy_new w;
     toy_verdict := toy_verdict w |}.

(** Three transactions in the pool: the first spends from outside the
    block, the second from the first, the third from the second and the
    first. *)
Definition toy_tx (h : uint256) (spent : list uint256) : CTransaction :=
  {| vin := map (fun s => {| prevout := {| op_hash := s; op_n := 0 |} |}) spent;
     tx_hash := h; tx_witness_hash := h |}.

Definition toy_pool_node : ToyNode :=
  let w := toy_node 0 700%N 0 true in
  {| toy_tip := toy_tip w; toy_height := toy_height w; toy_index := toy_index w;
     toy_ibd := toy_ibd w; toy_peers := toy_peers w;
     toy_txupdated := toy_txupdated w; toy_time := toy_time w;
     toy_steady := toy_steady w; toy_best := toy_best w;
     toy_running := toy_running w; toy_polls := toy_polls w; toy_oom := toy_oom w;
     toy_bits := toy_bits w;
     toy_pool := [toy_tx 11%N [99%N]; toy_tx 12%N [11%N; 98%N];
                  toy_tx 13%N [12%N; 11%N]];
     toy_accept := toy_accept w; toy_new := toy_new w;
     toy_verdict := toy_verdict w |}.

(** The hash of the block a call handed to [ProcessNewBlock], for the other
    calls nothing. *)
Definition processed_hash `{!Primitives} (c : Call) : option uint256 :=
  match c with
  | CallProcessNewBlock blk _ => Some (GetHash blk)
  | _ => None
  end.

(** ** [submitheader] *)

(** A block header; only [hashPrevBlock] is read here. *)
Record CBlockHeader := {
  hdr_nVersion : Z;
  hdr_hashPrevBlock : uint256;
  hdr_hashMerkleRoot : uint256;
  hdr_nTime : Z;
  hdr_nBits : Z;
  hdr_nNonce : Z
}.

Class HeaderPrimitives := {
  DecodeHexBlockHeader : string -> option CBlockHeader;
  GetHex : uint256 -> string
}.

(** [ProcessNewBlockHeaders(headers, state, ...)]: the state it leaves in
    [state], which was default-constructed, and the node afterwards. *)
Class HeaderEngine (S W : Type) := {
  ProcessNewBlockHeaders : list CBlockHeader -> W -> S * W
}.

(** What a [submitheader] call gave, the node it left, and the header lists
    it handed to [ProcessNewBlockHeaders]. *)
Record HeaderRan (W : Type) := {
  hr_result : rpc UniValue;
  hr_final : W;
  hr_headers : list (list CBlockHeader)
}.
Arguments hr_result {W} _.
Arguments hr_final {W} _.
Arguments hr_headers {W} _.

Section SubmitHeader.
Context {S W : Type}
  `{!ValidationState S, !Primitives, !Node S W, !HeaderPrimitives, !HeaderEngine S W}.

(** Lines 742-759. *)
Definition submitheader (hexdata : string) (w : W) : HeaderRan W :=
  match DecodeHexBlockHeader hexdata with
  | None =>
    {| hr_result := Throw RPC_DESERIALIZATION_ERROR "Block header decode failed";
       hr_final := w; hr_headers := [] |}
  | Some h =>
    match LookupBlockIndex w (hdr_hashPrevBlock h) with
    | None =>
      {| hr_result :=
           Throw RPC_VERIFY_ERROR
             (String.append "Must submit previous header ("
                (String.append (GetHex (hdr_hashPrevBlock h)) ") first"));
         hr_final := w; hr_headers := [] |}
    | Some _ =>
      let '(state, w') := ProcessNewBlockHeaders [h] w in
      {| hr_result :=
           if IsValid state then Return NullUniValue
           else if IsError state then Throw RPC_VERIFY_ERROR (ToString state)
           else Throw RPC_VERIFY_ERROR (GetRejectReason state);
         hr_final := w'; hr_headers := [[h]] |}
    end
  end.

End SubmitHeader.

(** ** [generatetoaddress] and [generatetodescriptor] *)

(** Error codes of the commands below that the functions above do not use. *)
Inductive RPCErrorCodeMore :=
| RPC_INVALID_REQUEST
| RPC_INVALID_ADDRESS_OR_KEY.

(** A [JSONRPCError], with a code of either list. *)
Inductive JSONRPCError :=
| Error (code : RPCErrorCode) (message : string)
| ErrorMore (code : RPCErrorCodeMore) (message : string).

(** [uint64_t x = v] for a signed [v]. *)
Definition to_uint64 (v : Z) : Z := v mod 2 ^ 64.

(** Destinations and descriptors, as far as the two commands use them: [D]
    is [CTxDestination], [Desc] a parsed descriptor; [Parse] gives the
    descriptor or the error text, [Expand] the scripts at position 0 or
    nothing. *)
Class Destinations (D Desc : Type) := {
  DecodeDestination : string -> D;
  IsValidDestination : D -> bool;
  GetScriptForDestination : D -> CScript;
  Parse : string -> Desc + string;
  IsRange : Desc -> bool;
  Expand : Desc -> option (list CScript)
}.

Section Generate.
Context {S W D Desc : Type}
  `{!ValidationState S, !Primitives, !Node S W, !Destinations D Desc}.

(** Lines 149-164, on a node that has a mempool. [nGenerate] is
    [params[0].get_int()], [address] is [params[1].get_str()], [maxtries] is
    [params[2]], [None] when null and else its [get_int()]. *)
Definition generatetoaddress (rounds : nat) (nGenerate : Z) (address : string)
    (maxtries : option Z) (w : W)
    : JSONRPCError + Ran W (option (rpc (list uint256))) :=
  let nMaxTries :=
    match maxtries with
    | None => 1000000
    | Some m => to_uint64 m
    end in
  let destination := DecodeDestination address in
  if negb (IsValidDestination destination)
  then inl (ErrorMore RPC_INVALID_ADDRESS_OR_KEY "Error: Invalid address")
  else
    let coinbase_script := GetScriptForDestination destination in
    inr (generateBlocks rounds coinbase_script nGenerate nMaxTries w).

(** Lines 101-124, on a node that has a mempool. The [int64_t max_tries]
    becomes the [uint64_t nMaxTries] of [generateBlocks] at the call. *)
Definition generatetodescriptor (rounds : nat) (num_blocks : Z) (descriptor : string)
    (maxtries : option Z) (w : W)
    : JSONRPCError + Ran W (option (rpc (list uint256))) :=
  let max_tries :=
    match maxtries with
    | None => 1000000
    | Some m => m
    end in
  match Parse descriptor with
  | inr error => inl (ErrorMore RPC_INVALID_ADDRESS_OR_KEY error)
  | inl desc =>
    if IsRange desc
    then inl (Error RPC_INVALID_PARAMETER
                "Ranged descriptor not accepted. Maybe pass through deriveaddresses first?")
    else
      match Expand desc with
      | None => inl (ErrorMore RPC_INVALID_ADDRESS_OR_KEY
                       "Cannot derive script without private keys")
      | Some coinbase_script =>
        match coinbase_script with
        | [script] =>
          inr (generateBlocks rounds script num_blocks (to_uint64 max_tries) w)
        | _ => inl (Error RPC_MISC_ERROR "Internal bug detected: 'coinbase_script.size() == 1'")
        end
      end
  end.

End Generate.

(** ** The miner and staking commands *)

(** The calls that start or stop a generator. *)
Inductive GenCall :=
| CallGenerateVerium (fGenerate : bool) (nThreads : Z)
| CallGenerateVericoin (fGenerate : bool).

(** What the six commands return: [false], or an object with a status and,
    for two of them, a thread count. *)
Inductive MinerValue :=
| MFalse
| MStatus (status : string) (nthreads : option Z).

Record MinerRan (W : Type) := {
  mr_result : JSONRPCError + MinerValue;
  mr_final : W;
  mr_calls : list GenCall
}.
Arguments mr_result {W} _.
Arguments mr_final {W} _.
Arguments mr_calls {W} _.

(** [wallet_available w fHelp] is [GetWalletForJSONRPCRequest(request)]
    followed by [EnsureWalletIsAvailable(wallet.get(), request.fHelp)]: what
    is thrown, or the boolean returned. *)
Class MinerNode (W : Type) := {
  IsVericoin : W -> bool;
  IsMining : W -> bool;
  IsStaking : W -> bool;
  wallet_available : W -> bool -> JSONRPCError + bool;
  GenerateVerium : bool -> Z -> W -> W;
  GenerateVericoin : bool -> W -> W
}.

Section MinerCommands.
Context {S W : Type} `{!Node S W, !MinerNode W}.

Definition refused (e : JSONRPCError) (w : W) : MinerRan W :=
  {| mr_result := inl e; mr_final := w; mr_calls := [] |}.

Definition minerstatus (w : W) : MinerRan W :=
  if IsVericoin w
  then refused (ErrorMore RPC_INVALID_REQUEST "Action impossible on Vericoin") w
  else {| mr_result := inr (MStatus (if IsMining w then "active" else "stopped") None);
          mr_final := w; mr_calls := [] |}.

(** The tests shared by the four start and stop commands, after the test of
    the chain: lines 812-819 and their copies. *)
Definition with_wallet (fHelp : bool) (w : W) (go : MinerRan W) : MinerRan W :=
  if negb (has_connman w)
  then refused (Error RPC_CLIENT_P2P_DISABLED
                  "Error: Peer-to-peer functionality missing or disabled") w
  else
    match wallet_available w fHelp with
    | inl e => refused e w
    | inr false => {| mr_result := inr MFalse; mr_final := w; mr_calls := [] |}
    | inr true => go
    end.

Definition minerstart (fHelp : bool) (nThreads : Z) (w : W) : MinerRan W :=
  if IsVericoin w
  then refused (ErrorMore RPC_INVALID_REQUEST "Action impossible on Vericoin") w
  else with_wallet fHelp w
         {| mr_result := inr (MStatus "active" (Some nThreads));
            mr_final := GenerateVerium true nThreads w;
            mr_calls := [CallGenerateVerium true nThreads] |}.

Definition minerstop (fHelp : bool) (w : W) : MinerRan W :=
  if IsVericoin w
  then refused (ErrorMore RPC_INVALID_REQUEST "Action impossible on Vericoin") w
  else with_wallet fHelp w
         {| mr_result := inr (MStatus "stopped" (Some 0));
            mr_final := GenerateVerium false 0 w;
            mr_calls := [CallGenerateVerium false 0] |}.

Definition stakingstatus (w : W) : MinerRan W :=
  if negb (IsVericoin w)
  then refused (ErrorMore RPC_INVALID_REQUEST "Action impossible on Verium") w
  else {| mr_result := inr (MStatus (if IsStaking w then "active" else "stopped") None);
          mr_final := w; mr_calls := [] |}.

Definition stakingstart (fHelp : bool) (w : W) : MinerRan W :=
  if negb (IsVericoin w)
  then refused (ErrorMore RPC_INVALID_REQUEST "Action impossible on Verium") w
  else with_wallet fHelp w
         {| mr_result := inr (MStatus "active" None);
            mr_final := GenerateVericoin true w;
            mr_calls := [CallGenerateVericoin true] |}.

Definition stakingstop (fHelp : bool) (w : W) : MinerRan W :=
  if negb (IsVericoin w)
  then refused (ErrorMore RPC_INVALID_REQUEST "Action impossible on Verium") w
  else with_wallet fHelp w
         {| mr_result := inr (MStatus "stopped" None);
            mr_final := GenerateVericoin false w;
            mr_calls := [CallGenerateVericoin false] |}.

End MinerCommands.

(** ** More of the small node *)

#[export] Instance ToyHeaderPrimitives : HeaderPrimitives := {|
  DecodeHexBlockHeader s :=
    match s with
    | EmptyString => None
    | _ => Some {| hdr_nVersion := 1; hdr_hashPrevBlock := (N.of_nat (String.length s) * 100)%N;
                   hdr_hashMerkleRoot := 0%N; hdr_nTime := 0; hdr_nBits := 1;
                   hdr_nNonce := 0 |}
    end;
  GetHex h := if (h =? 0)%N then "00" else "ff"
|}.

#[export] Instance ToyHeaderEngine : HeaderEngine ToyState ToyNode := {|
  ProcessNewBlockHeaders hs w :=
    (match toy_verdict w with Some s => s | None => TValid end, w)
|}.

(** A destination is a script or nothing; a descriptor is a range flag and
    the scripts it expands to. *)
#[export] Instance ToyDestinations : Destinations (option CScript) (bool * list CScript) := {|
  DecodeDestination s :=
    match s with
    | EmptyString => None
    | _ => Some [Z.of_nat (String.length s)]
    end;
  IsValidDestination d := match d with Some _ => true | None => false end;
  GetScriptForDestination d := match d with Some s => s | None => [] end;
  Parse s :=
    match s with
    | EmptyString => inr "Missing descriptor"
    | _ => inl (false, [[Z.of_nat (String.length s)]])
    end;
  IsRange desc := fst desc;
  Expand desc := Some (snd desc)
|}.

Definition toy_with_sync (ibd : bool) (peers : Z) (w : ToyNode) : ToyNode :=
  {| toy_tip := toy_tip w; toy_height := toy_height w; toy_index := toy_index w;
     toy_ibd := ibd; toy_peers := peers;
     toy_txupdated := toy_txupdated w; toy_time := toy_time w;
     toy_steady := toy_steady w; toy_best := toy_best w;
     toy_running := toy_running w; toy_polls := toy_polls w; toy_oom := toy_oom w;
     toy_bits := toy_bits w; toy_pool := toy_pool w;
     toy_accept := toy_accept w; toy_new := toy_new w;
     toy_verdict := toy_verdict w |}.

(** The node of [w] with the shutdown flag reading true from the poll after
    [polls] polls on, or never. *)
Definition toy_with_polls (polls : option nat) (w : ToyNode) : ToyNode :=
  {| toy_tip := toy_tip w; toy_height := toy_height w; toy_index := toy_index w;
     toy_ibd := toy_ibd w; toy_peers := toy_peers w;
     toy_txupdated := toy_txupdated w; toy_time := toy_time w;
     toy_steady := toy_steady w; toy_best := toy_best w;
     toy_running := toy_running w; toy_polls := polls; toy_oom := toy_oom w;
     toy_bits := toy_bits w; toy_pool := toy_pool w;
     toy_accept := toy_accept w; toy_new := toy_new w;
     toy_verdict := toy_verdict w |}.

(** The node of [w] with the chain at another height. *)
Definition toy_with_height (height : Z) (w : ToyNode) : ToyNode :=
  {| toy_tip := toy_tip w; toy_height := height; toy_index := toy_index w;
     toy_ibd := toy_ibd w; toy_peers := toy_peers w;
     toy_txupdated := toy_txupdated w; toy_time := toy_time w;
     toy_steady := toy_steady w; toy_best := toy_best w;
     toy_running := toy_running w; toy_polls := toy_polls w; toy_oom := toy_oom w;
     toy_bits := toy_bits w; toy_pool := toy_pool w;
     toy_accept := toy_accept w; toy_new := toy_new w;
     toy_verdict := toy_verdict w |}.

(** The template the assembler of [toy_pool_node] gives. *)
Definition toy_pool_template : CBlockTemplate :=
  match fst (toy_assemble [OP_TRUE] toy_pool_node) with
  | Some t => t
  | None => toy_template
  end.

(** A node on which a hash satisfies the proof of work when it is a
    multiple of 3, and the first candidate assembled on it. *)
Definition toy_hard_node : ToyNode := toy_with_bits 3 (toy_node 0 700%N 0 true).

Definition toy_candidate (nonce : Z) : CBlock :=
  {| nVersion := 1; hashPrevBlock := 700%N; nTime := 1000; nBits := 3;
     nNonce := nonce; vtx := [toy_coinbase] |}.

(** * Properties *)

(** ** Submission *)

Section SubmitBlockProps.
Context {S W : Type} `{!ValidationState S, !Primitives, !Node S W}.

Lemma deliver_hash (sigs : list (CBlock * S)) (sc : submitblock_StateCatcher S) :
  sc_hash (deliver sc sigs) = sc_hash sc.
Proof.
  revert sc. induction sigs as [|sig sigs IH]; intros sc; [reflexivity|].
  unfold deliver in *. cbn [fold_left]. rewrite IH.
  unfold BlockChecked. destruct (negb _); reflexivity.
Qed.

(** The observer ends up holding the last signal about its block, and
    [found] says whether there was one. *)
Lemma deliver_last (sigs : list (CBlock * S)) (sc : submitblock_StateCatcher S) :
  deliver sc sigs =
  match last (heard (sc_hash sc) sigs) with
  | Some sig => {| sc_hash := sc_hash sc; sc_found := true; sc_state := snd sig |}
  | None => sc
  end.
Proof.
  revert sc. induction sigs as [|sig sigs IH]; intros sc; [reflexivity|].
  change (deliver sc (sig :: sigs))
    with (deliver (BlockChecked sc (fst sig) (snd sig)) sigs).
  rewrite IH. unfold BlockChecked, heard. cbn [List.filter].
  destruct (GetHash (fst sig) =? sc_hash sc)%N eqn:E; cbn [negb sc_hash].
  - fold (heard (sc_hash sc) sigs).
    destruct (heard (sc_hash sc) sigs) as [|x xs] eqn:Hh; [reflexivity|].
    rewrite last_cons_cons.
    destruct (last (x :: xs)) eqn:Hl; [reflexivity|].
    apply last_None in Hl. discriminate.
  - reflexivity.
Qed.

Lemma submitblock_unknown (hexdata : string) (w : W) (blk : CBlock) (tx0 : CTransaction)
    (rest : list CTransaction) :
  DecodeHexBlk hexdata = Some blk ->
  vtx blk = tx0 :: rest ->
  IsCoinBase tx0 = true ->
  known_block w (GetHash blk) = None ->
  submitblock hexdata w = process_submission blk w.
Proof.
  intros Hdec Hvtx Hcb Hknown. unfold submitblock.
  rewrite Hdec, Hvtx, Hcb. cbn [negb]. rewrite Hknown. reflexivity.
Qed.

Lemma process_submission_result (blk : CBlock) (w : W) :
  let p := ProcessNewBlock (committed blk w) true w in
  result (process_submission blk w) =
  if negb (fNewBlock p) && accepted p then Return (VSTR "duplicate")
  else match last (heard (GetHash (committed blk w)) (signals p)) with
       | None => Return (VSTR "inconclusive")
       | Some sig => BIP22ValidationResult (snd sig)
       end.
Proof.
  unfold process_submission, committed.
  destruct (LookupBlockIndex w (hashPrevBlock blk)) as [pindex|]; cbn zeta;
    rewrite deliver_last; cbn [StateCatcher sc_hash];
    (destruct (negb _ && _); [reflexivity|]);
    destruct (last _); reflexivity.
Qed.

Lemma process_submission_calls (blk : CBlock) (w : W) :
  In (CallRegisterSharedValidationInterface (GetHash (committed blk w)))
     (calls (process_submission blk w)) /\
  In (CallProcessNewBlock (committed blk w) true) (calls (process_submission blk w)).
Proof.
  unfold process_submission, committed.
  destruct (LookupBlockIndex w (hashPrevBlock blk)) as [pindex|]; cbn zeta;
    (destruct (negb _ && _); [|destruct (negb _)]); cbn; tauto.
Qed.

(** C5: a submitted block that decodes, starts with a coinbase and is not
    answered from the block index gets "duplicate" when the engine accepted
    it but it was not new; otherwise "inconclusive" when no signal about its
    hash reached the observer; otherwise the classification of the signal the
    observer holds: null for a valid state, a thrown [RPC_VERIFY_ERROR] with
    the state's text for an error, the reject reason for an invalid state
    ("rejected" if the reason is empty), and "valid?" for a state that is
    none of the three. *)
Theorem submitblock_classifies_outcome (hexdata : string) (w : W) (blk : CBlock)
    (tx0 : CTransaction) (rest : list CTransaction) :
  DecodeHexBlk hexdata = Some blk ->
  vtx blk = tx0 :: rest ->
  IsCoinBase tx0 = true ->
  known_block w (GetHash blk) = None ->
  let p := ProcessNewBlock (committed blk w) true w in
  let r := result (submitblock hexdata w) in
  (accepted p = true -> fNewBlock p = false -> r = Return (VSTR "duplicate")) /\
  (accepted p && negb (fNewBlock p) = false ->
   heard (GetHash (committed blk w)) (signals p) = [] ->
   r = Return (VSTR "inconclusive")) /\
  (accepted p && negb (fNewBlock p) = false ->
   forall sig : CBlock * S,
   last (heard (GetHash (committed blk w)) (signals p)) = Some sig ->
   let state := snd sig in
   r = BIP22ValidationResult state /\
   (IsValid state = true -> r = Return NullUniValue) /\
   (IsValid state = false -> IsError state = true ->
    r = Throw RPC_VERIFY_ERROR (ToString state)) /\
   (IsValid state = false -> IsError state = false -> IsInvalid state = true ->
    GetRejectReason state <> EmptyString -> r = Return (VSTR (GetRejectReason state))) /\
   (IsValid state = false -> IsError state = false -> IsInvalid state = true ->
    GetRejectReason state = EmptyString -> r = Return (VSTR "rejected")) /\
   (IsValid state = false -> IsError state = false -> IsInvalid state = false ->
    r = Return (VSTR "valid?"))).
Proof.
  intros Hdec Hvtx Hcb Hknown p r.
  assert (Hr : r = if negb (fNewBlock p) && accepted p then Return (VSTR "duplicate")
                   else match last (heard (GetHash (committed blk w)) (signals p)) with
                        | None => Return (VSTR "inconclusive")
                        | Some sig => BIP22ValidationResult (snd sig)
                        end).
  { subst r. rewrite (submitblock_unknown _ _ _ _ _ Hdec Hvtx Hcb Hknown).
    apply process_submission_result. }
  split; [|split].
  - intros Ha Hn. subst p. rewrite Hr, Ha, Hn. reflexivity.
  - intros Hd Hh. rewrite andb_comm in Hd. subst p. rewrite Hr, Hd, Hh. reflexivity.
  - intros Hd sig Hl state. rewrite andb_comm in Hd.
    assert (Hs : r = BIP22ValidationResult state).
    { subst p. rewrite Hr, Hd, Hl. reflexivity. }
    split; [exact Hs|]. rewrite Hs. unfold BIP22ValidationResult.
    repeat split.
    + intros ->. reflexivity.
    + intros -> ->. reflexivity.
    + intros -> -> -> Hne. apply String.eqb_neq in Hne. rewrite Hne. reflexivity.
    + intros -> -> -> He. rewrite He. reflexivity.
    + intros -> -> ->. reflexivity.
Qed.

(** C6: a block whose hash the block index already has is answered
    "duplicate" when the record is valid up to scripts and
    "duplicate-invalid" when it is not and carries a failure flag, in both
    cases with no call to the engine and the node untouched. *)
Theorem submitblock_known_block (hexdata : string) (w : W) (blk : CBlock)
    (tx0 : CTransaction) (rest : list CTransaction) (pindex : ptr) :
  DecodeHexBlk hexdata = Some blk ->
  vtx blk = tx0 :: rest ->
  IsCoinBase tx0 = true ->
  LookupBlockIndex w (GetHash blk) = Some pindex ->
  (CBlockIndex_IsValid (deref w pindex) BLOCK_VALID_SCRIPTS = true ->
   submitblock hexdata w = ran (Return (VSTR "duplicate")) w []) /\
  (CBlockIndex_IsValid (deref w pindex) BLOCK_VALID_SCRIPTS = false ->
   Z.land (nStatus (deref w pindex)) BLOCK_FAILED_MASK <> 0 ->
   submitblock hexdata w = ran (Return (VSTR "duplicate-invalid")) w []).
Proof.
  intros Hdec Hvtx Hcb Hlook. unfold submitblock, known_block.
  rewrite Hdec, Hvtx, Hcb, Hlook. cbn [negb]. split.
  - intros ->. reflexivity.
  - intros -> Hf. apply Z.eqb_neq in Hf. rewrite Hf. reflexivity.
Qed.

(** What a submission leaves behind is what the engine left, and the calls
    are the observer's registration, the one call of the engine and the
    observer's removal, after the update of the block's uncommitted
    structures when its predecessor is known. *)
Lemma process_submission_effect (blk : CBlock) (w : W) :
  final (process_submission blk w) = after (ProcessNewBlock (committed blk w) true w) /\
  calls (process_submission blk w)
  = match LookupBlockIndex w (hashPrevBlock blk) with
    | Some _ => [CallUpdateUncommittedBlockStructures blk]
    | None => []
    end
    ++ [CallRegisterSharedValidationInterface (GetHash (committed blk w));
        CallProcessNewBlock (committed blk w) true;
        CallUnregisterSharedValidationInterface (GetHash (committed blk w))].
Proof.
  unfold process_submission, committed.
  destruct (LookupBlockIndex w (hashPrevBlock blk)) as [pindex|]; cbn zeta;
    (destruct (negb _ && _); [|destruct (negb _)]); split; reflexivity.
Qed.

(** C10: a block whose hash the block index has, with a record that is
    neither valid up to scripts nor flagged as failed, is not answered from
    the index. [submitblock] registers the observer for the block's hash,
    hands the block to [ProcessNewBlock] with forced processing and removes
    the observer; the node it leaves is the one the engine left, and its
    answer is the one read off the engine's outcome: "duplicate" only when
    the engine reports the block accepted and not new, else "inconclusive"
    when the observer heard nothing about the block, else the
    classification of the last state it heard. Proposal mode answers
    "duplicate-inconclusive" for the same record, with no call and the node
    untouched. *)
Theorem submitblock_known_unsettled (hexdata : string) (w : W) (blk : CBlock)
    (tx0 : CTransaction) (rest : list CTransaction) (pindex : ptr) :
  DecodeHexBlk hexdata = Some blk ->
  vtx blk = tx0 :: rest ->
  IsCoinBase tx0 = true ->
  LookupBlockIndex w (GetHash blk) = Some pindex ->
  CBlockIndex_IsValid (deref w pindex) BLOCK_VALID_SCRIPTS = false ->
  Z.land (nStatus (deref w pindex)) BLOCK_FAILED_MASK = 0 ->
  let p := ProcessNewBlock (committed blk w) true w in
  calls (submitblock hexdata w)
  = match LookupBlockIndex w (hashPrevBlock blk) with
    | Some _ => [CallUpdateUncommittedBlockStructures blk]
    | None => []
    end
    ++ [CallRegisterSharedValidationInterface (GetHash (committed blk w));
        CallProcessNewBlock (committed blk w) true;
        CallUnregisterSharedValidationInterface (GetHash (committed blk w))] /\
  final (submitblock hexdata w) = after p /\
  result (submitblock hexdata w)
  = (if negb (fNewBlock p) && accepted p then Return (VSTR "duplicate")
     else match last (heard (GetHash (committed blk w)) (signals p)) with
          | None => Return (VSTR "inconclusive")
          | Some sig => BIP22ValidationResult (snd sig)
          end) /\
  proposal (JStr hexdata) w = ran (Return (VSTR "duplicate-inconclusive")) w [].
Proof.
  intros Hdec Hvtx Hcb Hlook Hv Hf p.
  assert (Hk : known_block w (GetHash blk) = None).
  { unfold known_block. rewrite Hlook, Hv, Hf. reflexivity. }
  rewrite (submitblock_unknown _ _ _ _ _ Hdec Hvtx Hcb Hk).
  split; [apply process_submission_effect|].
  split; [apply process_submission_effect|].
  split; [apply process_submission_result|].
  unfold proposal. rewrite Hdec, Hlook, Hv, Hf. reflexivity.
Qed.

End SubmitBlockProps.

Lemma submitblock_classifies_outcome_witness :
  result (submitblock "ab" (toy_engine_node true false None))
    = Return (VSTR "duplicate") /\
  result (submitblock "ab" (toy_engine_node true true None))
    = Return (VSTR "inconclusive") /\
  result (submitblock "ab" (toy_engine_node true true (Some TValid)))
    = Return NullUniValue /\
  result (submitblock "ab" (toy_engine_node false false (Some (TError "oom"))))
    = Throw RPC_VERIFY_ERROR "oom" /\
  result (submitblock "ab" (toy_engine_node false false (Some (TInvalid "bad-txns"))))
    = Return (VSTR "bad-txns") /\
  result (submitblock "ab" (toy_engine_node false false (Some (TInvalid EmptyString))))
    = Return (VSTR "rejected") /\
  result (submitblock "ab" (toy_engine_node false false (Some TOther)))
    = Return (VSTR "valid?").
Proof.
  split.
  { pose proof (submitblock_classifies_outcome (S := ToyState) "ab"
                  (toy_engine_node true false None)
                  (toy_block 2) toy_coinbase [] eq_refl eq_refl eq_refl eq_refl) as T;
      cbv zeta in T.
    apply (proj1 T); reflexivity. }
  split.
  { pose proof (submitblock_classifies_outcome (S := ToyState) "ab"
                  (toy_engine_node true true None)
                  (toy_block 2) toy_coinbase [] eq_refl eq_refl eq_refl eq_refl) as T;
      cbv zeta in T.
    apply (proj1 (proj2 T)); reflexivity. }
  split.
  { pose proof (submitblock_classifies_outcome (S := ToyState) "ab"
                  (toy_engine_node true true (Some TValid))
                  (toy_block 2) toy_coinbase [] eq_refl eq_refl eq_refl eq_refl) as T;
      cbv zeta in T.
    destruct (proj2 (proj2 T) eq_refl (toy_block 2, TValid) eq_refl) as (_ & H & _).
    apply H. reflexivity. }
  split.
  { pose proof (submitblock_classifies_outcome (S := ToyState) "ab"
                  (toy_engine_node false false (Some (TError "oom")))
                  (toy_block 2) toy_coinbase [] eq_refl eq_refl eq_refl eq_refl) as T;
      cbv zeta in T.
    destruct (proj2 (proj2 T) eq_refl (toy_block 2, TError "oom") eq_refl)
      as (_ & _ & H & _).
    apply H; reflexivity. }
  split.
  { pose proof (submitblock_classifies_outcome (S := ToyState) "ab"
                  (toy_engine_node false false (Some (TInvalid "bad-txns")))
                  (toy_block 2) toy_coinbase [] eq_refl eq_refl eq_refl eq_refl) as T;
      cbv zeta in T.
    destruct (proj2 (proj2 T) eq_refl (toy_block 2, TInvalid "bad-txns") eq_refl)
      as (_ & _ & _ & H & _).
    apply H; [reflexivity..|discriminate]. }
  split.
  { pose proof (submitblock_classifies_outcome (S := ToyState) "ab"
                  (toy_engine_node false false (Some (TInvalid EmptyString)))
                  (toy_block 2) toy_coinbase [] eq_refl eq_refl eq_refl eq_refl) as T;
      cbv zeta in T.
    destruct (proj2 (proj2 T) eq_refl (toy_block 2, TInvalid EmptyString) eq_refl)
      as (_ & _ & _ & _ & H & _).
    apply H; reflexivity. }
  pose proof (submitblock_classifies_outcome (S := ToyState) "ab"
                (toy_engine_node false false (Some TOther))
                (toy_block 2) toy_coinbase [] eq_refl eq_refl eq_refl eq_refl) as T;
  cbv zeta in T.
  destruct (proj2 (proj2 T) eq_refl (toy_block 2, TOther) eq_refl)
    as (_ & _ & _ & _ & _ & H).
  apply H; reflexivity.
Defined.

Lemma submitblock_known_block_witness :
  submitblock "abc" (toy_node 0 700%N 0 true)
    = ran (Return (VSTR "duplicate")) (toy_node 0 700%N 0 true) [] /\
  submitblock "abcd" (toy_node 0 700%N 0 true)
    = ran (Return (VSTR "duplicate-invalid")) (toy_node 0 700%N 0 true) [].
Proof.
  pose proof (submitblock_known_block (S := ToyState) "abc" (toy_node 0 700%N 0 true)
                (toy_block 3) toy_coinbase [] 3%N eq_refl eq_refl eq_refl eq_refl) as T3.
  pose proof (submitblock_known_block (S := ToyState) "abcd" (toy_node 0 700%N 0 true)
                (toy_block 4) toy_coinbase [] 4%N eq_refl eq_refl eq_refl eq_refl) as T4.
  split.
  - apply (proj1 T3). reflexivity.
  - apply (proj2 T4); [reflexivity | discriminate].
Defined.

Lemma submitblock_known_unsettled_witness :
  calls (submitblock "abcde" (toy_node 0 700%N 0 true))
    = [CallRegisterSharedValidationInterface 500%N;
       CallProcessNewBlock (toy_block 5) true;
       CallUnregisterSharedValidationInterface 500%N] /\
  final (submitblock "abcde" (toy_node 0 700%N 0 true))
    = toy_connect 500%N (toy_node 0 700%N 0 true) /\
  result (submitblock "abcde" (toy_node 0 700%N 0 true)) = Return NullUniValue /\
  result (submitblock "abcde" (toy_with_engine false false (Some (TInvalid "bad-blk"))
                                 (toy_node 0 700%N 0 true)))
    = Return (VSTR "bad-blk") /\
  proposal (JStr "abcde") (toy_node 0 700%N 0 true)
    = ran (Return (VSTR "duplicate-inconclusive")) (toy_node 0 700%N 0 true) [].
Proof.
  pose proof (submitblock_known_unsettled (S := ToyState) "abcde"
                (toy_node 0 700%N 0 true) (toy_block 5) toy_coinbase [] 5%N
                eq_refl eq_refl eq_refl eq_refl eq_refl eq_refl) as T.
  pose proof (submitblock_known_unsettled (S := ToyState) "abcde"
                (toy_with_engine false false (Some (TInvalid "bad-blk"))
                   (toy_node 0 700%N 0 true))
                (toy_block 5) toy_coinbase [] 5%N
                eq_refl eq_refl eq_refl eq_refl eq_refl eq_refl) as T'.
  cbv zeta in T, T'.
  destruct T as (Hc & Hf & Hr & Hd). destruct T' as (_ & _ & Hr' & _).
  split; [exact Hc|]. split; [exact Hf|]. split; [exact Hr|].
  split; [exact Hr' | exact Hd].
Defined.

(** ** The template cache, the long-poll wait and the two modes *)

Section GetBlockTemplateProps.
Context {S W : Type} `{!ValidationState S, !Primitives, !Node S W}.

Lemma ptr_eqb_eq (p q : option ptr) : ptr_eqb p q = true <-> p = q.
Proof.
  destruct p as [a|], q as [b|]; cbn; try (split; congruence).
  rewrite N.eqb_eq. split; congruence.
Qed.

Lemma ptr_eqb_neq (p q : option ptr) : ptr_eqb p q = false <-> p <> q.
Proof.
  rewrite <- ptr_eqb_eq. destruct (ptr_eqb p q); split; congruence.
Qed.

(** The test of line 544 says [rebuild_due], once the chain has a tip. *)
Lemma rebuild_due_test (st : Statics) (w : W) :
  ChainActive_Tip w <> None ->
  rebuild_due st w <->
  negb (ptr_eqb (pindexPrev st) (ChainActive_Tip w))
  || (negb (GetTransactionsUpdated w =? nTransactionsUpdatedLast st)
      && (5 <? GetTime w - nStart st)) = true.
Proof.
  intros Htip. unfold rebuild_due.
  rewrite orb_true_iff, andb_true_iff, !negb_true_iff, ptr_eqb_neq,
    Z.eqb_neq, Z.ltb_lt.
  split; [|tauto].
  intros [Hn|[Hd|Hm]]; [left|tauto|tauto].
  rewrite Hn. congruence.
Qed.

Lemma update_block_not_due (st : Statics) (w : W) :
  ChainActive_Tip w <> None ->
  ~ rebuild_due st w ->
  update_block st w = ran (Return tt) (st, w) [].
Proof.
  intros Htip Hnd. unfold update_block.
  destruct (negb _ || _) eqn:E; [|reflexivity].
  apply (rebuild_due_test st w Htip) in E. contradiction.
Qed.

Lemma update_block_due (st : Statics) (w : W) :
  ChainActive_Tip w <> None ->
  rebuild_due st w ->
  update_block st w =
  match fst (CreateNewBlock [OP_TRUE] w) with
  | None =>
    ran (Throw RPC_OUT_OF_MEMORY "Out of memory")
        ({| nTransactionsUpdatedLast := GetTransactionsUpdated w;
            pindexPrev := None; nStart := GetTime w; pblocktemplate := None |},
         snd (CreateNewBlock [OP_TRUE] w))
        [CallCreateNewBlock [OP_TRUE]]
  | Some t =>
    ran (Return tt)
        ({| nTransactionsUpdatedLast := GetTransactionsUpdated w;
            pindexPrev := ChainActive_Tip w; nStart := GetTime w;
            pblocktemplate := Some t |},
         snd (CreateNewBlock [OP_TRUE] w))
        [CallCreateNewBlock [OP_TRUE]]
  end.
Proof.
  intros Htip Hd. unfold update_block.
  apply (rebuild_due_test st w Htip) in Hd. rewrite Hd.
  destruct (CreateNewBlock [OP_TRUE] w) as [[t|] w']; reflexivity.
Qed.

Lemma update_block_due_calls (st : Statics) (w : W) :
  ChainActive_Tip w <> None ->
  rebuild_due st w ->
  calls (update_block st w) = [CallCreateNewBlock [OP_TRUE]].
Proof.
  intros Htip Hd. rewrite (update_block_due st w Htip Hd).
  destruct (fst (CreateNewBlock [OP_TRUE] w)); reflexivity.
Qed.

(** C1: once the chain has a tip, a call of the template cache runs the
    block assembler, once, exactly when there is no cached entry, or the tip
    is not the cached tip, or the mempool counter is not the cached counter
    and more than 5 seconds have passed since the last build; otherwise the
    statics and the node are left as they were; and an entry that is rebuilt
    is keyed to the tip, counter and time read before the assembler ran. *)
Theorem template_cache_rebuild (st : Statics) (w : W) :
  ChainActive_Tip w <> None ->
  let r := update_block st w in
  (rebuild_due st w <-> calls r = [CallCreateNewBlock [OP_TRUE]]) /\
  (~ rebuild_due st w -> r = ran (Return tt) (st, w) []) /\
  (rebuild_due st w ->
   forall (t : CBlockTemplate) (w' : W),
   CreateNewBlock [OP_TRUE] w = (Some t, w') ->
   r = ran (Return tt)
         ({| nTransactionsUpdatedLast := GetTransactionsUpdated w;
             pindexPrev := ChainActive_Tip w; nStart := GetTime w;
             pblocktemplate := Some t |}, w')
         [CallCreateNewBlock [OP_TRUE]]).
Proof.
  intros Htip r. subst r. split; [|split].
  - split.
    + apply update_block_due_calls. exact Htip.
    + intros Hc.
      destruct (negb (ptr_eqb (pindexPrev st) (ChainActive_Tip w))
                || (negb (GetTransactionsUpdated w =? nTransactionsUpdatedLast st)
                    && (5 <? GetTime w - nStart st))) eqn:E.
      * apply (rebuild_due_test st w Htip). exact E.
      * unfold update_block in Hc. rewrite E in Hc. discriminate.
  - apply update_block_not_due. exact Htip.
  - intros Hd t w' Hc. rewrite (update_block_due st w Htip Hd), Hc. reflexivity.
Qed.

(** C2, as the code has it: when the cache is out of date and the block
    assembler gives no template, the call throws [RPC_OUT_OF_MEMORY] and the
    previous entry is dropped: the cached tip and the cached template are
    null, the counter and the build time are the ones read before the build.
    With the cached tip null, the next call on a chain with a tip runs the
    assembler again. *)
Theorem failed_build_clears_cache (st : Statics) (w w' : W) :
  ChainActive_Tip w <> None ->
  rebuild_due st w ->
  CreateNewBlock [OP_TRUE] w = (None, w') ->
  let r := update_block st w in
  result r = Throw RPC_OUT_OF_MEMORY "Out of memory" /\
  final r = ({| nTransactionsUpdatedLast := GetTransactionsUpdated w;
                pindexPrev := None; nStart := GetTime w;
                pblocktemplate := None |}, w') /\
  (forall w2 : W, ChainActive_Tip w2 <> None ->
   calls (update_block (fst (final r)) w2) = [CallCreateNewBlock [OP_TRUE]]).
Proof.
  intros Htip Hd Hc r. subst r.
  rewrite (update_block_due st w Htip Hd), Hc. cbn.
  split; [reflexivity|]. split; [reflexivity|].
  intros w2 Htip2.
  apply (update_block_due_calls _ w2 Htip2). left. reflexivity.
Qed.

(** The whole of lines 540-569 on a cache that is up to date: the entry keeps
    its tip, counter and build time, the assembler is not called, and the
    template is the cached one but for the time and the nonce of its block,
    which lines 568-569 set on every call. *)
Lemma template_answer_keeps_entry (st : Statics) (w : W) (tpl : CBlockTemplate) :
  ChainActive_Tip w <> None ->
  ~ rebuild_due st w ->
  pblocktemplate st = Some tpl ->
  fst (final (template_answer st w))
  = {| nTransactionsUpdatedLast := nTransactionsUpdatedLast st;
       pindexPrev := pindexPrev st; nStart := nStart st;
       pblocktemplate :=
         Some (set_block tpl (set_nNonce (UpdateTime (block tpl) w) 0)) |}
  /\ calls (template_answer st w) = [].
Proof.
  intros Htip Hnd Htpl. unfold template_answer.
  rewrite (update_block_not_due st w Htip Hnd). cbn [final result calls ran].
  destruct (pindexPrev st) as [pprev|] eqn:Hp.
  - rewrite Htpl. destruct (ChainActive_Tip w); [|contradiction].
    split; reflexivity.
  - exfalso. apply Hnd. left. exact Hp.
Qed.

(** *** The long-poll wait *)

Lemma wait_loop_left (h : uint256) (n d : Z) (w : W) (script : list W)
    (cs : list (Z * Z)) :
  (g_best_block w =? h)%N && IsRPCRunning w = false ->
  wait_loop h n d w script cs =
  {| wt_status := Woken; wt_node := w; wt_checktxtime := d; wt_checks := cs |}.
Proof.
  intros Hg. destruct script; cbn [wait_loop]; rewrite Hg; reflexivity.
Qed.

Lemma wait_loop_suspended (h : uint256) (n : Z) (script : list W) :
  forall (d : Z) (w : W) (cs : list (Z * Z)),
  wt_status (wait_loop h n d w script cs) = Suspended ->
  (g_best_block (wt_node (wait_loop h n d w script cs)) =? h)%N
  && IsRPCRunning (wt_node (wait_loop h n d w script cs)) = true.
Proof.
  induction script as [|w' script IH]; intros d w cs; cbn [wait_loop];
    destruct ((g_best_block w =? h)%N && IsRPCRunning w) eqn:Hg;
    cbn [wt_status wt_node]; try discriminate.
  - intros _. exact Hg.
  - destruct (d <=? steady_clock_now w').
    + destruct (negb (GetTransactionsUpdated w' =? n)); cbn [wt_status];
        [discriminate | apply IH].
    + apply IH.
Qed.

(** Running the wait over [pre ++ post] is running it over [pre] and, if it
    is still on, going on over [post] from where it stands. *)
Lemma wait_loop_app (h : uint256) (n : Z) (pre post : list W) :
  forall (d : Z) (w : W) (cs : list (Z * Z)),
  wait_loop h n d w (pre ++ post) cs =
  match wt_status (wait_loop h n d w pre cs) with
  | Woken => wait_loop h n d w pre cs
  | Suspended =>
    wait_loop h n (wt_checktxtime (wait_loop h n d w pre cs))
      (wt_node (wait_loop h n d w pre cs)) post
      (wt_checks (wait_loop h n d w pre cs))
  end.
Proof.
  induction pre as [|w' pre IH]; intros d w cs.
  - cbn [app wait_loop].
    destruct ((g_best_block w =? h)%N && IsRPCRunning w) eqn:Hg; cbn; [reflexivity|].
    apply wait_loop_left. exact Hg.
  - cbn [app wait_loop].
    destruct ((g_best_block w =? h)%N && IsRPCRunning w); [|reflexivity].
    destruct (d <=? steady_clock_now w').
    + destruct (negb (GetTransactionsUpdated w' =? n)); [reflexivity | apply IH].
    + apply IH.
Qed.

(** What one more wake-up does to a wait that is still on. *)
Lemma wait_loop_wake (h : uint256) (n d : Z) (w w' : W) (pre post : list W)
    (cs : list (Z * Z)) :
  wt_status (wait_loop h n d w pre cs) = Suspended ->
  wait_loop h n d w (pre ++ w' :: post) cs =
  let r := wait_loop h n d w pre cs in
  if wt_checktxtime r <=? steady_clock_now w' then
    if negb (GetTransactionsUpdated w' =? n)
    then {| wt_status := Woken; wt_node := w'; wt_checktxtime := wt_checktxtime r;
            wt_checks := wt_checks r ++ [(wt_checktxtime r, steady_clock_now w')] |}
    else wait_loop h n (wt_checktxtime r + 10) w' post
           (wt_checks r ++ [(wt_checktxtime r, steady_clock_now w')])
  else wait_loop h n (wt_checktxtime r) w' post (wt_checks r).
Proof.
  intros Hs. rewrite wait_loop_app, Hs. cbn [wait_loop].
  rewrite (wait_loop_suspended _ _ _ _ _ _ Hs). reflexivity.
Qed.

(** The reads of the counter: the k-th is made at the deadline set 10k
    seconds after the first, which had elapsed by then. *)
Lemma wait_loop_checks (h : uint256) (n : Z) (script : list W) :
  forall (d : Z) (w : W) (cs : list (Z * Z)),
  exists new : list (Z * Z),
    wt_checks (wait_loop h n d w script cs) = cs ++ new /\
    forall (k : nat) (dl t : Z),
      new !! k = Some (dl, t) -> dl = d + 10 * Z.of_nat k /\ dl <= t.
Proof.
  induction script as [|w' script IH]; intros d w cs; cbn [wait_loop];
    destruct ((g_best_block w =? h)%N && IsRPCRunning w); cbn [wt_checks];
    try (exists []; rewrite app_nil_r; split; [reflexivity | intros k dl t Hk;
         rewrite lookup_nil in Hk; discriminate]).
  destruct (d <=? steady_clock_now w') eqn:Hd.
  - apply Z.leb_le in Hd.
    destruct (negb (GetTransactionsUpdated w' =? n)); cbn [wt_checks].
    + exists [(d, steady_clock_now w')]. split; [reflexivity|].
      intros [|k] dl t Hk; cbn in Hk; [|discriminate].
      injection Hk as <- <-. lia.
    + destruct (IH (d + 10) w' (cs ++ [(d, steady_clock_now w')])) as (new & Hc & Hn).
      exists ((d, steady_clock_now w') :: new). split.
      * rewrite Hc, <- app_assoc. reflexivity.
      * intros [|k] dl t Hk; cbn in Hk.
        -- injection Hk as <- <-. lia.
        -- destruct (Hn k dl t Hk). lia.
  - apply IH.
Qed.

(** C3: the long-poll wait for a watch token (hash, counter). If the best
    block already differs from the watched hash the wait is over at once,
    with no read of the mempool counter. The counter is read only at a
    wake-up at which the deadline in force has elapsed: the k-th read is at
    the deadline one minute plus 10k seconds after the start. While the wait
    is on, a wake-up at which the best block differs ends it there; a
    wake-up before the deadline reads nothing and keeps the deadline; a
    wake-up at or after the deadline ends the wait if the counter differs
    from the watched one, and otherwise moves the deadline 10 seconds on and
    the wait goes on. *)
Theorem longpoll_wait_behaviour (token : uint256 * Z) (w : W) :
  (g_best_block w <> fst token ->
   forall script : list W,
   longpoll_wait token w script =
   {| wt_status := Woken; wt_node := w;
      wt_checktxtime := steady_clock_now w + 60; wt_checks := [] |}) /\
  (forall (script : list W) (k : nat) (d t : Z),
   wt_checks (longpoll_wait token w script) !! k = Some (d, t) ->
   d = steady_clock_now w + 60 + 10 * Z.of_nat k /\ d <= t) /\
  (forall (pre : list W) (w' : W) (post : list W),
   wt_status (longpoll_wait token w pre) = Suspended ->
   let r := longpoll_wait token w pre in
   let r' := longpoll_wait token w (pre ++ w' :: post) in
   (g_best_block w' <> fst token -> wt_status r' = Woken /\ wt_node r' = w') /\
   (steady_clock_now w' < wt_checktxtime r ->
    r' = wait_loop (fst token) (snd token) (wt_checktxtime r) w' post (wt_checks r)) /\
   (wt_checktxtime r <= steady_clock_now w' ->
    GetTransactionsUpdated w' <> snd token ->
    r' = {| wt_status := Woken; wt_node := w'; wt_checktxtime := wt_checktxtime r;
            wt_checks := wt_checks r ++ [(wt_checktxtime r, steady_clock_now w')] |}) /\
   (wt_checktxtime r <= steady_clock_now w' ->
    GetTransactionsUpdated w' = snd token ->
    r' = wait_loop (fst token) (snd token) (wt_checktxtime r + 10) w' post
           (wt_checks r ++ [(wt_checktxtime r, steady_clock_now w')]))).
Proof.
  split; [|split].
  - intros Hne script. unfold longpoll_wait. apply wait_loop_left.
    apply N.eqb_neq in Hne. rewrite Hne. reflexivity.
  - intros script k d t Hk. unfold longpoll_wait in Hk.
    destruct (wait_loop_checks (fst token) (snd token) script
                (steady_clock_now w + 60) w []) as (new & Hc & Hn).
    rewrite Hc in Hk. apply (Hn k d t Hk).
  - intros pre w' post Hs r r'.
    assert (Hr' : r' =
      if wt_checktxtime r <=? steady_clock_now w' then
        if negb (GetTransactionsUpdated w' =? snd token)
        then {| wt_status := Woken; wt_node := w'; wt_checktxtime := wt_checktxtime r;
                wt_checks := wt_checks r ++ [(wt_checktxtime r, steady_clock_now w')] |}
        else wait_loop (fst token) (snd token) (wt_checktxtime r + 10) w' post
               (wt_checks r ++ [(wt_checktxtime r, steady_clock_now w')])
      else wait_loop (fst token) (snd token) (wt_checktxtime r) w' post (wt_checks r)).
    { subst r r'. unfold longpoll_wait in *. apply wait_loop_wake. exact Hs. }
    split; [|split; [|split]].
    + intros Hne. apply N.eqb_neq in Hne. rewrite Hr'.
      destruct (wt_checktxtime r <=? steady_clock_now w').
      * destruct (negb (GetTransactionsUpdated w' =? snd token)).
        -- split; reflexivity.
        -- rewrite wait_loop_left by (rewrite Hne; reflexivity). split; reflexivity.
      * rewrite wait_loop_left by (rewrite Hne; reflexivity). split; reflexivity.
    + intros Hlt. apply Z.leb_gt in Hlt. rewrite Hr', Hlt. reflexivity.
    + intros Hle Hne. apply Z.leb_le in Hle. apply Z.eqb_neq in Hne.
      rewrite Hr', Hle, Hne. reflexivity.
    + intros Hle He. apply Z.leb_le in Hle. apply Z.eqb_eq in He.
      rewrite Hr', Hle, He. reflexivity.
Qed.

(** *** The two modes *)



(** C7: a proposal that decodes to a block whose hash the block index does
    not have and whose predecessor is not the hash of the tip is answered
    "inconclusive-not-best-prevblk"; [TestBlockValidity] is not called,
    whatever it would have said, and nothing changes. *)
Theorem proposal_not_on_tip (oparam : TemplateRequest) (data : string) (st : Statics)
    (w : W) (script : list W) (blk : CBlock) (tip : ptr) :
  modeval oparam = JStr "proposal" ->
  dataval oparam = JStr data ->
  DecodeHexBlk data = Some blk ->
  LookupBlockIndex w (GetHash blk) = None ->
  ChainActive_Tip w = Some tip ->
  hashPrevBlock blk <> phashBlock (deref w tip) ->
  getblocktemplate (Some oparam) st w script =
  ran (Answered (Return (VSTR "inconclusive-not-best-prevblk"))) (st, w) [].
Proof.
  intros Hmode Hdata Hdec Hlook Htip Hprev.
  unfold getblocktemplate, request_mode. rewrite Hmode. cbn [String.eqb].
  change (String.eqb "proposal" "proposal") with true. cbv iota.
  unfold proposal. rewrite Hdata, Hdec, Hlook, Htip.
  apply N.eqb_neq in Hprev. rewrite Hprev. reflexivity.
Qed.

End GetBlockTemplateProps.

Lemma template_cache_rebuild_witness :
  update_block toy_cached (toy_node 3 700%N 0 true)
    = ran (Return tt) (toy_cached, toy_node 3 700%N 0 true) [] /\
  update_block toy_cached (toy_node 3 700%N 1 true)
    = ran (Return tt) (toy_cached, toy_node 3 700%N 1 true) [] /\
  calls (update_block toy_cached (toy_node 6 700%N 1 true))
    = [CallCreateNewBlock [OP_TRUE]] /\
  calls (update_block statics_init (toy_node 6 700%N 1 true))
    = [CallCreateNewBlock [OP_TRUE]] /\
  calls (update_block toy_stale (toy_node 0 700%N 0 true))
    = [CallCreateNewBlock [OP_TRUE]].
Proof.
  assert (Htip : forall t b n r, ChainActive_Tip (toy_node t b n r) <> None)
    by (intros; discriminate).
  split.
  { apply (proj1 (proj2 (template_cache_rebuild (S := ToyState) toy_cached
                           (toy_node 3 700%N 0 true) (Htip _ _ _ _)))).
    intros [Hn|[Hd|[Hm _]]]; [discriminate | apply Hd; reflexivity | apply Hm; reflexivity]. }
  split.
  { apply (proj1 (proj2 (template_cache_rebuild (S := ToyState) toy_cached
                           (toy_node 3 700%N 1 true) (Htip _ _ _ _)))).
    intros [Hn|[Hd|[_ Ht]]]; [discriminate | apply Hd; reflexivity | cbn in Ht; lia]. }
  split.
  { apply (proj1 (template_cache_rebuild (S := ToyState) toy_cached
                    (toy_node 6 700%N 1 true) (Htip _ _ _ _))).
    right; right. cbn. split; [discriminate | lia]. }
  split.
  { apply (proj1 (template_cache_rebuild (S := ToyState) statics_init
                    (toy_node 6 700%N 1 true) (Htip _ _ _ _))).
    left. reflexivity. }
  apply (proj1 (template_cache_rebuild (S := ToyState) toy_stale
                  (toy_node 0 700%N 0 true) (Htip _ _ _ _))).
  right; left. discriminate.
Defined.

(** C2 fails as stated: with an entry built on block 3 in the cache, a call
    on a node whose tip is block 7 and whose assembler gives no template
    throws and leaves the cache without template and without tip, with a new
    build time. *)
Lemma failed_build_keeps_entry_counterexample :
  let w := toy_with_oom true (toy_node 0 700%N 0 true) in
  let r := update_block toy_stale w in
  fst (CreateNewBlock [OP_TRUE] w) = None /\
  result r = Throw RPC_OUT_OF_MEMORY "Out of memory" /\
  pblocktemplate toy_stale = Some toy_template /\
  pblocktemplate (fst (final r)) = None /\
  pindexPrev toy_stale = Some 3%N /\
  pindexPrev (fst (final r)) = None /\
  nStart toy_stale = 900 /\
  nStart (fst (final r)) = 1000.
Proof. cbv zeta. repeat split. Qed.

Lemma failed_build_clears_cache_witness :
  let w := toy_with_oom true (toy_node 0 700%N 0 true) in
  result (update_block toy_stale w) = Throw RPC_OUT_OF_MEMORY "Out of memory" /\
  final (update_block toy_stale w)
    = ({| nTransactionsUpdatedLast := 0; pindexPrev := None; nStart := 1000;
          pblocktemplate := None |}, w).
Proof.
  cbv zeta.
  pose proof (failed_build_clears_cache (S := ToyState) toy_stale
                (toy_with_oom true (toy_node 0 700%N 0 true))
                (toy_with_oom true (toy_node 0 700%N 0 true))) as T.
  cbv zeta in T.
  destruct T as (Hr & Hf & _).
  - discriminate.
  - right; left. discriminate.
  - reflexivity.
  - split; [exact Hr | exact Hf].
Defined.

Lemma longpoll_wait_behaviour_witness :
  longpoll_wait (700%N, 0) (toy_node 0 700%N 0 true)
    [toy_node 30 700%N 1 true; toy_node 61 700%N 0 true; toy_node 71 700%N 2 true]
  = {| wt_status := Woken; wt_node := toy_node 71 700%N 2 true;
       wt_checktxtime := 70; wt_checks := [(60, 61); (70, 71)] |}.
Proof.
  pose proof (longpoll_wait_behaviour (S := ToyState) (700%N, 0)
                (toy_node 0 700%N 0 true)) as (_ & _ & T).
  specialize (T [toy_node 30 700%N 1 true; toy_node 61 700%N 0 true]
                (toy_node 71 700%N 2 true) [] eq_refl).
  cbv zeta in T. destruct T as (_ & _ & T & _).
  apply T; [apply Z.leb_le; reflexivity | apply Z.eqb_neq; reflexivity].
Defined.



Lemma proposal_not_on_tip_witness :
  getblocktemplate (Some toy_proposal_request) statics_init (toy_node 0 700%N 0 true) []
  = ran (Answered (Return (VSTR "inconclusive-not-best-prevblk")))
        (statics_init, toy_node 0 700%N 0 true) [].
Proof.
  pose proof (proposal_not_on_tip (S := ToyState) toy_proposal_request "ab" statics_init
                (toy_node 0 700%N 0 true) [] (toy_block 2) 7%N
                eq_refl eq_refl eq_refl eq_refl eq_refl) as T.
  apply T. discriminate.
Defined.

(** ** The direct-mining loop *)

(** An [int] operation whose exact result is in the range leaves it, and
    one that passes the upper end leaves less. *)
Lemma to_int_small (v : Z) : INT_MIN <= v <= INT_MAX -> to_int v = v.
Proof.
  unfold to_int, INT_MIN, INT_MAX. intros Hv.
  change (2 ^ 31) with 2147483648. change (2 ^ 32) with 4294967296.
  rewrite Z.mod_small; lia.
Qed.

Lemma to_int_le (v : Z) : INT_MIN <= v -> to_int v <= v.
Proof.
  unfold to_int, INT_MIN. intros Hv.
  change (2 ^ 31) with 2147483648. change (2 ^ 32) with 4294967296.
  pose proof (Z.mod_le (v + 2147483648) 4294967296 ltac:(lia) ltac:(lia)). lia.
Qed.

Section GenerateBlocksProps.
Context {S W : Type} `{!ValidationState S, !Primitives, !Node S W}.

(** [nMaxTries] turns are all the nonce search can make: more change
    nothing. *)
Lemma search_nonce_enough (extra tries : nat) :
  forall (pblock : CBlock) (nMaxTries : Z) (w : W),
  nMaxTries <= Z.of_nat tries ->
  search_nonce (tries + extra) pblock nMaxTries w = search_nonce tries pblock nMaxTries w.
Proof.
  induction tries as [|tries IH]; intros pblock nMaxTries w Hle.
  - destruct extra as [|extra]; [reflexivity|]. cbn [Nat.add search_nonce].
    replace (0 <? nMaxTries) with false by (symmetry; apply Z.ltb_ge; lia).
    reflexivity.
  - cbn [Nat.add search_nonce].
    destruct ((0 <? nMaxTries) && (nNonce pblock <? UINT32_MAX)
              && negb (CheckProofOfWork (GetHash pblock) (nBits pblock)));
      [|reflexivity].
    destruct (ShutdownRequested w) as [[|] w']; [reflexivity|].
    apply IH. lia.
Qed.

(** A candidate that satisfies the proof of work as it stands is found
    without a try being taken. *)
Lemma search_nonce_found (tries : nat) (pblock : CBlock) (nMaxTries : Z) (w : W) :
  CheckProofOfWork (GetHash pblock) (nBits pblock) = true ->
  search_nonce tries pblock nMaxTries w = (pblock, nMaxTries, w).
Proof.
  intros Hpow. destruct tries; [reflexivity|]. cbn [search_nonce].
  rewrite Hpow, andb_false_r. reflexivity.
Qed.

(** With one try left, a candidate that does not satisfy the proof of work
    takes it. *)
Lemma search_nonce_last_try (pblock : CBlock) (w w' : W) :
  nNonce pblock < UINT32_MAX ->
  CheckProofOfWork (GetHash pblock) (nBits pblock) = false ->
  ShutdownRequested w = (false, w') ->
  search_nonce (Z.to_nat 1) pblock 1 w
  = (set_nNonce pblock (nNonce pblock + 1), 0, w').
Proof.
  intros Hn Hpow Hpoll. change (Z.to_nat 1) with 1%nat. cbn [search_nonce].
  apply Z.ltb_lt in Hn. rewrite Hn, Hpow, Hpoll. reflexivity.
Qed.

(** The turn of the loop in which the search ends with the tries used up, or
    with shutdown requested, is the last: the hashes so far are returned. *)
Lemma generate_loop_stop (rounds : nat) (coinbase_script : CScript)
    (nHeightEnd nHeight nMaxTries nExtraNonce : Z) (blockHashes : list uint256)
    (w w1 w2 w3 w4 : W) (cs : list Call) (tpl : CBlockTemplate)
    (cand found : CBlock) (nExtraNonce' left : Z) :
  nHeight < nHeightEnd ->
  ShutdownRequested w = (false, w1) ->
  CreateNewBlock coinbase_script w1 = (Some tpl, w2) ->
  IncrementExtraNonce (block tpl) (ChainActive_Tip w2) nExtraNonce w2
    = (cand, nExtraNonce', w3) ->
  search_nonce (Z.to_nat nMaxTries) cand nMaxTries w3 = (found, left, w4) ->
  left = 0 \/ fst (ShutdownRequested w4) = true ->
  result (generate_loop (Datatypes.S rounds) coinbase_script nHeightEnd nHeight
            nMaxTries nExtraNonce blockHashes w cs)
  = Some (Return blockHashes) /\
  calls (generate_loop (Datatypes.S rounds) coinbase_script nHeightEnd nHeight
           nMaxTries nExtraNonce blockHashes w cs)
  = cs ++ [CallCreateNewBlock coinbase_script].
Proof.
  intros Hh Hpoll Hnew Hinc Hsearch Hstop. cbn [generate_loop].
  apply Z.ltb_lt in Hh. rewrite Hh, Hpoll, Hnew, Hinc, Hsearch.
  destruct (left =? 0) eqn:E; [split; reflexivity|].
  destruct Hstop as [->|Hsd]; [discriminate|].
  destruct (ShutdownRequested w4) as [sd w5]. cbn in Hsd. subst sd.
  split; reflexivity.
Qed.

(** The search never leaves more tries than it was given, nor fewer than
    none. *)
Lemma search_nonce_left (tries : nat) :
  forall (pblock : CBlock) (nMaxTries : Z) (w : W),
  snd (fst (search_nonce tries pblock nMaxTries w)) <= nMaxTries /\
  (0 <= nMaxTries -> 0 <= snd (fst (search_nonce tries pblock nMaxTries w))).
Proof.
  induction tries as [|tries IH]; intros pblock nMaxTries w; cbn [search_nonce].
  - cbn. lia.
  - destruct (0 <? nMaxTries) eqn:Hpos; cbn [andb]; [|cbn; lia].
    apply Z.ltb_lt in Hpos.
    destruct (nNonce pblock <? UINT32_MAX); cbn [andb]; [|cbn; lia].
    destruct (negb (CheckProofOfWork (GetHash pblock) (nBits pblock))); [|cbn; lia].
    destruct (ShutdownRequested w) as [[|] w']; [cbn; lia|].
    destruct (IH (set_nNonce pblock (nNonce pblock + 1)) (nMaxTries - 1) w') as (Hle & Hge).
    split; [lia | intros _; apply Hge; lia].
Qed.

(** A search left on a shutdown poll leaves the node as that poll left it. *)
Lemma search_interrupted_poll (tries : nat) :
  forall (pblock : CBlock) (nMaxTries : Z) (w : W),
  search_interrupted tries pblock nMaxTries w = true ->
  exists w0 : W,
    ShutdownRequested w0 = (true, snd (search_nonce tries pblock nMaxTries w)).
Proof.
  induction tries as [|tries IH]; intros pblock nMaxTries w;
    cbn [search_interrupted search_nonce]; [discriminate|].
  destruct ((0 <? nMaxTries) && (nNonce pblock <? UINT32_MAX)
            && negb (CheckProofOfWork (GetHash pblock) (nBits pblock)));
    [|discriminate].
  destruct (ShutdownRequested w) as [[|] w'] eqn:Hp.
  - intros _. exists w. exact Hp.
  - apply IH.
Qed.

(** A turn that runs to its end is a turn of the loop. *)
Lemma generate_loop_turn (rounds : nat) (coinbase_script : CScript) (nHeightEnd : Z)
    (s s' : LoopState W) :
  generate_turn coinbase_script nHeightEnd s = Some s' ->
  loop_from (Datatypes.S rounds) coinbase_script nHeightEnd s
  = loop_from rounds coinbase_script nHeightEnd s'.
Proof.
  unfold generate_turn, loop_from. cbn [generate_loop].
  destruct (ls_nHeight s <? nHeightEnd); [|discriminate].
  destruct (ShutdownRequested (ls_node s)) as [[|] w1]; [discriminate|].
  destruct (CreateNewBlock coinbase_script w1) as [[tpl|] w2]; [|discriminate].
  destruct (IncrementExtraNonce (block tpl) (ChainActive_Tip w2) (ls_nExtraNonce s) w2)
    as [[cand en] w3].
  destruct (search_nonce (Z.to_nat (ls_nMaxTries s)) cand (ls_nMaxTries s) w3)
    as [[found left] w4].
  destruct (left =? 0); [discriminate|].
  destruct (ShutdownRequested w4) as [[|] w5]; [discriminate|].
  destruct (nNonce found =? UINT32_MAX).
  - intros E. injection E as <-. reflexivity.
  - destruct (accepted (ProcessNewBlock found true w5)); cbn [negb]; [|discriminate].
    intros E. injection E as <-. reflexivity.
Qed.

Lemma generate_loop_turns (k : nat) :
  forall (rounds : nat) (coinbase_script : CScript) (nHeightEnd : Z) (s s' : LoopState W),
  generate_turns k coinbase_script nHeightEnd s = Some s' ->
  loop_from (k + rounds) coinbase_script nHeightEnd s
  = loop_from rounds coinbase_script nHeightEnd s'.
Proof.
  induction k as [|k IH]; intros rounds coinbase_script nHeightEnd s s';
    cbn [generate_turns Nat.add].
  - intros E. injection E as <-. reflexivity.
  - destruct (generate_turn coinbase_script nHeightEnd s) as [s1|] eqn:Ht; [|discriminate].
    intros Hk. rewrite (generate_loop_turn _ _ _ _ _ Ht). apply IH. exact Hk.
Qed.

(** What a turn that runs to its end does to the variables of the loop: the
    height moves on by the hashes added, by one at most and not past
    [nHeightEnd], and the tries left are not more and not none. *)
Lemma generate_turn_inv (coinbase_script : CScript) (nHeightEnd : Z)
    (s s' : LoopState W) :
  generate_turn coinbase_script nHeightEnd s = Some s' ->
  ls_nHeight s <= ls_nHeight s' <= nHeightEnd /\
  ls_nHeight s' - ls_nHeight s
  = Z.of_nat (length (ls_blockHashes s')) - Z.of_nat (length (ls_blockHashes s)) /\
  ls_nMaxTries s' <= ls_nMaxTries s /\
  ls_nMaxTries s' <> 0 /\
  (0 <= ls_nMaxTries s -> 0 <= ls_nMaxTries s').
Proof.
  unfold generate_turn.
  destruct (ls_nHeight s <? nHeightEnd) eqn:Hh; [|discriminate].
  apply Z.ltb_lt in Hh.
  destruct (ShutdownRequested (ls_node s)) as [[|] w1]; [discriminate|].
  destruct (CreateNewBlock coinbase_script w1) as [[tpl|] w2]; [|discriminate].
  destruct (IncrementExtraNonce (block tpl) (ChainActive_Tip w2) (ls_nExtraNonce s) w2)
    as [[cand en] w3].
  pose proof (search_nonce_left (Z.to_nat (ls_nMaxTries s)) cand (ls_nMaxTries s) w3)
    as (Hle & Hge).
  destruct (search_nonce (Z.to_nat (ls_nMaxTries s)) cand (ls_nMaxTries s) w3)
    as [[found left] w4].
  cbn [fst snd] in Hle, Hge.
  destruct (left =? 0) eqn:El; [discriminate|]. apply Z.eqb_neq in El.
  destruct (ShutdownRequested w4) as [[|] w5]; [discriminate|].
  destruct (nNonce found =? UINT32_MAX).
  - intros E. injection E as <-. cbn. repeat split; try assumption; lia.
  - destruct (accepted (ProcessNewBlock found true w5)); cbn [negb]; [|discriminate].
    intros E. injection E as <-. cbn. rewrite length_app. cbn [length].
    repeat split; try assumption; lia.
Qed.

Lemma generate_turns_inv (k : nat) :
  forall (coinbase_script : CScript) (nHeightEnd : Z) (s s' : LoopState W),
  generate_turns k coinbase_script nHeightEnd s = Some s' ->
  ls_nHeight s <= ls_nHeight s' <= Z.max nHeightEnd (ls_nHeight s) /\
  ls_nHeight s' - ls_nHeight s
  = Z.of_nat (length (ls_blockHashes s')) - Z.of_nat (length (ls_blockHashes s)) /\
  (ls_nMaxTries s = 1 -> ls_nMaxTries s' = 1).
Proof.
  induction k as [|k IH]; intros coinbase_script nHeightEnd s s'; cbn [generate_turns].
  - intros E. injection E as <-. repeat split; lia.
  - destruct (generate_turn coinbase_script nHeightEnd s) as [s1|] eqn:Ht; [|discriminate].
    intros Hk. apply generate_turn_inv in Ht as (Hh1 & Hl1 & Hm1 & Hz1 & Hp1).
    apply IH in Hk as (Hh & Hl & Hm).
    split; [lia|]. split; [lia|]. intros Hone. apply Hm. lia.
Qed.

(** C8, as the code has it. Take a call whose end height is an [int], after
    any number of turns of the loop that ran to their end. The hashes held
    are one for each block the height has moved on by, and a budget of one
    try is still one try: a candidate that satisfies the proof of work at
    its first nonce takes nothing from the budget. If the height has reached
    the end, the call returns these hashes, as many as were asked for. If it
    has not and the next turn assembles a candidate, the hashes are fewer
    than were asked for, and if the nonce search ends with the budget at
    zero, or the poll after it reads true, or a poll inside it read true on
    a node whose shutdown flag stays set, the loop ends there: these hashes
    are returned, nothing is thrown and the candidate is not submitted. With
    a budget of 1, a candidate that does not satisfy the proof of work at
    its first nonce takes the one try and ends the loop so. *)
Theorem generate_stops_with_partial_result (rounds k : nat) (coinbase_script : CScript)
    (nGenerate nMaxTries : Z) (w : W) (s : LoopState W) :
  INT_MIN <= ChainActive_Height w + nGenerate <= INT_MAX ->
  generate_turns k coinbase_script (ChainActive_Height w + nGenerate)
    (loop_start nMaxTries w) = Some s ->
  let run := generateBlocks (k + Datatypes.S rounds) coinbase_script nGenerate
               nMaxTries w in
  let mined := ls_blockHashes s in
  Z.of_nat (length mined) = ls_nHeight s - ChainActive_Height w /\
  (nMaxTries = 1 -> ls_nMaxTries s = 1) /\
  (ChainActive_Height w + nGenerate <= ls_nHeight s ->
   run = ran (Some (Return mined)) (ls_node s) (ls_calls s) /\
   Z.of_nat (length mined) = Z.max 0 nGenerate) /\
  (forall (w1 w2 w3 : W) (tpl : CBlockTemplate) (cand : CBlock) (nExtraNonce' : Z),
   ls_nHeight s < ChainActive_Height w + nGenerate ->
   ShutdownRequested (ls_node s) = (false, w1) ->
   CreateNewBlock coinbase_script w1 = (Some tpl, w2) ->
   IncrementExtraNonce (block tpl) (ChainActive_Tip w2) (ls_nExtraNonce s) w2
     = (cand, nExtraNonce', w3) ->
   Z.of_nat (length mined) < nGenerate /\
   (forall (found : CBlock) (left : Z) (w4 : W),
    search_nonce (Z.to_nat (ls_nMaxTries s)) cand (ls_nMaxTries s) w3
      = (found, left, w4) ->
    left = 0
    \/ fst (ShutdownRequested w4) = true
    \/ (search_interrupted (Z.to_nat (ls_nMaxTries s)) cand (ls_nMaxTries s) w3 = true /\
        forall w0 w0' : W, ShutdownRequested w0 = (true, w0') ->
                           fst (ShutdownRequested w0') = true) ->
    result run = Some (Return mined) /\
    calls run = ls_calls s ++ [CallCreateNewBlock coinbase_script]) /\
   (CheckProofOfWork (GetHash cand) (nBits cand) = true ->
    search_nonce (Z.to_nat (ls_nMaxTries s)) cand (ls_nMaxTries s) w3
    = (cand, ls_nMaxTries s, w3)) /\
   (nMaxTries = 1 ->
    nNonce cand < UINT32_MAX ->
    CheckProofOfWork (GetHash cand) (nBits cand) = false ->
    fst (ShutdownRequested w3) = false ->
    result run = Some (Return mined))).
Proof.
  intros Hint Hk run mined.
  assert (Hrun : run = loop_from (Datatypes.S rounds) coinbase_script
                         (ChainActive_Height w + nGenerate) s).
  { subst run. unfold generateBlocks. rewrite (to_int_small _ Hint).
    exact (generate_loop_turns k _ _ _ _ _ Hk). }
  pose proof (generate_turns_inv k _ _ _ _ Hk) as (Hh & Hl & Hone).
  cbn [loop_start ls_nHeight ls_blockHashes ls_nMaxTries length] in Hh, Hl, Hone.
  fold mined in Hl.
  split; [lia|]. split; [exact Hone|]. split.
  - intros Hend. split; [|lia].
    rewrite Hrun. unfold loop_from. cbn [generate_loop].
    replace (ls_nHeight s <? ChainActive_Height w + nGenerate) with false
      by (symmetry; apply Z.ltb_ge; lia).
    reflexivity.
  - intros w1 w2 w3 tpl cand en Hlt Hpoll Hnew Hinc.
    split; [lia|]. split; [|split].
    + intros found left w4 Hsearch Hstop. rewrite Hrun. unfold loop_from.
      apply (generate_loop_stop rounds _ _ _ _ _ _ _ _ _ _ _ _ _ _ _ _ _
               Hlt Hpoll Hnew Hinc Hsearch).
      destruct Hstop as [Hz|[Hsd|(Hi & Hsticky)]]; [left; exact Hz | right; exact Hsd |].
      right. apply search_interrupted_poll in Hi as (w0 & Hp0).
      rewrite Hsearch in Hp0. cbn [snd] in Hp0. exact (Hsticky _ _ Hp0).
    + apply search_nonce_found.
    + intros Hb Hn Hpow Hsd. rewrite Hrun. unfold loop_from.
      destruct (ShutdownRequested w3) as [sd w4] eqn:Hp3. cbn in Hsd. subst sd.
      pose proof (search_nonce_last_try _ _ _ Hn Hpow Hp3) as Hsearch.
      rewrite <- (Hone Hb) in Hsearch.
      exact (proj1 (generate_loop_stop rounds _ _ _ _ _ _ _ _ _ _ _ _ _ _ _ _ _
                      Hlt Hpoll Hnew Hinc Hsearch (or_introl eq_refl))).
Qed.

End GenerateBlocksProps.

(** C8 fails as stated: on a node where every candidate satisfies the proof
    of work at its first nonce, five blocks with a budget of one try give
    five hashes. *)
Lemma generate_budget_one_counterexample :
  result (generateBlocks 6 [OP_TRUE] 5 1 (toy_node 0 700%N 0 true))
  = Some (Return [70000%N; 7000000%N; 700000000%N; 70000000000%N; 7000000000000%N]).
Proof. vm_compute. reflexivity. Qed.

Lemma generate_stops_with_partial_result_witness :
  result (generateBlocks 6 [OP_TRUE] 5 1 (toy_with_bits 3 (toy_node 0 700%N 0 true)))
    = Some (Return []) /\
  result (generateBlocks 6 [OP_TRUE] 5 1
            (toy_with_polls (Some 3%nat) (toy_node 0 700%N 0 true)))
    = Some (Return [70000%N]) /\
  result (generateBlocks 6 [OP_TRUE] 2 1 (toy_node 0 700%N 0 true))
    = Some (Return [70000%N; 7000000%N]) /\
  result (generateBlocks 6 [OP_TRUE] 5 10 (toy_with_polls (Some 1%nat) toy_hard_node))
    = Some (Return []).
Proof.
  assert (Hint : forall n : Z, (INT_MIN <=? 7 + n) && (7 + n <=? INT_MAX) = true ->
                 INT_MIN <= 7 + n <= INT_MAX).
  { intros n Hn. apply andb_true_iff in Hn as (Hlo & Hhi).
    split; [apply Z.leb_le, Hlo | apply Z.leb_le, Hhi]. }
  split; [|split; [|split]].
  - pose proof (generate_stops_with_partial_result (S := ToyState) 5 0 [OP_TRUE] 5 1
                  (toy_with_bits 3 (toy_node 0 700%N 0 true)) _
                  (Hint 5 eq_refl) eq_refl) as T.
    cbv zeta in T. destruct T as (_ & _ & _ & T).
    destruct (T _ _ _ _ _ _ ltac:(apply Z.ltb_lt; reflexivity) eq_refl eq_refl eq_refl)
      as (_ & _ & _ & T1).
    apply T1; reflexivity.
  - pose (w := toy_with_polls (Some 3%nat) (toy_node 0 700%N 0 true)).
    pose (s := match generate_turns 1 [OP_TRUE] 12 (loop_start 1 w) with
               | Some s => s
               | None => loop_start 1 w
               end).
    pose (w1 := snd (toy_poll (ls_node s))).
    pose (cand := {| nVersion := 1; hashPrevBlock := 70000%N; nTime := 1000;
                     nBits := 1; nNonce := 0; vtx := [toy_coinbase] |}).
    pose proof (generate_stops_with_partial_result (S := ToyState) 4 1 [OP_TRUE] 5 1
                  w s (Hint 5 eq_refl) eq_refl) as T.
    cbv zeta in T. destruct T as (_ & _ & _ & T).
    destruct (T w1 w1 w1 {| block := cand; vTxFees := [10]; vTxSigOpsCost := [4] |}
                cand 2 ltac:(apply Z.ltb_lt; reflexivity) eq_refl eq_refl eq_refl)
      as (_ & T1 & _).
    apply (T1 cand 1 w1 eq_refl). right; left. reflexivity.
  - pose proof (generate_stops_with_partial_result (S := ToyState) 3 2 [OP_TRUE] 2 1
                  (toy_node 0 700%N 0 true) _ (Hint 2 eq_refl) eq_refl) as T.
    cbv zeta in T. destruct T as (_ & _ & T & _).
    destruct (T ltac:(apply Z.leb_le; reflexivity)) as (T1 & _).
    change (2 + 4)%nat with 6%nat in T1. rewrite T1. reflexivity.
  - pose proof (generate_stops_with_partial_result (S := ToyState) 5 0 [OP_TRUE] 5 10
                  (toy_with_polls (Some 1%nat) toy_hard_node) _
                  (Hint 5 eq_refl) eq_refl) as T.
    cbv zeta in T. destruct T as (_ & _ & _ & T).
    destruct (T _ _ _ _ _ _ ltac:(apply Z.ltb_lt; reflexivity) eq_refl eq_refl eq_refl)
      as (_ & T1 & _).
    apply (T1 _ _ _ eq_refl). right; right. split; [reflexivity|].
    intros w0 w1. cbn. unfold toy_poll.
    destruct (toy_polls w0) as [[|n]|] eqn:E; intros Hp; try discriminate.
    injection Hp as <-. rewrite E. reflexivity.
Defined.

(** ** The dependency indices of a template *)

Section DependsProps.
Context {S W : Type} `{!ValidationState S, !Primitives, !Node S W}.

Lemma tx_loop_snoc (tpl : CBlockTemplate) (l : list CTransaction) (tx : CTransaction) :
  tx_loop tpl (l ++ [tx]) = add_transaction tpl (tx_loop tpl l) tx.
Proof. unfold tx_loop. rewrite fold_left_app. reflexivity. Qed.

(** After the loop has run over [l]: [i] is the length of [l], [setTxIndex]
    sends a hash to the index in [l] of a transaction with that hash, and
    knows the hash of every transaction of [l]. *)
Lemma tx_loop_index (tpl : CBlockTemplate) (l : list CTransaction) :
  snd (fst (tx_loop tpl l)) = Z.of_nat (length l) /\
  (forall (h : N) (j : Z),
   fst (fst (tx_loop tpl l)) !! h = Some j ->
   0 <= j < Z.of_nat (length l) /\
   exists tx : CTransaction, l !! Z.to_nat j = Some tx /\ tx_hash tx = h) /\
  (forall (j : nat) (tx : CTransaction),
   l !! j = Some tx -> is_Some (fst (fst (tx_loop tpl l)) !! tx_hash tx)).
Proof.
  induction l as [|tx l IH] using rev_ind.
  - cbn. split; [reflexivity|]. split.
    + intros h j Hj. rewrite lookup_empty in Hj. discriminate.
    + intros j tx Hj. discriminate.
  - rewrite tx_loop_snoc.
    destruct (tx_loop tpl l) as [[m i] out]. cbn [fst snd] in IH.
    destruct IH as (Hi & Hok & Hall). subst i.
    assert (Hst : fst (add_transaction tpl (m, Z.of_nat (length l), out) tx)
                  = (<[tx_hash tx := Z.of_nat (length l)]> m, Z.of_nat (length l) + 1)).
    { unfold add_transaction. destruct (IsCoinBase tx); reflexivity. }
    rewrite Hst. cbn [fst snd]. rewrite length_app. cbn [length].
    split; [lia|]. split.
    + intros h j Hj. destruct (decide (tx_hash tx = h)) as [<-|Hne].
      * rewrite lookup_insert_eq in Hj. injection Hj as <-.
        split; [lia|]. exists tx. rewrite Nat2Z.id.
        split; [apply list_lookup_middle; reflexivity | reflexivity].
      * rewrite lookup_insert_ne in Hj by exact Hne.
        destruct (Hok h j Hj) as (Hr & tx' & Hl & Hh).
        split; [lia|]. exists tx'. split; [|exact Hh].
        apply lookup_app_l_Some. exact Hl.
    + intros j tx0 Hj. apply lookup_app_Some in Hj as [Hj|[_ Hj]].
      * destruct (decide (tx_hash tx = tx_hash tx0)) as [He|Hne].
        -- rewrite He, lookup_insert_eq. eauto.
        -- rewrite lookup_insert_ne by exact Hne. apply (Hall j tx0 Hj).
      * destruct (j - length l)%nat; [|destruct n; discriminate].
        injection Hj as <-. rewrite lookup_insert_eq. eauto.
Qed.

Lemma depends_on_earlier_app (l l2 : list CTransaction) (k : nat) (tx : CTransaction)
    (deps : list Z) :
  (k <= length l)%nat ->
  depends_on_earlier l k tx deps ->
  depends_on_earlier (l ++ l2) k tx deps.
Proof.
  intros Hk (Hsound & Hall). split.
  - intros d Hd. destruct (Hsound d Hd) as (Hr & tx' & Hl & Hs).
    split; [exact Hr|]. exists tx'. split; [|exact Hs].
    apply lookup_app_l_Some. exact Hl.
  - intros txin Hin. split.
    + intros (j & tx' & Hj & Hl & Hh).
      rewrite lookup_app_l in Hl by lia.
      destruct (proj1 (Hall txin Hin)) as (d & tx'' & Hd & Hl' & Hh'); [eauto|].
      exists d, tx''. split; [exact Hd|]. split; [|exact Hh'].
      apply lookup_app_l_Some. exact Hl'.
    + intros (d & tx' & Hd & Hl & Hh).
      destruct (Hsound d Hd) as (Hr & _).
      rewrite lookup_app_l in Hl by lia.
      exists (Z.to_nat d), tx'. split; [lia|]. split; [|exact Hh].
      apply lookup_app_l_Some. exact Hl.
Qed.

(** The entries the loop has made after running over [l], when the coinbase
    is first and only there and no transaction names itself: one entry per
    transaction after the first, in order, with the dependencies of that
    transaction on the ones before it. *)
Lemma tx_loop_entries (tpl : CBlockTemplate) (l : list CTransaction) :
  (forall (j : nat) (tx : CTransaction),
   l !! j = Some tx -> IsCoinBase tx = true <-> j = 0%nat) ->
  (forall (j : nat) (tx : CTransaction) (txin : CTxIn),
   l !! j = Some tx -> txin ∈ vin tx -> op_hash (prevout txin) <> tx_hash tx) ->
  length (snd (tx_loop tpl l)) = Nat.pred (length l) /\
  (forall (p : nat) (e : TxEntry),
   snd (tx_loop tpl l) !! p = Some e ->
   exists tx : CTransaction,
     l !! Datatypes.S p = Some tx /\ e_txid e = tx_hash tx /\
     depends_on_earlier l (Datatypes.S p) tx (e_depends e)).
Proof.
  induction l as [|tx l IH] using rev_ind; intros Hcb Hself.
  - cbn. split; [reflexivity|]. intros p e Hp. discriminate.
  - destruct IH as (Hlen & Hent).
    { intros j tx0 Hj. apply (Hcb j tx0). apply lookup_app_l_Some. exact Hj. }
    { intros j tx0 txin Hj. apply (Hself j tx0 txin). apply lookup_app_l_Some. exact Hj. }
    pose proof (tx_loop_index tpl l) as (Hi & Hok & Hall).
    assert (Htx : (l ++ [tx]) !! length l = Some tx)
      by (apply list_lookup_middle; reflexivity).
    rewrite tx_loop_snoc.
    destruct (tx_loop tpl l) as [[m i] out]. cbn [fst snd] in *. subst i.
    assert (Hold : forall (p : nat) (e : TxEntry), out !! p = Some e ->
              exists tx0 : CTransaction,
                (l ++ [tx]) !! Datatypes.S p = Some tx0 /\ e_txid e = tx_hash tx0 /\
                depends_on_earlier (l ++ [tx]) (Datatypes.S p) tx0 (e_depends e)).
    { intros p e Hp. destruct (Hent p e Hp) as (tx0 & Hl & Hid & Hdep).
      exists tx0. split; [apply lookup_app_l_Some; exact Hl|]. split; [exact Hid|].
      apply depends_on_earlier_app; [|exact Hdep].
      apply lookup_lt_Some in Hl. lia. }
    unfold add_transaction. destruct (IsCoinBase tx) eqn:Ecb; cbn [fst snd].
    + apply (Hcb _ _ Htx) in Ecb.
      rewrite length_app. cbn [length]. split; [lia | exact Hold].
    + assert (Hpos : length l <> 0%nat).
      { intros Hz. apply (Hcb _ _ Htx) in Hz. congruence. }
      rewrite !length_app. cbn [length]. split; [lia|].
      intros p e Hp. apply lookup_app_Some in Hp as [Hp|[Hge Hp]]; [apply (Hold p e Hp)|].
      destruct (p - length out)%nat eqn:Ep; [|destruct n; discriminate].
      injection Hp as <-. cbn [e_txid e_depends].
      assert (Hsp : Datatypes.S p = length l) by lia.
      rewrite Hsp. exists tx. split; [exact Htx|]. split; [reflexivity|].
      assert (Hlook : forall txin : CTxIn, txin ∈ vin tx ->
                <[tx_hash tx := Z.of_nat (length l)]> m !! op_hash (prevout txin)
                = m !! op_hash (prevout txin)).
      { intros txin Hin. apply lookup_insert_ne.
        intros He. apply (Hself _ _ txin Htx Hin). symmetry. exact He. }
      assert (Hsound : forall d : Z,
                d ∈ omap (fun txin : CTxIn =>
                            <[tx_hash tx := Z.of_nat (length l)]> m
                              !! op_hash (prevout txin)) (vin tx) ->
                exists txin : CTxIn, txin ∈ vin tx /\
                  0 <= d < Z.of_nat (length l) /\
                  exists tx' : CTransaction,
                    l !! Z.to_nat d = Some tx' /\ tx_hash tx' = op_hash (prevout txin)).
      { intros d Hd. apply list_elem_of_omap in Hd as (txin & Hin & Hm).
        rewrite (Hlook txin Hin) in Hm.
        destruct (Hok _ _ Hm) as (Hr & tx' & Hl & Hh). eauto 8. }
      split.
      * intros d Hd. destruct (Hsound d Hd) as (txin & Hin & Hr & tx' & Hl & Hh).
        split; [exact Hr|]. exists tx'.
        split; [apply lookup_app_l_Some; exact Hl|].
        exists txin. split; [exact Hin | symmetry; exact Hh].
      * intros txin Hin. split.
        -- intros (j & tx' & Hj & Hl & Hh).
           rewrite lookup_app_l in Hl by lia.
           destruct (Hall j tx' Hl) as (d & Hm). rewrite Hh in Hm.
           destruct (Hok _ _ Hm) as (Hr & tx'' & Hl' & Hh').
           exists d, tx''. split.
           { apply list_elem_of_omap. exists txin.
             split; [exact Hin|]. rewrite (Hlook txin Hin). exact Hm. }
           split; [apply lookup_app_l_Some; exact Hl' | exact Hh'].
        -- intros (d & tx' & Hd & Hl & Hh).
           destruct (Hsound d Hd) as (_ & _ & Hr & _).
           exists (Z.to_nat d), tx'. split; [lia|]. split; [exact Hl | exact Hh].
Qed.

Lemma template_answer_object (st : Statics) (w : W) (o : TemplateResult) :
  result (template_answer st w) = Return (VOBJ o) ->
  exists tpl : CBlockTemplate,
    pblocktemplate (fst (final (template_answer st w))) = Some tpl /\
    r_transactions o = template_transactions tpl.
Proof.
  unfold template_answer.
  destruct (update_block st w) as [res [st1 w1] cs]. cbn [result final calls].
  destruct res as [[]| |]; [|discriminate..].
  destruct (pindexPrev st1); [|discriminate].
  destruct (pblocktemplate st1); [|discriminate].
  destruct (ChainActive_Tip w1); [|discriminate].
  cbn. intros Ho. injection Ho as <-. eexists. split; reflexivity.
Qed.

(** C9: in a template answer built from a block that has its coinbase first
    and only there, the entry at (1-based) position p of "transactions" is
    the transaction at index p of the block, and its "depends" holds indices
    below p only, each the index in the block of a transaction that one of
    its inputs spends from (and, unless that is the coinbase, the position in
    "transactions" of the entry of that transaction); there is such an index
    for an input exactly when a transaction placed before it in the block
    has the hash the input names. *)
Theorem template_depends_earlier (st : Statics) (w : W) (o : TemplateResult)
    (tpl : CBlockTemplate) :
  result (template_answer st w) = Return (VOBJ o) ->
  pblocktemplate (fst (final (template_answer st w))) = Some tpl ->
  well_formed_vtx (vtx (block tpl)) ->
  forall (p : nat) (e : TxEntry),
  r_transactions o !! p = Some e ->
  exists tx : CTransaction,
    vtx (block tpl) !! Datatypes.S p = Some tx /\
    e_txid e = tx_hash tx /\
    depends_on_earlier (vtx (block tpl)) (Datatypes.S p) tx (e_depends e) /\
    (forall (d : Z) (tx' : CTransaction),
     d ∈ e_depends e -> 0 < d ->
     vtx (block tpl) !! Z.to_nat d = Some tx' ->
     exists e' : TxEntry,
       r_transactions o !! Nat.pred (Z.to_nat d) = Some e' /\ e_txid e' = tx_hash tx').
Proof.
  intros Hres Htpl ((cb & rest & Hvtx & Hcb & Hrest) & Hself) p e Hp.
  destruct (template_answer_object st w o Hres) as (tpl' & Htpl' & Htx).
  rewrite Htpl in Htpl'. injection Htpl' as <-.
  rewrite Htx in *. unfold template_transactions in *.
  destruct (tx_loop_entries tpl (vtx (block tpl))) as (Hlen & Hent).
  { intros j tx Hj. rewrite Hvtx in Hj. destruct j as [|j]; cbn in Hj.
    - injection Hj as <-. tauto.
    - rewrite Forall_forall in Hrest.
      assert (IsCoinBase tx = false)
        by (apply Hrest, list_elem_of_lookup; eauto).
      split; [congruence | discriminate]. }
  { intros j tx txin Hj Hin. rewrite Forall_forall in Hself.
    assert (Hf : Forall (fun txin : CTxIn => op_hash (prevout txin) <> tx_hash tx) (vin tx))
      by (apply Hself, list_elem_of_lookup; eauto).
    rewrite Forall_forall in Hf. apply Hf. exact Hin. }
  destruct (Hent p e Hp) as (tx & Hl & Hid & Hdep).
  exists tx. split; [exact Hl|]. split; [exact Hid|]. split; [exact Hdep|].
  intros d tx' Hd Hpos Hl'.
  destruct (proj1 Hdep d Hd) as (Hr & _).
  assert (Hlt : (Nat.pred (Z.to_nat d) < length (snd (tx_loop tpl (vtx (block tpl)))))%nat).
  { apply lookup_lt_Some in Hl'. rewrite Hlen. lia. }
  apply lookup_lt_is_Some in Hlt as (e' & He').
  exists e'. split; [exact He'|].
  destruct (Hent _ e' He') as (tx0 & Hl0 & Hid0 & _).
  replace (Datatypes.S (Nat.pred (Z.to_nat d))) with (Z.to_nat d) in Hl0 by lia.
  congruence.
Qed.

End DependsProps.

Lemma template_depends_earlier_witness :
  exists o : TemplateResult,
    result (template_answer statics_init toy_pool_node) = Return (VOBJ o) /\
    map e_depends (r_transactions o) = [[]; [1]; [2; 1]] /\
    forall d : Z, d ∈ [2; 1] -> 0 <= d < 3.
Proof.
  eexists. split; [reflexivity|]. split; [reflexivity|].
  pose proof (template_depends_earlier (S := ToyState) statics_init toy_pool_node
                _ _ eq_refl eq_refl) as T.
  destruct (T ltac:(split;
                    [eexists _, _; split; [reflexivity|];
                     split; [reflexivity | repeat constructor]
                    | repeat constructor; discriminate])
              2%nat _ eq_refl) as (tx & _ & _ & (Hsound & _) & _).
  intros d Hd. apply (Hsound d Hd).
Defined.

(** * Further properties of the code *)

(** ** Classification and the observer *)

Section ClassifierProps.
Context {S W : Type} `{!ValidationState S, !Primitives, !Node S W}.

(** X1: [BIP22ValidationResult] gives null exactly for a valid state; a
    string it gives is never empty and comes from a state that is neither
    valid nor an error; what it throws is [RPC_VERIFY_ERROR] with the text of
    an error state; it gives nothing else. *)
Theorem BIP22ValidationResult_shape (state : S) :
  (BIP22ValidationResult state = Return NullUniValue <-> IsValid state = true) /\
  (forall s : string, BIP22ValidationResult state = Return (VSTR s) ->
   s <> EmptyString /\ IsValid state = false /\ IsError state = false) /\
  (forall (c : RPCErrorCode) (m : string), BIP22ValidationResult state = Throw c m ->
   c = RPC_VERIFY_ERROR /\ m = ToString state /\ IsValid state = false
   /\ IsError state = true) /\
  BIP22ValidationResult state <> NullDeref /\
  (forall o : TemplateResult, BIP22ValidationResult state <> Return (VOBJ o)).
Proof.
  unfold BIP22ValidationResult.
  destruct (IsValid state) eqn:Ev.
  { split; [tauto|]. split; [intros; discriminate|].
    split; [intros; discriminate|]. split; [discriminate | intros; discriminate]. }
  destruct (IsError state) eqn:Ee.
  { split; [split; discriminate|]. split; [intros; discriminate|].
    split; [|split; [discriminate | intros; discriminate]].
    intros c m Hr. injection Hr as <- <-. auto. }
  assert (Hv : exists v : string, v <> EmptyString /\
            (if IsInvalid state
             then if String.eqb (GetRejectReason state) EmptyString
                  then Return (VSTR "rejected")
                  else Return (VSTR (GetRejectReason state))
             else Return (VSTR "valid?")) = Return (VSTR v)).
  { destruct (IsInvalid state);
      [destruct (String.eqb (GetRejectReason state) EmptyString) eqn:E|];
      eexists; (split; [|reflexivity]);
      [discriminate | apply String.eqb_neq; exact E | discriminate]. }
  cbv zeta. destruct Hv as (v & Hne & ->).
  split; [split; discriminate|].
  split; [|split; [intros; discriminate | split; [discriminate | intros; discriminate]]].
  intros s Hr. injection Hr as <-. auto.
Qed.

Lemma heard_In (h : uint256) (sigs : list (CBlock * S)) (sig : CBlock * S) :
  In sig (heard h sigs) <-> In sig sigs /\ GetHash (fst sig) = h.
Proof.
  unfold heard. rewrite List.filter_In, N.eqb_eq. reflexivity.
Qed.

(** X2: after any run of [BlockChecked] signals the observer made for hash
    [h] still watches [h]; [found] is set exactly when one of the signals was
    about a block with hash [h]; the state it holds is that of the last such
    signal; and two runs with the same signals about [h] leave it the same,
    whatever they say about other blocks. *)
Theorem observer_holds_last_signal (h : uint256) (sigs : list (CBlock * S)) :
  sc_hash (deliver (StateCatcher h) sigs) = h /\
  (sc_found (deliver (StateCatcher h) sigs) = true <->
   exists sig : CBlock * S, In sig sigs /\ GetHash (fst sig) = h) /\
  (forall sig : CBlock * S, last (heard h sigs) = Some sig ->
   sc_state (deliver (StateCatcher h) sigs) = snd sig) /\
  (forall sigs' : list (CBlock * S), heard h sigs' = heard h sigs ->
   deliver (StateCatcher h) sigs' = deliver (StateCatcher h) sigs).
Proof.
  split; [apply deliver_hash|].
  rewrite deliver_last. cbn [StateCatcher sc_hash].
  split; [|split].
  - destruct (last (heard h sigs)) as [sig|] eqn:Hl; cbn [sc_found].
    + split; [intros _|reflexivity].
      exists sig. apply heard_In. apply last_Some in Hl as (l' & ->).
      apply in_or_app. right. left. reflexivity.
    + split; [discriminate|]. intros (sig & Hin & Hh).
      apply last_None in Hl.
      assert (Hin' : In sig (heard h sigs)) by (apply heard_In; split; assumption).
      rewrite Hl in Hin'. destruct Hin'.
  - intros sig ->. reflexivity.
  - intros sigs' He. rewrite deliver_last. cbn [StateCatcher sc_hash].
    rewrite He. reflexivity.
Qed.

End ClassifierProps.

(** ** [submitblock], beyond the answers *)

Section SubmitBlockMore.
Context {S W : Type} `{!ValidationState S, !Primitives, !Node S W}.

(** X3: data that does not decode, a block without transactions and a block
    whose first transaction is not a coinbase are refused with
    [RPC_DESERIALIZATION_ERROR] before the block index is looked at: the node
    is untouched and nothing is handed to the engine. *)
Theorem submitblock_refuses_malformed (hexdata : string) (w : W) :
  (DecodeHexBlk hexdata = None ->
   submitblock hexdata w
   = ran (Throw RPC_DESERIALIZATION_ERROR "Block decode failed") w []) /\
  (forall blk : CBlock, DecodeHexBlk hexdata = Some blk ->
   vtx blk = [] \/
   (exists (tx0 : CTransaction) (rest : list CTransaction),
      vtx blk = tx0 :: rest /\ IsCoinBase tx0 = false) ->
   submitblock hexdata w
   = ran (Throw RPC_DESERIALIZATION_ERROR "Block does not start with a coinbase") w []).
Proof.
  unfold submitblock. split.
  - intros ->. reflexivity.
  - intros blk -> [Hv|(tx0 & rest & Hv & Hcb)]; rewrite Hv; [reflexivity|].
    rewrite Hcb. reflexivity.
Qed.

(** X4: whatever it is given, [submitblock] either makes no call at all and
    leaves the node as it was, or hands one block to [ProcessNewBlock], once,
    with forced processing, between registering and unregistering the
    observer for the hash of that very block, the only call before these
    being the update of the block's uncommitted structures. *)
Theorem submitblock_calls_shape (hexdata : string) (w : W) :
  (calls (submitblock hexdata w) = [] /\ final (submitblock hexdata w) = w) \/
  (exists (blk : CBlock) (pre : list Call),
     DecodeHexBlk hexdata = Some blk /\
     (pre = [] \/ pre = [CallUpdateUncommittedBlockStructures blk]) /\
     calls (submitblock hexdata w)
     = pre ++ [CallRegisterSharedValidationInterface (GetHash (committed blk w));
               CallProcessNewBlock (committed blk w) true;
               CallUnregisterSharedValidationInterface (GetHash (committed blk w))] /\
     final (submitblock hexdata w) = after (ProcessNewBlock (committed blk w) true w)).
Proof.
  unfold submitblock.
  destruct (DecodeHexBlk hexdata) as [blk|]; [|left; split; reflexivity].
  destruct (match vtx blk with [] => true | tx0 :: _ => negb (IsCoinBase tx0) end);
    [left; split; reflexivity|].
  destruct (known_block w (GetHash blk)); [left; split; reflexivity|].
  right. exists blk. unfold process_submission, committed.
  destruct (LookupBlockIndex w (hashPrevBlock blk)) as [pindex|]; cbn zeta.
  - exists [CallUpdateUncommittedBlockStructures blk].
    split; [reflexivity|]. split; [right; reflexivity|].
    destruct (negb _ && _); [|destruct (negb _)]; split; reflexivity.
  - exists []. split; [reflexivity|]. split; [left; reflexivity|].
    destruct (negb _ && _); [|destruct (negb _)]; split; reflexivity.
Qed.

End SubmitBlockMore.

(** ** [getblocktemplate], beyond the claims *)

Section GetBlockTemplateMore.
Context {S W : Type} `{!ValidationState S, !Primitives, !Node S W}.

(** X5: a request whose mode is neither absent nor a string, or is a string
    other than "template" and "proposal", is refused with
    [RPC_INVALID_PARAMETER] "Invalid mode": nothing is waited for, the cache
    and the node are untouched, whatever else the request holds. *)
Theorem getblocktemplate_invalid_mode (oparam : TemplateRequest) (st : Statics)
    (w : W) (script : list W) :
  modeval oparam = JOther \/
  (exists s : string, modeval oparam = JStr s /\ s <> "proposal" /\ s <> "template") ->
  getblocktemplate (Some oparam) st w script
  = ran (Answered (Throw RPC_INVALID_PARAMETER "Invalid mode")) (st, w) [].
Proof.
  unfold getblocktemplate, request_mode.
  intros [->|(s & -> & Hp & Ht)]; [reflexivity|].
  apply String.eqb_neq in Hp, Ht. rewrite Hp, Ht. reflexivity.
Qed.

(** X6: template mode answers only on a node that has a connection manager,
    at least one peer and is out of initial sync. Otherwise the request is
    refused, the first failing test in that order deciding the error, before
    any long-poll wait and without the cache being touched or the assembler
    called, whatever long-poll id the request carries. *)
Theorem template_mode_refusals (lp : JVal) (st : Statics) (w : W) (script : list W) :
  (check_node w = Return tt <->
   has_connman w = true /\ GetNodeCount w <> 0 /\ IsInitialBlockDownload w = false) /\
  (has_connman w = false ->
   template_mode lp st w script
   = ran (Answered (Throw RPC_CLIENT_P2P_DISABLED
                      "Error: Peer-to-peer functionality missing or disabled"))
         (st, w) []) /\
  (has_connman w = true -> GetNodeCount w = 0 ->
   template_mode lp st w script
   = ran (Answered (Throw RPC_CLIENT_NOT_CONNECTED
                      (String.append PACKAGE_NAME " is not connected!"))) (st, w) []) /\
  (has_connman w = true -> GetNodeCount w <> 0 -> IsInitialBlockDownload w = true ->
   template_mode lp st w script
   = ran (Answered (Throw RPC_CLIENT_IN_INITIAL_DOWNLOAD
                      (String.append PACKAGE_NAME
                         " is in initial sync and waiting for blocks...")))
         (st, w) []).
Proof.
  unfold template_mode, check_node. split; [|split; [|split]].
  - destruct (has_connman w); cbn [negb].
    + destruct (GetNodeCount w =? 0) eqn:E.
      * apply Z.eqb_eq in E. split; [discriminate|]. intros (_ & Hn & _). contradiction.
      * apply Z.eqb_neq in E. destruct (IsInitialBlockDownload w).
        -- split; [discriminate|]. intros (_ & _ & Hi). discriminate.
        -- tauto.
    + split; [discriminate|]. intros (Hc & _). discriminate.
  - intros ->. reflexivity.
  - intros -> Hn. apply Z.eqb_eq in Hn. rewrite Hn. reflexivity.
  - intros -> Hn ->. apply Z.eqb_neq in Hn. rewrite Hn. reflexivity.
Qed.

(** X7: a request in proposal mode is answered at once, on any node (the
    tests for peers and initial sync are not made), and never touches the
    template cache. It makes no call at all, or exactly one, to
    [TestBlockValidity], and that only for a block whose hash the index does
    not have and whose predecessor is the tip; the answer is then the
    classification of the state that call gave. *)
Theorem proposal_leaves_cache (oparam : TemplateRequest) (st : Statics) (w : W)
    (script : list W) :
  modeval oparam = JStr "proposal" ->
  fst (final (getblocktemplate (Some oparam) st w script)) = st /\
  (exists a : rpc UniValue,
     result (getblocktemplate (Some oparam) st w script) = Answered a) /\
  ((calls (getblocktemplate (Some oparam) st w script) = [] /\
    snd (final (getblocktemplate (Some oparam) st w script)) = w) \/
   (exists (data : string) (blk : CBlock) (tip : ptr),
      dataval oparam = JStr data /\ DecodeHexBlk data = Some blk /\
      LookupBlockIndex w (GetHash blk) = None /\
      ChainActive_Tip w = Some tip /\
      hashPrevBlock blk = phashBlock (deref w tip) /\
      calls (getblocktemplate (Some oparam) st w script) = [CallTestBlockValidity blk] /\
      result (getblocktemplate (Some oparam) st w script)
      = Answered (BIP22ValidationResult (fst (TestBlockValidity blk tip w))))).
Proof.
  intros Hmode. unfold getblocktemplate, request_mode. rewrite Hmode.
  change (String.eqb "proposal" "proposal") with true. cbv iota.
  cbn [final result calls ran fst snd].
  split; [reflexivity|]. split; [eexists; reflexivity|].
  unfold proposal.
  destruct (dataval oparam) as [|data|] eqn:Hdata;
    [left; split; reflexivity| |left; split; reflexivity].
  destruct (DecodeHexBlk data) as [blk|] eqn:Hdec; [|left; split; reflexivity].
  destruct (LookupBlockIndex w (GetHash blk)) as [pindex|] eqn:Hl.
  { destruct (CBlockIndex_IsValid _ _); [left; split; reflexivity|].
    destruct (negb _); left; split; reflexivity. }
  destruct (ChainActive_Tip w) as [tip|] eqn:Htip; [|left; split; reflexivity].
  destruct (hashPrevBlock blk =? phashBlock (deref w tip))%N eqn:E;
    cbn [negb]; [|left; split; reflexivity].
  apply N.eqb_eq in E. right. exists data, blk, tip.
  destruct (TestBlockValidity blk tip w) as [state w'].
  repeat split; try reflexivity; assumption.
Qed.

(** X8: once the cache has been rebuilt, a later call on a node with the
    same tip does not rebuild while the mempool counter is the one of the
    build or no more than 5 seconds have passed since the build: the statics
    and the node are left as they are and the assembler is not called. *)
Theorem template_cache_reuse (st : Statics) (w w' w2 : W) (t : CBlockTemplate) :
  ChainActive_Tip w <> None ->
  rebuild_due st w ->
  CreateNewBlock [OP_TRUE] w = (Some t, w') ->
  ChainActive_Tip w2 = ChainActive_Tip w ->
  GetTransactionsUpdated w2 = GetTransactionsUpdated w \/ GetTime w2 - GetTime w <= 5 ->
  update_block (fst (final (update_block st w))) w2
  = ran (Return tt) (fst (final (update_block st w)), w2) [].
Proof.
  intros Htip Hd Hc Htip2 Hsame.
  rewrite (update_block_due st w Htip Hd), Hc. cbn [fst snd final ran].
  apply update_block_not_due; [congruence|].
  unfold rebuild_due. cbn [pindexPrev nTransactionsUpdatedLast nStart].
  intros [Hn|[Hne|[Hm Ht]]]; [congruence | congruence | lia].
Qed.

(** Why the wait loop is left, and that its deadline only moves on. *)
Lemma wait_loop_exit (h : uint256) (n : Z) (script : list W) :
  forall (d : Z) (w : W) (cs : list (Z * Z)),
  d <= wt_checktxtime (wait_loop h n d w script cs) /\
  (wt_status (wait_loop h n d w script cs) = Woken ->
   g_best_block (wt_node (wait_loop h n d w script cs)) <> h
   \/ IsRPCRunning (wt_node (wait_loop h n d w script cs)) = false
   \/ (GetTransactionsUpdated (wt_node (wait_loop h n d w script cs)) <> n
       /\ wt_checktxtime (wait_loop h n d w script cs)
          <= steady_clock_now (wt_node (wait_loop h n d w script cs)))).
Proof.
  assert (Hleft : forall w : W, (g_best_block w =? h)%N && IsRPCRunning w = false ->
            g_best_block w <> h \/ IsRPCRunning w = false).
  { intros w Hg. apply andb_false_iff in Hg as [Hg|Hg];
      [left; apply N.eqb_neq; exact Hg | right; exact Hg]. }
  induction script as [|w' script IH]; intros d w cs; cbn [wait_loop];
    destruct ((g_best_block w =? h)%N && IsRPCRunning w) eqn:Hg;
    cbn [wt_status wt_node wt_checktxtime].
  - split; [lia | discriminate].
  - split; [lia|]. intros _. destruct (Hleft w Hg); tauto.
  - destruct (d <=? steady_clock_now w') eqn:Hd.
    + apply Z.leb_le in Hd.
      destruct (GetTransactionsUpdated w' =? n) eqn:Hn; cbn [negb].
      * destruct (IH (d + 10) w' (cs ++ [(d, steady_clock_now w')])) as (Hm & Hx).
        split; [lia | exact Hx].
      * apply Z.eqb_neq in Hn. cbn [wt_status wt_node wt_checktxtime].
        split; [lia|]. intros _. right; right. split; assumption.
    + apply IH.
  - split; [lia|]. intros _. destruct (Hleft w Hg); tauto.
Qed.

(** X9: a long-poll wait that has ended did so because the best block is no
    longer the watched one, or the server is no longer running, or the
    mempool counter differs from the watched one at a wake-up at least one
    minute after the wait began. So while the tip stays and the server runs,
    a change of the mempool alone never ends the wait within the first
    minute. *)
Theorem longpoll_wait_exit (token : uint256 * Z) (w : W) (script : list W) :
  wt_status (longpoll_wait token w script) = Woken ->
  g_best_block (wt_node (longpoll_wait token w script)) <> fst token
  \/ IsRPCRunning (wt_node (longpoll_wait token w script)) = false
  \/ (GetTransactionsUpdated (wt_node (longpoll_wait token w script)) <> snd token
      /\ steady_clock_now w + 60
         <= steady_clock_now (wt_node (longpoll_wait token w script))).
Proof.
  unfold longpoll_wait. intros Hs.
  destruct (wait_loop_exit (fst token) (snd token) script
              (steady_clock_now w + 60) w []) as (Hm & Hx).
  destruct (Hx Hs) as [Hb|[Hr|[Hn Ht]]]; [tauto | tauto |].
  right; right. split; [exact Hn | lia].
Qed.

End GetBlockTemplateMore.

(** ** The "transactions" array, for any block *)

Section TransactionsProps.
Context {S W : Type} `{!ValidationState S, !Primitives, !Node S W}.

Lemma tx_loop_listing (tpl : CBlockTemplate) (l : list CTransaction) :
  map (fun e => (e_txid e, e_hash e)) (snd (tx_loop tpl l))
  = map (fun tx => (tx_hash tx, tx_witness_hash tx))
        (List.filter (fun tx => negb (IsCoinBase tx)) l).
Proof.
  induction l as [|tx l IH] using rev_ind; [reflexivity|].
  rewrite tx_loop_snoc, List.filter_app. cbn [List.filter].
  destruct (tx_loop tpl l) as [[m i] out]. cbn [snd] in IH.
  unfold add_transaction. destruct (IsCoinBase tx); cbn [negb snd].
  - rewrite app_nil_r. exact IH.
  - rewrite !map_app, IH. reflexivity.
Qed.

(** X10: the "transactions" array of a template lists the transactions of
    the block that are not coinbase, all of them, once each and in the order
    of the block, each under its hash and witness hash; this holds for every
    block, wherever its coinbase transactions are. *)
Theorem template_transactions_listing (tpl : CBlockTemplate) :
  map (fun e => (e_txid e, e_hash e)) (template_transactions tpl)
  = map (fun tx => (tx_hash tx, tx_witness_hash tx))
        (List.filter (fun tx => negb (IsCoinBase tx)) (vtx (block tpl))) /\
  length (template_transactions tpl)
  = length (List.filter (fun tx => negb (IsCoinBase tx)) (vtx (block tpl))).
Proof.
  split; [apply tx_loop_listing|].
  rewrite <- (length_map (fun e => (e_txid e, e_hash e))).
  unfold template_transactions. rewrite tx_loop_listing. apply length_map.
Qed.

Lemma tx_loop_entry (tpl : CBlockTemplate) (l : list CTransaction) :
  (length (snd (tx_loop tpl l)) <= length l)%nat /\
  (forall (p : nat) (e : TxEntry),
   snd (tx_loop tpl l) !! p = Some e ->
   exists (k : nat) (tx : CTransaction),
     l !! k = Some tx /\ IsCoinBase tx = false /\ (p <= k)%nat /\
     e_txid e = tx_hash tx /\ e_hash e = tx_witness_hash tx /\
     e_fee e = nth k (vTxFees tpl) 0 /\
     e_sigops e = nth k (vTxSigOpsCost tpl) 0 /\
     forall d : Z, d ∈ e_depends e ->
       0 <= d <= Z.of_nat k /\
       exists tx' : CTransaction, l !! Z.to_nat d = Some tx' /\ spends tx tx').
Proof.
  induction l as [|tx l IH] using rev_ind.
  - cbn. split; [lia|]. intros p e Hp. discriminate.
  - destruct IH as (Hlen & Hent).
    pose proof (tx_loop_index tpl l) as (Hi & Hok & _).
    assert (Htx : (l ++ [tx]) !! length l = Some tx)
      by (apply list_lookup_middle; reflexivity).
    rewrite tx_loop_snoc.
    destruct (tx_loop tpl l) as [[m i] out]. cbn [fst snd] in *. subst i.
    assert (Hold : forall (p : nat) (e : TxEntry), out !! p = Some e ->
      exists (k : nat) (tx0 : CTransaction),
        (l ++ [tx]) !! k = Some tx0 /\ IsCoinBase tx0 = false /\ (p <= k)%nat /\
        e_txid e = tx_hash tx0 /\ e_hash e = tx_witness_hash tx0 /\
        e_fee e = nth k (vTxFees tpl) 0 /\
        e_sigops e = nth k (vTxSigOpsCost tpl) 0 /\
        forall d : Z, d ∈ e_depends e ->
          0 <= d <= Z.of_nat k /\
          exists tx' : CTransaction,
            (l ++ [tx]) !! Z.to_nat d = Some tx' /\ spends tx0 tx').
    { intros p e Hp.
      destruct (Hent p e Hp) as (k & tx0 & Hl & Hcb & Hpk & Hid & Hw & Hf & Hs & Hd).
      exists k, tx0. split; [apply lookup_app_l_Some; exact Hl|].
      repeat (split; [assumption|]).
      intros d Hin. destruct (Hd d Hin) as (Hr & tx' & Hl' & Hsp).
      split; [exact Hr|]. exists tx'. split; [apply lookup_app_l_Some; exact Hl' | exact Hsp]. }
    rewrite length_app. cbn [length].
    unfold add_transaction. destruct (IsCoinBase tx) eqn:Ecb; cbn [fst snd].
    + split; [lia | exact Hold].
    + rewrite length_app. cbn [length]. split; [lia|].
      intros p e Hp. apply lookup_app_Some in Hp as [Hp|[Hge Hp]]; [apply (Hold p e Hp)|].
      destruct (p - length out)%nat eqn:Ep; [|destruct n; discriminate].
      injection Hp as <-. cbn [e_txid e_hash e_fee e_sigops e_depends].
      exists (length l), tx.
      replace (Z.to_nat (Z.of_nat (length l) + 1 - 1)) with (length l) by lia.
      split; [exact Htx|]. split; [exact Ecb|]. split; [lia|].
      repeat (split; [reflexivity|]).
      intros d Hd. apply list_elem_of_omap in Hd as (txin & Hin & Hm).
      destruct (decide (tx_hash tx = op_hash (prevout txin))) as [He|Hne].
      * rewrite He, lookup_insert_eq in Hm. injection Hm as <-.
        split; [lia|]. exists tx. rewrite Nat2Z.id. split; [exact Htx|].
        exists txin. split; [exact Hin | symmetry; exact He].
      * rewrite lookup_insert_ne in Hm by exact Hne.
        destruct (Hok _ _ Hm) as (Hr & tx' & Hl' & Hh).
        split; [lia|]. exists tx'. split; [apply lookup_app_l_Some; exact Hl'|].
        exists txin. split; [exact Hin | symmetry; exact Hh].
Qed.

(** X11: every entry of the "transactions" array of a template, for any
    block at all, is the entry of a non-coinbase transaction at some index k
    of the block, not less than the entry's own index in the array; its fee
    and sigops are read at index k of the template's fee and sigops vectors;
    and each of its "depends" values is an index of the block between 0 and
    k, of a transaction that one of its inputs spends from. *)
Theorem template_entry_of_block (tpl : CBlockTemplate) (p : nat) (e : TxEntry) :
  template_transactions tpl !! p = Some e ->
  exists (k : nat) (tx : CTransaction),
    vtx (block tpl) !! k = Some tx /\ IsCoinBase tx = false /\ (p <= k)%nat /\
    e_txid e = tx_hash tx /\ e_hash e = tx_witness_hash tx /\
    e_fee e = nth k (vTxFees tpl) 0 /\
    e_sigops e = nth k (vTxSigOpsCost tpl) 0 /\
    forall d : Z, d ∈ e_depends e ->
      0 <= d <= Z.of_nat k /\
      exists tx' : CTransaction,
        vtx (block tpl) !! Z.to_nat d = Some tx' /\ spends tx tx'.
Proof.
  intros Hp. apply (proj2 (tx_loop_entry tpl (vtx (block tpl))) p e Hp).
Qed.

End TransactionsProps.

(** ** [generateBlocks], beyond the claim *)

Section GenerateBlocksMore.
Context {S W : Type} `{!ValidationState S, !Primitives, !Node S W}.

Lemma set_nNonce_same (b : CBlock) : set_nNonce b (nNonce b) = b.
Proof. destruct b. reflexivity. Qed.

Lemma search_nonce_trace (tries : nat) :
  forall (b : CBlock) (n : Z) (w : W),
  0 <= n -> nNonce b <= UINT32_MAX ->
  fst (fst (search_nonce tries b n w))
  = set_nNonce b (nNonce (fst (fst (search_nonce tries b n w)))) /\
  0 <= snd (fst (search_nonce tries b n w)) <= n /\
  nNonce b <= nNonce (fst (fst (search_nonce tries b n w))) <= UINT32_MAX /\
  n - snd (fst (search_nonce tries b n w))
  = nNonce (fst (fst (search_nonce tries b n w))) - nNonce b /\
  (forall k : Z, nNonce b <= k < nNonce (fst (fst (search_nonce tries b n w))) ->
   CheckProofOfWork (GetHash (set_nNonce b k)) (nBits b) = false).
Proof.
  induction tries as [|tries IH]; intros b n w Hn Hb; cbn [search_nonce].
  - cbn [fst snd]. rewrite set_nNonce_same. repeat split; lia.
  - destruct ((0 <? n) && (nNonce b <? UINT32_MAX)
              && negb (CheckProofOfWork (GetHash b) (nBits b))) eqn:Hg.
    + apply andb_true_iff in Hg as (Hg & Hpow).
      apply andb_true_iff in Hg as (Hpos & Hlt).
      apply Z.ltb_lt in Hpos, Hlt. apply negb_true_iff in Hpow.
      destruct (ShutdownRequested w) as [[|] w'].
      * cbn [fst snd]. rewrite set_nNonce_same. repeat split; lia.
      * destruct (IH (set_nNonce b (nNonce b + 1)) (n - 1) w') as (Hf & Hl & Hr & Ha & Hs);
          [lia | cbn; lia |].
        cbn [nNonce set_nNonce nBits] in *.
        split; [exact Hf|]. split; [lia|]. split; [lia|]. split; [lia|].
        intros k Hk. destruct (Z.eq_dec k (nNonce b)) as [->|Hne].
        -- rewrite set_nNonce_same. exact Hpow.
        -- apply (Hs k). lia.
    + cbn [fst snd]. rewrite set_nNonce_same. repeat split; lia.
Qed.

(** X12: the nonce search changes nothing of the candidate but its nonce;
    the tries it takes are the nonces it moves on by; it never takes more
    tries than the budget nor passes the largest 32-bit nonce; and every
    nonce it passed over, from the first on, failed the proof of work. *)
Theorem search_nonce_accounting (pblock : CBlock) (nMaxTries : Z) (w : W) :
  0 <= nMaxTries ->
  nNonce pblock <= UINT32_MAX ->
  let found := fst (fst (search_nonce (Z.to_nat nMaxTries) pblock nMaxTries w)) in
  let left := snd (fst (search_nonce (Z.to_nat nMaxTries) pblock nMaxTries w)) in
  found = set_nNonce pblock (nNonce found) /\
  0 <= left <= nMaxTries /\
  nNonce pblock <= nNonce found <= UINT32_MAX /\
  nMaxTries - left = nNonce found - nNonce pblock /\
  (forall k : Z, nNonce pblock <= k < nNonce found ->
   CheckProofOfWork (GetHash (set_nNonce pblock k)) (nBits pblock) = false).
Proof.
  intros Hn Hb. apply search_nonce_trace; assumption.
Qed.

(** Why the nonce search stops. *)
Lemma search_nonce_exit (tries : nat) :
  forall (b : CBlock) (n : Z) (w : W),
  0 <= n <= Z.of_nat tries ->
  snd (fst (search_nonce tries b n w)) = 0
  \/ UINT32_MAX <= nNonce (fst (fst (search_nonce tries b n w)))
  \/ CheckProofOfWork (GetHash (fst (fst (search_nonce tries b n w))))
       (nBits (fst (fst (search_nonce tries b n w)))) = true
  \/ (exists w0 : W, ShutdownRequested w0 = (true, snd (search_nonce tries b n w))).
Proof.
  induction tries as [|tries IH]; intros b n w Hn; cbn [search_nonce].
  - left. cbn. lia.
  - destruct (0 <? n) eqn:Hpos; cbn [andb].
    + destruct (nNonce b <? UINT32_MAX) eqn:Hlt; cbn [andb].
      * destruct (CheckProofOfWork (GetHash b) (nBits b)) eqn:Hpow; cbn [negb].
        -- right; right; left. exact Hpow.
        -- destruct (ShutdownRequested w) as [[|] w'] eqn:Hp.
           ++ right; right; right. exists w. exact Hp.
           ++ apply IH. apply Z.ltb_lt in Hpos. lia.
      * right; left. apply Z.ltb_ge in Hlt. exact Hlt.
    + left. apply Z.ltb_ge in Hpos. cbn. lia.
Qed.

(** X13: with an end height that is an [int], when no block is asked for
    nothing is done: no poll of the shutdown flag, no candidate, an empty
    list. When two [int]s are added past [INT_MAX] the end height wraps
    around below the height and nothing is done either. When blocks are
    asked for and shutdown is already requested, no candidate is assembled.
    With a budget of zero tries one candidate is assembled and nothing is
    handed to the engine, though the candidate may satisfy the proof of work
    as it stands. *)
Theorem generateBlocks_nothing_mined (rounds : nat) (coinbase_script : CScript)
    (nGenerate nMaxTries : Z) (w : W) :
  (nGenerate <= 0 -> INT_MIN <= ChainActive_Height w + nGenerate ->
   generateBlocks (Datatypes.S rounds) coinbase_script nGenerate nMaxTries w
   = ran (Some (Return [])) w []) /\
  (ChainActive_Height w <= INT_MAX -> nGenerate <= INT_MAX ->
   INT_MAX < ChainActive_Height w + nGenerate ->
   generateBlocks (Datatypes.S rounds) coinbase_script nGenerate nMaxTries w
   = ran (Some (Return [])) w []) /\
  (0 < nGenerate -> INT_MIN <= ChainActive_Height w + nGenerate <= INT_MAX ->
   fst (ShutdownRequested w) = true ->
   generateBlocks (Datatypes.S rounds) coinbase_script nGenerate nMaxTries w
   = ran (Some (Return [])) (snd (ShutdownRequested w)) []) /\
  (0 < nGenerate -> INT_MIN <= ChainActive_Height w + nGenerate <= INT_MAX ->
   fst (ShutdownRequested w) = false -> nMaxTries = 0 ->
   forall (tpl : CBlockTemplate) (w2 : W),
   CreateNewBlock coinbase_script (snd (ShutdownRequested w)) = (Some tpl, w2) ->
   result (generateBlocks (Datatypes.S rounds) coinbase_script nGenerate nMaxTries w)
   = Some (Return []) /\
   calls (generateBlocks (Datatypes.S rounds) coinbase_script nGenerate nMaxTries w)
   = [CallCreateNewBlock coinbase_script]).
Proof.
  unfold generateBlocks. cbn [generate_loop]. split; [|split; [|split]].
  - intros Hn Hlo. pose proof (to_int_le _ Hlo).
    replace (_ <? _) with false by (symmetry; apply Z.ltb_ge; lia).
    reflexivity.
  - intros Hh Hn Hover.
    assert (Hwrap : to_int (ChainActive_Height w + nGenerate)
                    = ChainActive_Height w + nGenerate - 4294967296).
    { unfold to_int, INT_MAX in *.
      change (2 ^ 31) with 2147483648. change (2 ^ 32) with 4294967296.
      assert (Hm : (ChainActive_Height w + nGenerate + 2147483648) mod 4294967296
                   = ChainActive_Height w + nGenerate + 2147483648 - 4294967296)
        by (symmetry; apply (Z.mod_unique _ _ 1); lia).
      rewrite Hm. lia. }
    unfold INT_MAX in *.
    replace (_ <? _) with false by (symmetry; apply Z.ltb_ge; lia).
    reflexivity.
  - intros Hn Hint Hsd. rewrite (to_int_small _ Hint).
    replace (_ <? _) with true by (symmetry; apply Z.ltb_lt; lia).
    destruct (ShutdownRequested w) as [sd w1]. cbn in Hsd. subst sd. reflexivity.
  - intros Hn Hint Hsd -> tpl w2 Hc. rewrite (to_int_small _ Hint).
    replace (_ <? _) with true by (symmetry; apply Z.ltb_lt; lia).
    destruct (ShutdownRequested w) as [sd w1]. cbn in Hsd, Hc. subst sd.
    rewrite Hc.
    destruct (IncrementExtraNonce (block tpl) (ChainActive_Tip w2) 0 w2) as [[b en] w3].
    change (Z.to_nat 0) with 0%nat. cbn [search_nonce]. cbn. split; reflexivity.
Qed.

(** X14: in any turn of the loop, if the assembler gives no template the
    call throws [RPC_INTERNAL_ERROR] "Couldn't create new block", and if the
    block the search ends on is not accepted by [ProcessNewBlock] it throws
    [RPC_INTERNAL_ERROR] "ProcessNewBlock, block not accepted"; either way
    the hashes of the blocks mined in earlier turns are not returned. *)
Theorem generate_loop_failures (rounds : nat) (coinbase_script : CScript)
    (nHeightEnd nHeight nMaxTries nExtraNonce : Z) (blockHashes : list uint256)
    (w w1 : W) (cs : list Call) :
  nHeight < nHeightEnd ->
  ShutdownRequested w = (false, w1) ->
  let run := generate_loop (Datatypes.S rounds) coinbase_script nHeightEnd nHeight
               nMaxTries nExtraNonce blockHashes w cs in
  (fst (CreateNewBlock coinbase_script w1) = None ->
   result run = Some (Throw RPC_INTERNAL_ERROR "Couldn't create new block")) /\
  (forall (tpl : CBlockTemplate) (w2 w3 w4 w5 : W) (cand found : CBlock)
          (nExtraNonce' left : Z),
   CreateNewBlock coinbase_script w1 = (Some tpl, w2) ->
   IncrementExtraNonce (block tpl) (ChainActive_Tip w2) nExtraNonce w2
     = (cand, nExtraNonce', w3) ->
   search_nonce (Z.to_nat nMaxTries) cand nMaxTries w3 = (found, left, w4) ->
   left <> 0 ->
   ShutdownRequested w4 = (false, w5) ->
   nNonce found <> UINT32_MAX ->
   accepted (ProcessNewBlock found true w5) = false ->
   result run = Some (Throw RPC_INTERNAL_ERROR "ProcessNewBlock, block not accepted") /\
   calls run = cs ++ [CallCreateNewBlock coinbase_script] ++ [CallProcessNewBlock found true]).
Proof.
  intros Hh Hpoll run. subst run. cbn [generate_loop].
  apply Z.ltb_lt in Hh. rewrite Hh, Hpoll. split.
  - destruct (CreateNewBlock coinbase_script w1) as [[tpl|] w2]; [discriminate|].
    reflexivity.
  - intros tpl w2 w3 w4 w5 cand found en left Hc Hi Hs Hl Hp Hn Ha.
    rewrite Hc, Hi, Hs. apply Z.eqb_neq in Hl, Hn. rewrite Hl, Hp, Hn, Ha.
    cbn. rewrite <- app_assoc. split; reflexivity.
Qed.

Lemma generate_loop_hashes (rounds : nat) (coinbase_script : CScript) (nHeightEnd : Z) :
  forall (nHeight nMaxTries nExtraNonce : Z) (blockHashes : list uint256) (w : W)
         (cs : list Call) (hs : list uint256),
  result (generate_loop rounds coinbase_script nHeightEnd nHeight nMaxTries
            nExtraNonce blockHashes w cs) = Some (Return hs) ->
  exists (new : list uint256) (cs' : list Call),
    hs = blockHashes ++ new /\
    Z.of_nat (length new) <= Z.max 0 (nHeightEnd - nHeight) /\
    calls (generate_loop rounds coinbase_script nHeightEnd nHeight nMaxTries
             nExtraNonce blockHashes w cs) = cs ++ cs' /\
    omap processed_hash cs' = new.
Proof.
  assert (Hdone : forall (bh : list uint256) (c : list Call) (hs : list uint256) (k : Z),
            Some (Return bh) = Some (Return hs) ->
            exists (new : list uint256) (cs' : list Call),
              hs = bh ++ new /\ Z.of_nat (length new) <= Z.max 0 k /\
              c = c ++ cs' /\ omap processed_hash cs' = new).
  { intros bh c hs k Hr. injection Hr as <-. exists [], [].
    rewrite !app_nil_r. cbn. repeat split; lia. }
  assert (Hone : forall (bh : list uint256) (c : list Call) (hs : list uint256) (k : Z),
            Some (Return bh) = Some (Return hs) ->
            exists (new : list uint256) (cs' : list Call),
              hs = bh ++ new /\ Z.of_nat (length new) <= Z.max 0 k /\
              c ++ [CallCreateNewBlock coinbase_script] = c ++ cs' /\
              omap processed_hash cs' = new).
  { intros bh c hs k Hr. injection Hr as <-. exists [], [CallCreateNewBlock coinbase_script].
    rewrite !app_nil_r. cbn. repeat split; lia. }
  induction rounds as [|rounds IH]; intros nHeight nMaxTries nExtraNonce blockHashes w cs hs;
    cbn [generate_loop]; [discriminate|].
  destruct (nHeight <? nHeightEnd) eqn:Hh; [|apply Hdone].
  apply Z.ltb_lt in Hh.
  destruct (ShutdownRequested w) as [[|] w1]; [apply Hdone|].
  destruct (CreateNewBlock coinbase_script w1) as [[tpl|] w2]; [|discriminate].
  destruct (IncrementExtraNonce (block tpl) (ChainActive_Tip w2) nExtraNonce w2)
    as [[cand en] w3].
  destruct (search_nonce (Z.to_nat nMaxTries) cand nMaxTries w3) as [[found left] w4].
  destruct (left =? 0); [apply Hone|].
  destruct (ShutdownRequested w4) as [[|] w5]; [apply Hone|].
  destruct (nNonce found =? UINT32_MAX).
  - intros Hr. destruct (IH _ _ _ _ _ _ _ Hr) as (new & cs' & Hhs & Hlen & Hcs & Hp).
    exists new, (CallCreateNewBlock coinbase_script :: cs').
    split; [exact Hhs|]. split; [exact Hlen|].
    split; [rewrite Hcs, <- app_assoc; reflexivity | exact Hp].
  - destruct (accepted (ProcessNewBlock found true w5)); cbn [negb]; [|discriminate].
    intros Hr. destruct (IH _ _ _ _ _ _ _ Hr) as (new & cs' & Hhs & Hlen & Hcs & Hp).
    exists (GetHash found :: new),
      (CallCreateNewBlock coinbase_script :: CallProcessNewBlock found true :: cs').
    split; [rewrite Hhs, <- app_assoc; reflexivity|].
    split; [cbn [length]; lia|].
    split; [rewrite Hcs, <- !app_assoc; reflexivity|].
    cbn [omap list_omap processed_hash]. rewrite <- Hp. reflexivity.
Qed.

(** X15: the list [generateBlocks] returns is, in order, the hashes of the
    blocks it handed to [ProcessNewBlock], one per block, and never longer
    than the way from the height to the end height; this is at most the
    number of blocks asked for, unless the height and a negative number of
    blocks add up to less than [INT_MIN], where the end height wraps around
    to a positive one. *)
Theorem generateBlocks_hashes_of_processed (rounds : nat) (coinbase_script : CScript)
    (nGenerate nMaxTries : Z) (w : W) (hs : list uint256) :
  result (generateBlocks rounds coinbase_script nGenerate nMaxTries w) = Some (Return hs) ->
  hs = omap processed_hash (calls (generateBlocks rounds coinbase_script nGenerate nMaxTries w))
  /\ Z.of_nat (length hs)
     <= Z.max 0 (to_int (ChainActive_Height w + nGenerate) - ChainActive_Height w)
  /\ (INT_MIN <= ChainActive_Height w + nGenerate ->
      Z.of_nat (length hs) <= Z.max 0 nGenerate).
Proof.
  unfold generateBlocks. intros Hr.
  destruct (generate_loop_hashes _ _ _ _ _ _ _ _ _ _ Hr) as (new & cs' & Hhs & Hlen & Hcs & Hp).
  cbn [app] in Hhs, Hcs. subst hs. rewrite Hcs.
  split; [symmetry; exact Hp|]. split; [exact Hlen|].
  intros Hlo. pose proof (to_int_le _ Hlo). lia.
Qed.

End GenerateBlocksMore.

Section GenerateBlocksProofOfWork.
Context {S W : Type} `{!ValidationState S, !Primitives, !Node S W}.

Lemma generate_loop_submits_pow (rounds : nat) (coinbase_script : CScript)
    (nHeightEnd : Z) :
  (forall w0 w1 : W, ShutdownRequested w0 = (true, w1) ->
   fst (ShutdownRequested w1) = true) ->
  (forall (w0 w1 : W) (tpl : CBlockTemplate) (tip : option ptr) (n : Z),
   CreateNewBlock coinbase_script w0 = (Some tpl, w1) ->
   nNonce (fst (fst (IncrementExtraNonce (block tpl) tip n w1))) <= UINT32_MAX) ->
  forall (nHeight nMaxTries nExtraNonce : Z) (blockHashes : list uint256) (w : W)
         (cs : list Call) (blk : CBlock) (f : bool),
  0 <= nMaxTries ->
  In (CallProcessNewBlock blk f)
     (calls (generate_loop rounds coinbase_script nHeightEnd nHeight nMaxTries
               nExtraNonce blockHashes w cs)) ->
  In (CallProcessNewBlock blk f) cs
  \/ (f = true /\ CheckProofOfWork (GetHash blk) (nBits blk) = true).
Proof.
  intros Hsticky Hrange.
  assert (Hcreate : forall (c : list Call) (blk : CBlock) (f : bool),
            In (CallProcessNewBlock blk f) (c ++ [CallCreateNewBlock coinbase_script]) ->
            In (CallProcessNewBlock blk f) c).
  { intros c blk f Hin. apply in_app_or in Hin as [Hin|[Hin|[]]];
      [exact Hin | discriminate]. }
  induction rounds as [|rounds IH];
    intros nHeight nMaxTries nExtraNonce blockHashes w cs blk f Hn;
    cbn [generate_loop]; [cbn; tauto|].
  destruct (nHeight <? nHeightEnd); [|cbn; tauto].
  destruct (ShutdownRequested w) as [[|] w1]; [cbn; tauto|].
  destruct (CreateNewBlock coinbase_script w1) as [[tpl|] w2] eqn:Hc;
    [|cbn; intros Hin; left; apply (Hcreate _ _ _ Hin)].
  pose proof (Hrange w1 w2 tpl (ChainActive_Tip w2) nExtraNonce Hc) as Hcand.
  destruct (IncrementExtraNonce (block tpl) (ChainActive_Tip w2) nExtraNonce w2)
    as [[cand en] w3]. cbn [fst] in Hcand.
  pose proof (search_nonce_trace (Z.to_nat nMaxTries) cand nMaxTries w3 Hn Hcand)
    as (_ & Hleft & Hnonce & _).
  pose proof (search_nonce_exit (Z.to_nat nMaxTries) cand nMaxTries w3
                ltac:(lia)) as Hexit.
  destruct (search_nonce (Z.to_nat nMaxTries) cand nMaxTries w3) as [[found left] w4].
  cbn [fst snd] in Hleft, Hnonce, Hexit.
  destruct (left =? 0) eqn:El; [cbn; intros Hin; left; apply (Hcreate _ _ _ Hin)|].
  destruct (ShutdownRequested w4) as [[|] w5] eqn:Hp;
    [cbn; intros Hin; left; apply (Hcreate _ _ _ Hin)|].
  destruct (nNonce found =? UINT32_MAX) eqn:En.
  - intros Hin. apply IH in Hin; [|lia]. destruct Hin as [Hin'|Hpow];
      [left; apply (Hcreate _ _ _ Hin') | right; exact Hpow].
  - assert (Hpow : CheckProofOfWork (GetHash found) (nBits found) = true).
    { apply Z.eqb_neq in El, En.
      destruct Hexit as [H0|[Hmax|[Hpow|(w0 & Hsd)]]]; [lia | lia | exact Hpow |].
      apply Hsticky in Hsd. rewrite Hp in Hsd. discriminate. }
    assert (Hnew : forall (c : list Call),
              In (CallProcessNewBlock blk f)
                 ((cs ++ [CallCreateNewBlock coinbase_script])
                  ++ [CallProcessNewBlock found true]) ->
              In (CallProcessNewBlock blk f) cs
              \/ (f = true /\ CheckProofOfWork (GetHash blk) (nBits blk) = true)).
    { intros _ Hin. apply in_app_or in Hin as [Hin|[Hin|[]]].
      - left. apply (Hcreate _ _ _ Hin).
      - injection Hin as <- <-. right. split; [reflexivity | exact Hpow]. }
    destruct (accepted (ProcessNewBlock found true w5)); cbn [negb].
    + intros Hin. apply IH in Hin; [|lia]. destruct Hin as [Hin'|Hp'];
        [apply (Hnew [] Hin') | right; exact Hp'].
    + cbn [calls ran]. apply (Hnew []).
Qed.

(** X16: on a node whose shutdown flag, once it reads true, reads true at
    the next poll, and whose candidates come with a nonce within 32 bits,
    every block [generateBlocks] hands to [ProcessNewBlock] satisfies the
    proof of work, and is handed over with forced processing. *)
Theorem generateBlocks_submits_proof_of_work (rounds : nat) (coinbase_script : CScript)
    (nGenerate nMaxTries : Z) (w : W) (blk : CBlock) (f : bool) :
  0 <= nMaxTries ->
  (forall w0 w1 : W, ShutdownRequested w0 = (true, w1) ->
   fst (ShutdownRequested w1) = true) ->
  (forall (w0 w1 : W) (tpl : CBlockTemplate) (tip : option ptr) (n : Z),
   CreateNewBlock coinbase_script w0 = (Some tpl, w1) ->
   nNonce (fst (fst (IncrementExtraNonce (block tpl) tip n w1))) <= UINT32_MAX) ->
  In (CallProcessNewBlock blk f)
     (calls (generateBlocks rounds coinbase_script nGenerate nMaxTries w)) ->
  f = true /\ CheckProofOfWork (GetHash blk) (nBits blk) = true.
Proof.
  intros Hn Hsticky Hrange Hin. unfold generateBlocks in Hin.
  destruct (generate_loop_submits_pow _ _ _ Hsticky Hrange _ _ _ _ _ _ _ _ Hn Hin)
    as [[]|Hpow].
  exact Hpow.
Qed.

End GenerateBlocksProofOfWork.

(** ** [submitheader] *)

Section SubmitHeaderProps.
Context {S W : Type}
  `{!ValidationState S, !Primitives, !Node S W, !HeaderPrimitives, !HeaderEngine S W}.

(** X17: [submitheader] returns null or throws, never a string: null exactly
    when the data decodes to a header whose predecessor is in the block
    index and the engine leaves a valid state; what it throws is
    [RPC_DESERIALIZATION_ERROR] or [RPC_VERIFY_ERROR]. The engine is given
    nothing, and the node is untouched, or it is given the one decoded
    header, once, and that only when the predecessor is in the index. *)
Theorem submitheader_outcome (hexdata : string) (w : W) :
  (hr_result (submitheader hexdata w) = Return NullUniValue \/
   exists (c : RPCErrorCode) (m : string),
     hr_result (submitheader hexdata w) = Throw c m /\
     (c = RPC_DESERIALIZATION_ERROR \/ c = RPC_VERIFY_ERROR)) /\
  (hr_result (submitheader hexdata w) = Return NullUniValue <->
   exists (h : CBlockHeader) (pindex : ptr),
     DecodeHexBlockHeader hexdata = Some h /\
     LookupBlockIndex w (hdr_hashPrevBlock h) = Some pindex /\
     IsValid (fst (ProcessNewBlockHeaders [h] w)) = true) /\
  ((hr_headers (submitheader hexdata w) = [] /\ hr_final (submitheader hexdata w) = w) \/
   exists (h : CBlockHeader) (pindex : ptr),
     DecodeHexBlockHeader hexdata = Some h /\
     LookupBlockIndex w (hdr_hashPrevBlock h) = Some pindex /\
     hr_headers (submitheader hexdata w) = [[h]] /\
     hr_final (submitheader hexdata w) = snd (ProcessNewBlockHeaders [h] w)).
Proof.
  unfold submitheader.
  destruct (DecodeHexBlockHeader hexdata) as [h|] eqn:Hd.
  2:{ cbn. split; [right; eauto|]. split; [|left; split; reflexivity].
      split; [discriminate|]. intros (h & p & Hd' & _). discriminate. }
  destruct (LookupBlockIndex w (hdr_hashPrevBlock h)) as [pindex|] eqn:Hl.
  2:{ cbn. split; [right; eauto|]. split; [|left; split; reflexivity].
      split; [discriminate|]. intros (h' & p & Hd' & Hl' & _).
      injection Hd' as <-. rewrite Hl in Hl'. discriminate. }
  destruct (ProcessNewBlockHeaders [h] w) as [state w'] eqn:Hp.
  cbn [hr_result hr_final hr_headers].
  split; [|split].
  - destruct (IsValid state); [left; reflexivity|].
    destruct (IsError state); right; eauto.
  - split.
    + intros Hr. exists h, pindex. rewrite Hp. cbn [fst].
      destruct (IsValid state); [auto|]. destruct (IsError state); discriminate.
    + intros (h' & p & Hd' & _ & Hv). injection Hd' as <-. rewrite Hp in Hv.
      cbn [fst] in Hv. rewrite Hv. reflexivity.
  - right. exists h, pindex. rewrite Hp. auto.
Qed.

(** X18: a header that decodes but whose predecessor is not in the block
    index is refused with [RPC_VERIFY_ERROR], the message naming the missing
    predecessor, before the engine sees it. A header the engine does not
    find valid is refused with [RPC_VERIFY_ERROR] too: with the state's text
    for an error, and otherwise with the reject reason as it is, empty or
    not. *)
Theorem submitheader_refusals (hexdata : string) (w : W) (h : CBlockHeader) :
  DecodeHexBlockHeader hexdata = Some h ->
  (LookupBlockIndex w (hdr_hashPrevBlock h) = None ->
   submitheader hexdata w
   = {| hr_result :=
          Throw RPC_VERIFY_ERROR
            (String.append "Must submit previous header ("
               (String.append (GetHex (hdr_hashPrevBlock h)) ") first"));
        hr_final := w; hr_headers := [] |}) /\
  (LookupBlockIndex w (hdr_hashPrevBlock h) <> None ->
   IsValid (fst (ProcessNewBlockHeaders [h] w)) = false ->
   hr_result (submitheader hexdata w)
   = Throw RPC_VERIFY_ERROR
       (if IsError (fst (ProcessNewBlockHeaders [h] w))
        then ToString (fst (ProcessNewBlockHeaders [h] w))
        else GetRejectReason (fst (ProcessNewBlockHeaders [h] w)))).
Proof.
  intros Hd. unfold submitheader. rewrite Hd. split.
  - intros ->. reflexivity.
  - intros Hl Hv. destruct (LookupBlockIndex w (hdr_hashPrevBlock h)); [|contradiction].
    destruct (ProcessNewBlockHeaders [h] w) as [state w']. cbn [fst] in *.
    cbn [hr_result]. rewrite Hv. destruct (IsError state); reflexivity.
Qed.

End SubmitHeaderProps.

(** ** [generatetoaddress] and [generatetodescriptor] *)

Section GenerateProps.
Context {S W D Desc : Type}
  `{!ValidationState S, !Primitives, !Node S W, !Destinations D Desc}.

(** X19: [generatetoaddress] refuses an address that is not a valid
    destination with [RPC_INVALID_ADDRESS_OR_KEY] before anything is
    assembled. For a valid one it runs the mining loop on the script of the
    destination with a budget of 1000000 tries when maxtries is absent, of
    maxtries when it is given and not negative, and of 2^64 + maxtries, which
    is more than 2^63, when it is a negative [int]: a negative maxtries is
    not refused. *)
Theorem generatetoaddress_budget (rounds : nat) (nGenerate : Z) (address : string)
    (w : W) :
  (IsValidDestination (DecodeDestination address) = false ->
   forall maxtries : option Z,
   generatetoaddress rounds nGenerate address maxtries w
   = inl (ErrorMore RPC_INVALID_ADDRESS_OR_KEY "Error: Invalid address")) /\
  (IsValidDestination (DecodeDestination address) = true ->
   generatetoaddress rounds nGenerate address None w
   = inr (generateBlocks rounds (GetScriptForDestination (DecodeDestination address))
            nGenerate 1000000 w) /\
   (forall m : Z, 0 <= m < 2 ^ 31 ->
    generatetoaddress rounds nGenerate address (Some m) w
    = inr (generateBlocks rounds (GetScriptForDestination (DecodeDestination address))
             nGenerate m w)) /\
   (forall m : Z, - 2 ^ 31 <= m < 0 ->
    2 ^ 63 < 2 ^ 64 + m /\
    generatetoaddress rounds nGenerate address (Some m) w
    = inr (generateBlocks rounds (GetScriptForDestination (DecodeDestination address))
             nGenerate (2 ^ 64 + m) w))).
Proof.
  unfold generatetoaddress, to_uint64. split.
  - intros -> maxtries. reflexivity.
  - intros ->. cbn [negb]. split; [reflexivity|]. split.
    + intros m Hm. rewrite Z.mod_small by lia. reflexivity.
    + intros m Hm. split; [lia|].
      replace (m mod 2 ^ 64) with (2 ^ 64 + m); [reflexivity|].
      apply (Z.mod_unique _ _ (-1)); lia.
Qed.

(** X20: for a descriptor that parses, is not ranged and expands to the one
    script of a valid address, [generatetodescriptor] does what
    [generatetoaddress] does for that address, for the same number of blocks
    and the same maxtries, given or not; a ranged descriptor, and one that
    does not parse, is refused before anything is assembled. *)
Theorem generatetodescriptor_as_address (rounds : nat) (n : Z) (descriptor address : string)
    (maxtries : option Z) (w : W) (desc : Desc) :
  Parse descriptor = inl desc ->
  (IsRange desc = true ->
   generatetodescriptor rounds n descriptor maxtries w
   = inl (Error RPC_INVALID_PARAMETER
            "Ranged descriptor not accepted. Maybe pass through deriveaddresses first?")) /\
  (IsRange desc = false ->
   IsValidDestination (DecodeDestination address) = true ->
   Expand desc = Some [GetScriptForDestination (DecodeDestination address)] ->
   generatetodescriptor rounds n descriptor maxtries w
   = generatetoaddress rounds n address maxtries w).
Proof.
  intros Hp. unfold generatetodescriptor, generatetoaddress. rewrite Hp. split.
  - intros ->. reflexivity.
  - intros -> -> ->. cbn [negb]. destruct maxtries; reflexivity.
Qed.

End GenerateProps.

(** ** The miner and staking commands *)

Section MinerProps.
Context {S W : Type} `{!Node S W, !MinerNode W}.

(** X21: on any node one of the two families of commands is shut: on a
    Vericoin chain [minerstatus], [minerstart] and [minerstop] all throw
    [RPC_INVALID_REQUEST] "Action impossible on Vericoin", on any other
    chain [stakingstatus], [stakingstart] and [stakingstop] all throw
    [RPC_INVALID_REQUEST] "Action impossible on Verium"; in both cases
    before the wallet is looked for, leaving the node as it is and starting
    or stopping nothing. *)
Theorem miner_and_staking_exclusive (w : W) (fHelp : bool) (nThreads : Z) :
  (IsVericoin w = true ->
   minerstatus w
   = refused (ErrorMore RPC_INVALID_REQUEST "Action impossible on Vericoin") w /\
   minerstart fHelp nThreads w
   = refused (ErrorMore RPC_INVALID_REQUEST "Action impossible on Vericoin") w /\
   minerstop fHelp w
   = refused (ErrorMore RPC_INVALID_REQUEST "Action impossible on Vericoin") w) /\
  (IsVericoin w = false ->
   stakingstatus w
   = refused (ErrorMore RPC_INVALID_REQUEST "Action impossible on Verium") w /\
   stakingstart fHelp w
   = refused (ErrorMore RPC_INVALID_REQUEST "Action impossible on Verium") w /\
   stakingstop fHelp w
   = refused (ErrorMore RPC_INVALID_REQUEST "Action impossible on Verium") w).
Proof.
  unfold minerstatus, minerstart, minerstop, stakingstatus, stakingstart, stakingstop.
  split; intros ->; repeat split.
Qed.

(** X22: each of the four start and stop commands calls its generator at
    most once, and only on the right chain, with a connection manager and
    after the wallet was found available; it then answers with the status it
    asked for. In every other case no generator is called and the node is
    left as it is. The two stop commands always ask to stop, [minerstop]
    with 0 threads; the two status commands never call a generator. *)
Theorem start_stop_calls (w : W) (fHelp : bool) (nThreads : Z) :
  ((mr_calls (minerstart fHelp nThreads w) = [] /\ mr_final (minerstart fHelp nThreads w) = w)
   \/ (IsVericoin w = false /\
       has_connman w = true /\ wallet_available w fHelp = inr true /\
       minerstart fHelp nThreads w
       = {| mr_result := inr (MStatus "active" (Some nThreads));
            mr_final := GenerateVerium true nThreads w;
            mr_calls := [CallGenerateVerium true nThreads] |})) /\
  ((mr_calls (minerstop fHelp w) = [] /\ mr_final (minerstop fHelp w) = w)
   \/ (IsVericoin w = false /\
       has_connman w = true /\ wallet_available w fHelp = inr true /\
       minerstop fHelp w
       = {| mr_result := inr (MStatus "stopped" (Some 0));
            mr_final := GenerateVerium false 0 w;
            mr_calls := [CallGenerateVerium false 0] |})) /\
  ((mr_calls (stakingstart fHelp w) = [] /\ mr_final (stakingstart fHelp w) = w)
   \/ (IsVericoin w = true /\
       has_connman w = true /\ wallet_available w fHelp = inr true /\
       stakingstart fHelp w
       = {| mr_result := inr (MStatus "active" None);
            mr_final := GenerateVericoin true w;
            mr_calls := [CallGenerateVericoin true] |})) /\
  ((mr_calls (stakingstop fHelp w) = [] /\ mr_final (stakingstop fHelp w) = w)
   \/ (IsVericoin w = true /\
       has_connman w = true /\ wallet_available w fHelp = inr true /\
       stakingstop fHelp w
       = {| mr_result := inr (MStatus "stopped" None);
            mr_final := GenerateVericoin false w;
            mr_calls := [CallGenerateVericoin false] |})) /\
  mr_calls (minerstatus w) = [] /\ mr_final (minerstatus w) = w /\
  mr_calls (stakingstatus w) = [] /\ mr_final (stakingstatus w) = w.
Proof.
  unfold minerstart, minerstop, stakingstart, stakingstop, minerstatus, stakingstatus,
    with_wallet.
  destruct (IsVericoin w), (has_connman w), (wallet_available w fHelp) as [e|[|]];
    cbn [negb refused mr_calls mr_final];
    repeat split; first [left; split; reflexivity | right; repeat split].
Qed.

End MinerProps.

(** ** The further properties on the small node *)

Lemma getblocktemplate_invalid_mode_witness :
  getblocktemplate (Some {| modeval := JStr "getwork"; lpval := JOther; dataval := JNull |})
    toy_cached (toy_with_sync true 0 (toy_node 0 700%N 0 true)) []
  = ran (Answered (Throw RPC_INVALID_PARAMETER "Invalid mode"))
        (toy_cached, toy_with_sync true 0 (toy_node 0 700%N 0 true)) [].
Proof.
  apply (getblocktemplate_invalid_mode (S := ToyState)).
  right. exists "getwork". split; [reflexivity|]. split; discriminate.
Defined.

Lemma proposal_leaves_cache_witness :
  fst (final (getblocktemplate (Some toy_proposal_request) toy_cached
                (toy_with_sync true 0 (toy_node 0 700%N 0 true)) []))
  = toy_cached.
Proof.
  apply (proposal_leaves_cache (S := ToyState) toy_proposal_request toy_cached
           (toy_with_sync true 0 (toy_node 0 700%N 0 true)) [] eq_refl).
Defined.

Lemma template_cache_reuse_witness :
  update_block (fst (final (update_block toy_stale (toy_node 0 700%N 0 true))))
    (toy_node 3 700%N 1 true)
  = ran (Return tt)
        (fst (final (update_block toy_stale (toy_node 0 700%N 0 true))),
         toy_node 3 700%N 1 true) [].
Proof.
  pose proof (template_cache_reuse (S := ToyState) toy_stale (toy_node 0 700%N 0 true)
                (toy_node 0 700%N 0 true) (toy_node 3 700%N 1 true) toy_template) as T.
  apply T.
  - discriminate.
  - right; left. discriminate.
  - reflexivity.
  - reflexivity.
  - right. apply Z.leb_le. reflexivity.
Defined.

Lemma longpoll_wait_exit_witness :
  let r := longpoll_wait (700%N, 0) (toy_node 0 700%N 0 true)
             [toy_node 30 700%N 1 true; toy_node 61 700%N 0 true;
              toy_node 71 700%N 2 true] in
  g_best_block (wt_node r) <> 700%N
  \/ IsRPCRunning (wt_node r) = false
  \/ (GetTransactionsUpdated (wt_node r) <> 0 /\ 0 + 60 <= steady_clock_now (wt_node r)).
Proof.
  exact (longpoll_wait_exit (S := ToyState) (700%N, 0) (toy_node 0 700%N 0 true)
           [toy_node 30 700%N 1 true; toy_node 61 700%N 0 true;
            toy_node 71 700%N 2 true] eq_refl).
Defined.

Lemma template_entry_of_block_witness :
  exists (k : nat) (tx : CTransaction),
    vtx (block toy_pool_template) !! k = Some tx /\ (2 <= k)%nat /\
    tx_hash tx = 13%N /\
    forall d : Z, d ∈ [2; 1] -> 0 <= d <= Z.of_nat k.
Proof.
  pose proof (template_entry_of_block toy_pool_template 2
                {| e_txid := 13%N; e_hash := 13%N; e_depends := [2; 1];
                   e_fee := 10; e_sigops := 4 |} eq_refl) as T.
  destruct T as (k & tx & Hl & _ & Hk & Hid & _ & _ & _ & Hd).
  exists k, tx. split; [exact Hl|]. split; [exact Hk|]. split; [symmetry; exact Hid|].
  intros d Hin. apply (Hd d Hin).
Defined.

Lemma search_nonce_accounting_witness :
  let r := search_nonce (Z.to_nat 10) (toy_candidate 0) 10 toy_hard_node in
  fst (fst r) = toy_candidate 2 /\ snd (fst r) = 8 /\
  10 - snd (fst r) = nNonce (fst (fst r)) - 0 /\
  CheckProofOfWork (GetHash (toy_candidate 1)) 3 = false.
Proof.
  pose proof (search_nonce_accounting (S := ToyState) (toy_candidate 0) 10 toy_hard_node) as T.
  cbv zeta in T. destruct T as (_ & _ & _ & Hacc & Hskip).
  - apply Z.leb_le. reflexivity.
  - apply Z.leb_le. reflexivity.
  - cbv zeta. split; [reflexivity|]. split; [reflexivity|]. split; [exact Hacc|].
    apply (Hskip 1). split; [apply Z.leb_le | apply Z.ltb_lt]; reflexivity.
Defined.

Lemma generate_loop_failures_witness :
  result (generateBlocks 3 [OP_TRUE] 2 10 (toy_engine_node false false None))
  = Some (Throw RPC_INTERNAL_ERROR "ProcessNewBlock, block not accepted").
Proof.
  pose proof (generate_loop_failures (S := ToyState) 2 [OP_TRUE] 9 7 10 0 []
                (toy_engine_node false false None) (toy_engine_node false false None) []
                ltac:(apply Z.ltb_lt; reflexivity) eq_refl) as T.
  cbv zeta in T. destruct T as (_ & T).
  refine (proj1 (T _ _ _ _ _ _ _ _ _ eq_refl eq_refl eq_refl _ eq_refl _ eq_refl));
    discriminate.
Defined.

Lemma generateBlocks_hashes_of_processed_witness :
  [70002%N; 7000200%N]
  = omap processed_hash (calls (generateBlocks 3 [OP_TRUE] 2 10 toy_hard_node))
  /\ Z.of_nat (length [70002%N; 7000200%N]) <= Z.max 0 2.
Proof.
  pose proof (generateBlocks_hashes_of_processed (S := ToyState) 3 [OP_TRUE] 2 10
                toy_hard_node [70002%N; 7000200%N] eq_refl) as (Hh & _ & Hb).
  split; [exact Hh|]. apply Hb. apply Z.leb_le. reflexivity.
Defined.

(** Below [INT_MIN] the number of blocks asked for is no bound: at height
    -1, [INT_MIN] blocks asked for make the end height [INT_MAX], and a
    block is mined before shutdown is requested. *)
Lemma generateBlocks_underflow_example :
  result (generateBlocks 2 [OP_TRUE] INT_MIN 1
            (toy_with_height (-1)
               (toy_with_polls (Some 2%nat) (toy_node 0 700%N 0 true))))
  = Some (Return [70000%N]).
Proof. vm_compute. reflexivity. Qed.

Lemma generateBlocks_submits_proof_of_work_witness :
  In (CallProcessNewBlock (toy_candidate 2) true)
     (calls (generateBlocks 3 [OP_TRUE] 2 10 toy_hard_node)) /\
  CheckProofOfWork (GetHash (toy_candidate 2)) (nBits (toy_candidate 2)) = true.
Proof.
  assert (Hin : In (CallProcessNewBlock (toy_candidate 2) true)
                   (calls (generateBlocks 3 [OP_TRUE] 2 10 toy_hard_node)))
    by (right; left; reflexivity).
  split; [exact Hin|].
  apply (generateBlocks_submits_proof_of_work (S := ToyState) 3 [OP_TRUE] 2 10
           toy_hard_node (toy_candidate 2) true).
  - apply Z.leb_le. reflexivity.
  - intros w0 w1. cbn. unfold toy_poll.
    destruct (toy_polls w0) as [[|n]|] eqn:E; intros Hp; try discriminate.
    injection Hp as <-. rewrite E. reflexivity.
  - intros w0 w1 tpl tip n. cbn. unfold toy_assemble.
    destruct (toy_oom w0); [discriminate|]. intros Hc. injection Hc as <- <-.
    cbn. discriminate.
  - exact Hin.
Defined.

Lemma submitheader_refusals_witness :
  hr_result (submitheader "ab" (toy_node 0 700%N 0 true))
    = Throw RPC_VERIFY_ERROR "Must submit previous header (ff) first" /\
  hr_headers (submitheader "ab" (toy_node 0 700%N 0 true)) = [] /\
  hr_result (submitheader "abc" (toy_engine_node false false (Some (TInvalid EmptyString))))
    = Throw RPC_VERIFY_ERROR EmptyString /\
  hr_result (submitheader "abc" (toy_engine_node false false (Some (TError "oom"))))
    = Throw RPC_VERIFY_ERROR "oom".
Proof.
  pose proof (submitheader_refusals (S := ToyState) "ab" (toy_node 0 700%N 0 true) _ eq_refl)
    as (T1 & _).
  pose proof (submitheader_refusals (S := ToyState) "abc"
                (toy_engine_node false false (Some (TInvalid EmptyString))) _ eq_refl)
    as (_ & T2).
  pose proof (submitheader_refusals (S := ToyState) "abc"
                (toy_engine_node false false (Some (TError "oom"))) _ eq_refl)
    as (_ & T3).
  split; [rewrite (T1 eq_refl); reflexivity|].
  split; [rewrite (T1 eq_refl); reflexivity|].
  split; [apply T2; [discriminate | reflexivity] | apply T3; [discriminate | reflexivity]].
Defined.

Lemma generatetodescriptor_as_address_witness :
  generatetodescriptor 3 2 "xyz" (Some (-1)) toy_hard_node
  = generatetoaddress 3 2 "abc" (Some (-1)) toy_hard_node.
Proof.
  pose proof (generatetodescriptor_as_address (S := ToyState) 3 2 "xyz" "abc" (Some (-1))
                toy_hard_node _ eq_refl) as (_ & T).
  apply T; reflexivity.
Defined.
